(** * nexus_neural_dao: the browser front end of the financial modelling service

    A shallow embedding of the three variants of the presentation layer,

    - [App]    : src/app/static/scripts/app.js  (class FinancialApp, with charts),
    - [Legacy] : src/unnamed/part_000           (class FinancialApp, no charts),
    - [Script] : src/app/static/script.js       (form handlers and free functions),

    over a model of the parts of the JavaScript runtime they use ([JS]) and of
    the page they write to ([Dom]).

    Conventions of the embedding.
    - A JavaScript number is a binary64 float ([PrimFloat.float]); arithmetic
      is the kernel's IEEE 754 arithmetic.
    - A JavaScript string is a [string] holding its UTF-8 bytes (a surrogate
      on its own in the generalized form).  Only ASCII
      characters are word characters for [\w], as in the source's regular
      expressions (no [u] flag).
    - The server's payloads are typed as the source reads them: a field of a
      projection is a number, [null] or absent ([field float]); the error
      payload of a failed search is any JSON value ([JSValue]).
    - An [async] method is run to completion: its awaits are taken at once,
      and no other event handler runs in between.  What a method does after
      its awaits is given as well as a function of the state it resumes in
      ([App_settle], [App_export_settle] and the like), for the runs in which
      other handlers ran while it waited.
    - Scrolling, focus and timers change nothing that a definition here
      reads, and are left out. *)

From Stdlib Require Import ZArith QArith Qround Qabs Bool Ascii String List.
From Stdlib Require Import PrimFloat FloatOps SpecFloat Uint63 DecimalString.
From Stdlib Require FloatAxioms.
From stdpp Require Import base gmap strings list.
Import ListNotations.

Local Open Scope string_scope.
Local Open Scope list_scope.
Local Open Scope Z_scope.
Local Set Warnings "-register-all,-inexact-float".

(* ================================================================== *)
(** * The JavaScript runtime *)
(* ================================================================== *)

Module JS.

(** ** Strings *)

Definition code (a : ascii) : Z := Z.of_nat (nat_of_ascii a).
Definition chr (z : Z) : ascii := ascii_of_nat (Z.to_nat z).

Definition between (lo hi : Z) (a : ascii) : bool :=
  (lo <=? code a) && (code a <=? hi).

Definition is_lower (a : ascii) : bool := between 97 122 a.
Definition is_upper (a : ascii) : bool := between 65 90 a.
Definition is_digit (a : ascii) : bool := between 48 57 a.

(** The class [\w] of a regular expression without flags: [A-Za-z0-9_]. *)
Definition is_word (a : ascii) : bool :=
  is_lower a || is_upper a || is_digit a || (code a =? 95).

(** [toUpperCase] on one ASCII character. *)
Definition upper (a : ascii) : ascii :=
  if is_lower a then chr (code a - 32) else a.

Fixpoint string_map (f : ascii -> ascii) (s : string) : string :=
  match s with
  | EmptyString => EmptyString
  | String a r => String (f a) (string_map f r)
  end.

(** [s.toUpperCase()] on the ASCII letters of [s]: exact for a string of
    ASCII characters.  The case mapping of the other characters is not
    modelled (their bytes are left as they are), and what is proved of the
    text of an item through this function is proved for ASCII names. *)
Definition toUpperCase (s : string) : string := string_map upper s.

(** [s.replace(/_/g, ' ')]. *)
Definition underscores_to_spaces (s : string) : string :=
  string_map (fun a => if code a =? 95 then " "%char else a) s.

(** [s.replace(/\b\w/g, l => l.toUpperCase())].  The scan keeps whether the
    character before the current one is a word character: [\b\w] matches a
    word character that starts the string or follows a non-word character. *)
Fixpoint capitalize_from (prev_word : bool) (s : string) : string :=
  match s with
  | EmptyString => EmptyString
  | String a r =>
      String (if is_word a && negb prev_word then upper a else a)
             (capitalize_from (is_word a) r)
  end.

Definition capitalize_words (s : string) : string := capitalize_from false s.

Fixpoint string_rev_onto (acc s : string) : string :=
  match s with
  | EmptyString => acc
  | String a r => string_rev_onto (String a acc) r
  end.

Definition string_rev (s : string) : string := string_rev_onto EmptyString s.

(** [s.substring(0, n)] counts UTF-16 code units: a character of one, two
    or three bytes is one unit, a character of four bytes is two (a
    surrogate pair).  [utf16_prefix_from n pending s] takes [n] units of [s],
    [pending] bytes of the current character being still to copy.  When
    one unit is left and a four-byte character comes, the prefix ends with
    its high surrogate alone, written as the three bytes of the generalized
    UTF-8 form. *)
Definition high_surrogate (b0 b1 b2 b3 : Z) : string :=
  let cp := (b0 - 240) * 262144 + (b1 - 128) * 4096 + (b2 - 128) * 64 + (b3 - 128) in
  let hi := 55296 + (cp - 65536) / 1024 in
  String (chr 237) (String (chr (128 + (hi / 64) mod 64)) (String (chr (128 + hi mod 64))
    EmptyString)).

Fixpoint utf16_prefix_from (n pending : nat) (s : string) : string :=
  match s with
  | EmptyString => EmptyString
  | String a r =>
      match pending with
      | S pending' => String a (utf16_prefix_from n pending' r)
      | O =>
          match n with
          | O => EmptyString
          | S n' =>
              if code a <? 192 then String a (utf16_prefix_from n' 0 r)
              else if code a <? 224 then String a (utf16_prefix_from n' 1 r)
              else if code a <? 240 then String a (utf16_prefix_from n' 2 r)
              else
                match n' with
                | S n'' => String a (utf16_prefix_from n'' 3 r)
                | O =>
                    match r with
                    | String b1 (String b2 (String b3 _)) =>
                        high_surrogate (code a) (code b1) (code b2) (code b3)
                    | _ => EmptyString
                    end
                end
          end
      end
  end.

Definition utf16_prefix (n : nat) (s : string) : string := utf16_prefix_from n 0 s.

(** White space and line terminators of ECMAScript, in UTF-8: the ASCII ones
    in one byte, U+00A0 in two, and U+1680, U+2000..U+200A, U+2028, U+2029,
    U+202F, U+205F, U+3000 and U+FEFF in three. *)
Definition ws1 (a : Z) : bool := ((9 <=? a) && (a <=? 13)) || (a =? 32).
Definition ws2 (a b : Z) : bool := (a =? 194) && (b =? 160).
Definition ws3 (a b c : Z) : bool :=
  ((a =? 225) && (b =? 154) && (c =? 128))
  || ((a =? 226) && (b =? 128)
      && (((128 <=? c) && (c <=? 138)) || (c =? 168) || (c =? 169) || (c =? 175)))
  || ((a =? 226) && (b =? 129) && (c =? 159))
  || ((a =? 227) && (b =? 128) && (c =? 128))
  || ((a =? 239) && (b =? 187) && (c =? 191)).

(** Drops leading white space; with [backwards] the string is a reversed
    one, and the bytes of a character come last byte first. *)
Fixpoint drop_ws (backwards : bool) (s : string) : string :=
  match s with
  | EmptyString => s
  | String a r =>
      if ws1 (code a) then drop_ws backwards r
      else match r with
           | EmptyString => s
           | String b r2 =>
               if (if backwards then ws2 (code b) (code a) else ws2 (code a) (code b))
               then drop_ws backwards r2
               else match r2 with
                    | EmptyString => s
                    | String c r3 =>
                        if (if backwards then ws3 (code c) (code b) (code a)
                            else ws3 (code a) (code b) (code c))
                        then drop_ws backwards r3
                        else s
                    end
           end
  end.

(** [s.trim()]. *)
Definition trim (s : string) : string :=
  string_rev (drop_ws true (string_rev (drop_ws false s))).

Definition hex_digit (z : Z) : ascii :=
  if z <? 10 then chr (48 + z) else chr (55 + z).

Definition percent (a : ascii) : string :=
  String "%"%char (String (hex_digit (code a / 16)) (String (hex_digit (code a mod 16)) EmptyString)).

Fixpoint mem_ascii (a : ascii) (s : string) : bool :=
  match s with
  | EmptyString => false
  | String b r => (code a =? code b) || mem_ascii a r
  end.

Fixpoint escape_bytes (keep : ascii -> bool) (space_plus : bool) (s : string) : string :=
  match s with
  | EmptyString => EmptyString
  | String a r =>
      (if keep a then String a EmptyString
       else if space_plus && (code a =? 32) then "+"
       else percent a) +:+ escape_bytes keep space_plus r
  end.

Definition is_alnum (a : ascii) : bool := is_lower a || is_upper a || is_digit a.

(** [encodeURIComponent(s)]: every byte but the unreserved ones is escaped. *)
Definition encodeURIComponent (s : string) : string :=
  escape_bytes (fun a => is_alnum a || mem_ascii a "-_.!~*'()") false s.

(** The serializer of [URLSearchParams]
    (application/x-www-form-urlencoded), on one name or value. *)
Definition form_urlencode (s : string) : string :=
  escape_bytes (fun a => is_alnum a || mem_ascii a "*-._") true s.

(** [s.includes(t)]. *)
Fixpoint includes (s t : string) : bool :=
  String.prefix t s ||
  match s with
  | EmptyString => false
  | String _ r => includes r t
  end.

(** ** Numbers *)

Definition pow_Q (b p : Z) : Q :=
  if 0 <=? p then inject_Z (b ^ p) else Qmake 1 (Z.to_pos (b ^ (- p))).

Definition Qleb (a b : Q) : bool := Qle_bool a b.
Definition Qltb (a b : Q) : bool := negb (Qle_bool b a).

Definition digits_of (z : Z) : string :=
  NilZero.string_of_uint (N.to_uint (Z.to_N z)).

Fixpoint zeros (n : nat) : string :=
  match n with O => "" | S n => "0" +:+ zeros n end.

(** The reals that round to the double [m * 2^e] (round to nearest, ties to
    even), [m] and [e] as [Prim2SF] gives them. *)
Definition rounds_to (m e : Z) (v : Q) : bool :=
  let lo := if (m =? 2 ^ 52) && (-1074 <? e)
            then (inject_Z (4 * m - 1) * pow_Q 2 (e - 2))%Q
            else (inject_Z (2 * m - 1) * pow_Q 2 (e - 1))%Q in
  let hi := (inject_Z (2 * m + 1) * pow_Q 2 (e - 1))%Q in
  if Z.even m then Qleb lo v && Qleb v hi else Qltb lo v && Qltb v hi.

(** The least [n] from [n0] on with [x < 10^n]. *)
Fixpoint decimal_exponent (fuel : nat) (x : Q) (n : Z) : Z :=
  match fuel with
  | O => n
  | S fuel => if Qltb x (pow_Q 10 n) then n else decimal_exponent fuel x (n + 1)
  end.

(** The shortest decimal [c * 10^p] that reads back as the double: with [k]
    digits, [k] from 1 on, the two [k]-digit decimals around [x] are tried,
    and the one nearer to [x] wins when both read back as [x]. *)
Fixpoint shortest_from (fuel : nat) (m e : Z) (x : Q) (n k : Z) : Z * Z :=
  match fuel with
  | O => (0, 0)
  | S fuel =>
      let scale := pow_Q 10 (n - k) in
      let lo := Qfloor (x / scale)%Q in
      let hi := lo + 1 in
      let vlo := (inject_Z lo * scale)%Q in
      let vhi := (inject_Z hi * scale)%Q in
      let oklo := (1 <=? lo) && rounds_to m e vlo in
      let okhi := rounds_to m e vhi in
      if oklo && okhi then
        (if Qleb (Qabs (x - vlo)%Q) (Qabs (vhi - x)%Q) then (lo, n - k) else (hi, n - k))
      else if oklo then (lo, n - k)
      else if okhi then (hi, n - k)
      else shortest_from fuel m e x n (k + 1)
  end.

Definition shortest (m e : Z) : Z * Z :=
  let x := (inject_Z m * pow_Q 2 e)%Q in
  let n0 := (Z.log2 m + e) * 30103 / 100000 - 1 in
  shortest_from 17 m e x (decimal_exponent 8 x n0) 1.

Fixpoint strip_zeros (fuel : nat) (c p : Z) : Z * Z :=
  match fuel with
  | O => (c, p)
  | S fuel =>
      if (c mod 10 =? 0) && negb (c =? 0) then strip_zeros fuel (c / 10) (p + 1)
      else (c, p)
  end.

Definition string_from (n : nat) (s : string) : string :=
  substring n (String.length s - n) s.

(** Number::toString of a positive finite double [m * 2^e] (ECMA-262, 6.1.6.1.20). *)
Definition Number_toString_pos (m e : Z) : string :=
  let '(c0, p0) := shortest m e in
  let '(c, p) := strip_zeros 20 c0 p0 in
  let ds := digits_of c in
  let k := Z.of_nat (String.length ds) in
  let n := p + k in
  if (k <=? n) && (n <=? 21) then ds +:+ zeros (Z.to_nat (n - k))
  else if (0 <? n) && (n <=? 21) then
    substring 0 (Z.to_nat n) ds +:+ "." +:+ string_from (Z.to_nat n) ds
  else if (-6 <? n) && (n <=? 0) then "0." +:+ zeros (Z.to_nat (- n)) +:+ ds
  else
    let ex := n - 1 in
    (if k =? 1 then ds else substring 0 1 ds +:+ "." +:+ string_from 1 ds)
      +:+ "e" +:+ (if ex <? 0 then "-" else "+") +:+ digits_of (Z.abs ex).

(** [String(x)] for a number [x]. *)
Definition Number_toString (x : float) : string :=
  match Prim2SF x with
  | S754_nan => "NaN"
  | S754_zero _ => "0"
  | S754_infinity s => if s then "-Infinity" else "Infinity"
  | S754_finite s m e => (if s then "-" else "") +:+ Number_toString_pos (Zpos m) e
  end.

(** The double of an integer below [2^53] in magnitude. *)
Definition float_of_Z (z : Z) : float :=
  let a := PrimFloat.of_uint63 (Uint63.of_Z (Z.abs z)) in
  if z <? 0 then PrimFloat.opp a else a.

(** [Math.round(x)]: the integer nearest to [x], the larger one at a tie;
    [-0] for a negative [x] that rounds to zero.  A double with a
    non-negative exponent is an integer already. *)
Definition Math_round (x : float) : float :=
  match Prim2SF x with
  | S754_finite s m e =>
      if 0 <=? e then x
      else
        let d := 2 ^ (- e) in
        let num := if s then - Zpos m else Zpos m in
        let r := (2 * num + d) / (2 * d) in
        if (r =? 0) && s then PrimFloat.opp PrimFloat.zero else float_of_Z r
  | _ => x
  end.

(** ToBoolean of a number: [0], [-0] and [NaN] are falsy. *)
Definition truthy_number (x : float) : bool :=
  negb (PrimFloat.eqb x PrimFloat.zero || PrimFloat.is_nan x).

(** Groups the digits of an integer in threes: ["1234567"] to ["1,234,567"]. *)
Fixpoint group_from (n : nat) (s : string) : string :=
  match s with
  | EmptyString => EmptyString
  | String a r =>
      String a (if negb (Nat.eqb n 0) && Nat.eqb (n mod 3) 0 then "," +:+ group_from (n - 1) r
                else group_from (n - 1) r)
  end.

Definition group_thousands (s : string) : string :=
  group_from (String.length s - 1) s.

(** The decimal value a number formatter starts from: the shortest decimal
    of the double, as ICU takes it. *)
Definition decimal_value (m e : Z) : Q :=
  let '(c, p) := shortest m e in (inject_Z c * pow_Q 10 p)%Q.

Definition round_half_up (d : Q) : Z := Qfloor (d + (1 # 2))%Q.

Fixpoint strip_trailing_zeros (s : string) : string :=
  match s with
  | EmptyString => EmptyString
  | String a r =>
      match strip_trailing_zeros r with
      | EmptyString => if code a =? 48 then EmptyString else String a EmptyString
      | r' => String a r'
      end
  end.

Definition pad_left (n : nat) (s : string) : string :=
  zeros (n - String.length s) +:+ s.

(** A magnitude in the en-US decimal style: grouped integer part and at most
    [frac] fraction digits, rounded half away from zero. *)
Definition en_US_magnitude (frac : nat) (d : Q) : string :=
  let unit := 10 ^ Z.of_nat frac in
  let r := round_half_up (d * inject_Z unit)%Q in
  let f := strip_trailing_zeros (pad_left frac (digits_of (r mod unit))) in
  group_thousands (digits_of (r / unit))
    +:+ (if String.eqb f "" then "" else "." +:+ f).

Definition infinity_sign : string :=
  String (chr 226) (String (chr 136) (String (chr 158) EmptyString)).

(** [new Intl.NumberFormat('en-US', opts).format(x)] for a number [x]:
    [prefix] is the currency symbol, [frac] the maximum of fraction digits
    (the minimum is 0); the sign goes before the symbol. *)
Definition Intl_format (prefix : string) (frac : nat) (x : float) : string :=
  match Prim2SF x with
  | S754_nan => prefix +:+ "NaN"
  | S754_zero s => (if s then "-" else "") +:+ prefix +:+ "0"
  | S754_infinity s => (if s then "-" else "") +:+ prefix +:+ infinity_sign
  | S754_finite s m e =>
      (if s then "-" else "") +:+ prefix +:+ en_US_magnitude frac (decimal_value (Zpos m) e)
  end.

(** [x.toLocaleString()], the host's locale taken to be en-US. *)
Definition Number_toLocaleString (x : float) : string := Intl_format "" 3 x.

(** [x.toFixed(1)] (ECMA-262, 21.1.3.3): the nearest tenth of the exact
    value, the larger one at a tie; from [1e21] on, [String(x)]. *)
Definition toFixed1 (x : float) : string :=
  match Prim2SF x with
  | S754_nan => "NaN"
  | S754_zero _ => "0.0"
  | S754_infinity s => if s then "-Infinity" else "Infinity"
  | S754_finite s m e =>
      let v := (inject_Z (Zpos m) * pow_Q 2 e)%Q in
      if Qleb (inject_Z (10 ^ 21)) v then Number_toString x
      else
        let n := round_half_up (v * 10)%Q in
        (if s then "-" else "") +:+ digits_of (n / 10) +:+ "." +:+ digits_of (n mod 10)
  end.

(** ** Values *)

(** A value as [JSON.parse] gives it, and [undefined]. *)
Inductive JSValue : Type :=
  | JUndefined
  | JNull
  | JBool (b : bool)
  | JNumber (x : float)
  | JString (s : string)
  | JArray (items : list JSValue)
  | JObject (props : list (string * JSValue)).

Definition ToBoolean (v : JSValue) : bool :=
  match v with
  | JUndefined | JNull => false
  | JBool b => b
  | JNumber x => truthy_number x
  | JString s => negb (String.eqb s "")
  | JArray _ | JObject _ => true
  end.

Definition join_with (sep : string) (l : list string) : string :=
  match l with
  | [] => ""
  | x :: r => fold_left (fun acc y => acc +:+ sep +:+ y) r x
  end.

(** [String(v)].  An array joins its items with commas, [null] and
    [undefined] items as empty strings; a plain object is
    ["[object Object]"]. *)
Fixpoint ToString (v : JSValue) : string :=
  match v with
  | JUndefined => "undefined"
  | JNull => "null"
  | JBool b => if b then "true" else "false"
  | JNumber x => Number_toString x
  | JString s => s
  | JArray items =>
      join_with ","
        (List.map (fun i => match i with
                            | JUndefined | JNull => ""
                            | _ => ToString i
                            end) items)
  | JObject _ => "[object Object]"
  end.

(** A value of a field that the server may leave out or send as [null]. *)
Inductive field (A : Type) : Type :=
  | Absent
  | Null
  | Present (a : A).
Arguments Absent {A}.
Arguments Null {A}.
Arguments Present {A} a.

Definition nullish {A} (f : field A) : bool :=
  match f with Present _ => false | _ => true end.

(** [String(f)] for a numeric field. *)
Definition show_number (f : field float) : string :=
  match f with
  | Absent => "undefined"
  | Null => "null"
  | Present x => Number_toString x
  end.

(** [f || 0] for a numeric field. *)
Definition or_zero (f : field float) : float :=
  match f with
  | Present x => if truthy_number x then x else PrimFloat.zero
  | _ => PrimFloat.zero
  end.

(** [f ?? 0] for a numeric field. *)
Definition nullish_zero (f : field float) : float :=
  match f with
  | Present x => x
  | _ => PrimFloat.zero
  end.

(** ToNumber of a numeric field: [undefined] is [NaN], [null] is [0]. *)
Definition ToNumber (f : field float) : float :=
  match f with
  | Absent => PrimFloat.nan
  | Null => PrimFloat.zero
  | Present x => x
  end.

(** [f || d] for a string field: the empty string is falsy too. *)
Definition or_string (f : field string) (d : string) : string :=
  match f with
  | Present s => if String.eqb s "" then d else s
  | _ => d
  end.

Definition truthy_string (f : field string) : bool :=
  match f with
  | Present s => negb (String.eqb s "")
  | _ => false
  end.

Definition value_of_string (f : field string) : JSValue :=
  match f with
  | Absent => JUndefined
  | Null => JNull
  | Present s => JString s
  end.

(** ** Errors and completions *)

(** An error object: its [name] and its [message]. *)
Record JsError : Type := mkError { name : string; message : string }.

(** [new Error(v)]. *)
Definition new_Error (v : JSValue) : JsError :=
  mkError "Error" (match v with JUndefined => "" | _ => ToString v end).

Definition TypeError (msg : string) : JsError := mkError "TypeError" msg.

(** [String(e)], which is [Error.prototype.toString]. *)
Definition Error_toString (e : JsError) : string :=
  if String.eqb (name e) "" then message e
  else if String.eqb (message e) "" then name e
  else name e +:+ ": " +:+ message e.

(** How an evaluation completes: with a value, or by throwing. *)
Inductive Outcome (A : Type) : Type :=
  | Ok (a : A)
  | Throw (e : JsError).
Arguments Ok {A} a.
Arguments Throw {A} e.

(** [v.detail] for a parsed JSON value [v]: reading a property of [null] or
    [undefined] throws; an object gives its property or [undefined]; any
    other value has no such property.  An object lists each of its keys
    once. *)
Fixpoint lookup_prop (k : string) (props : list (string * JSValue)) : JSValue :=
  match props with
  | [] => JUndefined
  | (k', v) :: r => if String.eqb k k' then v else lookup_prop k r
  end.

Definition get_detail (v : JSValue) : Outcome JSValue :=
  match v with
  | JUndefined => Throw (TypeError "Cannot read properties of undefined (reading 'detail')")
  | JNull => Throw (TypeError "Cannot read properties of null (reading 'detail')")
  | JObject props => Ok (lookup_prop "detail" props)
  | _ => Ok JUndefined
  end.

(** ** Effects: a state that is updated in place, and exceptions *)

Definition M (S A : Type) : Type := S -> Outcome A * S.

Definition ret {S A} (a : A) : M S A := fun s => (Ok a, s).
Definition throw {S A} (e : JsError) : M S A := fun s => (Throw e, s).

Definition bind {S A B} (c : M S A) (k : A -> M S B) : M S B :=
  fun s => match c s with
           | (Ok a, s') => k a s'
           | (Throw e, s') => (Throw e, s')
           end.

(** A statement that cannot throw, as an update of the state. *)
Definition exec {S} (f : S -> S) : M S unit := fun s => (Ok tt, f s).

(** [try { body } catch (e) { handler(e) }]. *)
Definition try_catch {S A} (body : M S A) (handler : JsError -> M S A) : M S A :=
  fun s => match body s with
           | (Ok a, s') => (Ok a, s')
           | (Throw e, s') => handler e s'
           end.

(** [try { body } finally { fin }]: [fin] runs either way, and what it
    throws takes over. *)
Definition try_finally {S A} (body : M S A) (fin : M S unit) : M S A :=
  fun s => match body s with
           | (r, s') => match fin s' with
                        | (Ok _, s'') => (r, s'')
                        | (Throw e, s'') => (Throw e, s'')
                        end
           end.

(** Reads the state. *)
Definition gets {S A} (f : S -> A) : M S A := fun s => (Ok (f s), s).

(** A completion that touches no state. *)
Definition lift {S A} (o : Outcome A) : M S A := fun s => (o, s).

(** The state a computation leaves. *)
Definition run {S A} (c : M S A) (s : S) : S := snd (c s).

End JS.

Notation "x <- c1 ;; c2" := (JS.bind c1 (fun x => c2))
  (at level 100, c1 at next level, right associativity).
Notation "c1 ;; c2" := (JS.bind c1 (fun _ => c2))
  (at level 100, right associativity).

Import JS.

(* ================================================================== *)
(** * The page *)
(* ================================================================== *)

Module Dom.

(** An element with its tag, its class and its children, or a text node.
    The white space between the elements of a template is left out.  A
    template is assigned to [innerHTML]: [Text s] is the string [s] as the
    template hands it to the page, where the browser reads it as markup (a
    payload string with ["<"] or ["&"] in it is parsed there). *)
Inductive Html : Type :=
  | Text (s : string)
  | El (tag cls : string) (kids : list Html).

Fixpoint textContent (h : Html) : string :=
  match h with
  | Text s => s
  | El _ _ kids => fold_right (fun k acc => textContent k +:+ acc) "" kids
  end.

(** The cells of a table row, as the texts they show. *)
Definition cells (row : Html) : list string :=
  match row with
  | El _ _ kids => List.map textContent kids
  | Text _ => []
  end.

(** [#errorMessage]: whether it has the class [hidden], and the text of
    the [#errorText] inside it. *)
Record ErrorElement : Type := mkErrorElement { err_hidden : bool; err_text : string }.

(** [classList.remove('active')] on every element of a list. *)
Definition deactivate_all (l : list (string * bool)) : list (string * bool) :=
  List.map (fun e => (fst e, false)) l.

(** [classList.add('active')] on the first element with the key [k], if
    there is one ([querySelector], [getElementById]). *)
Fixpoint activate_first (k : string) (l : list (string * bool)) : list (string * bool) :=
  match l with
  | [] => []
  | (k', a) :: r => if String.eqb k k' then (k', true) :: r else (k', a) :: activate_first k r
  end.

Definition has_key (k : string) (l : list (string * bool)) : bool :=
  existsb (fun e => String.eqb k (fst e)) l.

(** The keys of the elements that are [active]. *)
Definition active (l : list (string * bool)) : list string :=
  List.map fst (List.filter snd l).

End Dom.

Import Dom.

(* ================================================================== *)
(** * The payloads of the search endpoint *)
(* ================================================================== *)

(** A number or a string, as the value of a driver or of an assumption. *)
Inductive scalar : Type :=
  | SNum (x : float)
  | SStr (s : string).

Record Projection : Type := mkProjection {
  month : field float;
  sales_people : field float;
  large_customers_cumulative : field float;
  small_customers_cumulative : field float;
  large_customer_revenue : field float;
  small_customer_revenue : field float;
  total_revenue : field float
}.

Record Driver : Type := mkDriver {
  d_name : field string;
  d_type : field string;
  d_value : field scalar;
  d_unit : field string;
  d_formula : field string;
  d_business_unit : field string
}.

(** The body of a successful search.  [assumptions] is what app.js reads,
    [assumptions_used] what part_000 reads; a mapping lists its entries in
    the order [Object.keys] gives them. *)
Record Model : Type := mkModel {
  model_id : string;
  monthly_projections : field (list Projection);
  revenue_drivers : field (list Driver);
  assumptions : field (list (string * scalar));
  assumptions_used : field (list (string * scalar))
}.

(** [f || d] for a field that holds an array or an object (always truthy). *)
Definition or_default {A} (f : field A) (d : A) : A :=
  match f with Present a => a | _ => d end.

(** What the network collaborator answers to a search: the request fails,
    or a response comes with [ok] set (its body read as a model of type
    [D]) or not (its body read as JSON); reading the body can throw. *)
Inductive SearchReply (D : Type) : Type :=
  | NetworkError (e : JsError)
  | Success (data : Outcome D)
  | Failure (err : Outcome JSValue).
Arguments NetworkError {D} e.
Arguments Success {D} data.
Arguments Failure {D} err.

(** What it answers to an export: [ExportOk] carries the blob. *)
Inductive ExportReply : Type :=
  | ExportNetworkError (e : JsError)
  | ExportOk (blob : Outcome string)
  | ExportFailure.

(** The collaborator: the reply to each URL. *)
Record Network (D : Type) : Type := mkNetwork {
  search : string -> SearchReply D;
  export_excel : string -> ExportReply
}.
Arguments mkNetwork {D} search export_excel.
Arguments search {D} n url.
Arguments export_excel {D} n url.

(** The three chart slots of [this.charts], each with its canvas. *)
Inductive Slot : Type := RevenueLine | RevenueBreakdown | RevenueMillion.

Definition Slot_eqb (a b : Slot) : bool :=
  match a, b with
  | RevenueLine, RevenueLine | RevenueBreakdown, RevenueBreakdown
  | RevenueMillion, RevenueMillion => true
  | _, _ => false
  end.

(** A Chart.js instance: the canvas it draws on, its configuration (type,
    labels, and the label and data of each dataset; colours and options are
    left out), and whether [destroy()] was called on it. *)
Record Chart : Type := mkChart {
  canvas : Slot;
  kind : string;
  labels : list string;
  datasets : list (string * list float);
  destroyed : bool
}.

(** The application object and the page it runs on.  Both class variants
    use the same page; part_000 has no charts and leaves their fields
    alone. *)
Record State : Type := mkState {
  API_BASE : string;  (* [window.location.origin] *)
  currentModel : option Model;  (* [this.currentModel]: [None] is [null] *)
  revenueLine : option nat;  (* [this.charts.revenueLine]: the index of a chart instance *)
  revenueBreakdown : option nat;  (* [this.charts.revenueBreakdown] *)
  revenueMillion : option nat;  (* [this.charts.revenueMillion] *)
  queryInput : string;  (* [#queryInput.value] *)
  resultsSection_hidden : bool;  (* [#resultsSection] has the class [hidden] *)
  modelId : string;  (* text of [#modelId] *)
  timeHorizon : string;  (* text of [#timeHorizon] *)
  totalRevenue : string;  (* text of [#totalRevenue] *)
  projectionsTable : list Html;  (* children of [#projectionsTable tbody] *)
  driversContainer : list Html;  (* children of [#driversContainer] *)
  assumptionsContainer : list Html;  (* children of [#assumptionsContainer] *)
  loadingIndicator_hidden : bool;  (* [#loadingIndicator] has the class [hidden] *)
  errorMessage : option ErrorElement;  (* [#errorMessage], when the page has one *)
  tab_btns : list (string * bool);  (* the [.tab-btn] buttons: [data-tab] and whether [active] *)
  tab_panes : list (string * bool);  (* the [.tab-pane] panes: [id] and whether [active] *)
  notices : list string;  (* the notifications [showSuccess] has put up *)
  downloads : list (string * string);  (* files saved: name and content *)
  canvases : list Slot;  (* the chart canvases the page has *)
  window_Chart : bool;  (* [window.Chart] is defined *)
  instances : list Chart;  (* every chart instance created so far *)
  requests : list string  (* the URLs fetched so far *)
}.

(** Assignments: one setter for each field that is written. *)
Definition set_currentModel (v : option Model) (s : State) : State :=
  mkState (API_BASE s) v (revenueLine s) (revenueBreakdown s) (revenueMillion s)
    (queryInput s) (resultsSection_hidden s) (modelId s) (timeHorizon s)
    (totalRevenue s) (projectionsTable s) (driversContainer s) (assumptionsContainer s)
    (loadingIndicator_hidden s) (errorMessage s) (tab_btns s) (tab_panes s) (notices s)
    (downloads s) (canvases s) (window_Chart s) (instances s) (requests s).

Definition set_revenueLine (v : option nat) (s : State) : State :=
  mkState (API_BASE s) (currentModel s) v (revenueBreakdown s) (revenueMillion s)
    (queryInput s) (resultsSection_hidden s) (modelId s) (timeHorizon s)
    (totalRevenue s) (projectionsTable s) (driversContainer s) (assumptionsContainer s)
    (loadingIndicator_hidden s) (errorMessage s) (tab_btns s) (tab_panes s) (notices s)
    (downloads s) (canvases s) (window_Chart s) (instances s) (requests s).

Definition set_revenueBreakdown (v : option nat) (s : State) : State :=
  mkState (API_BASE s) (currentModel s) (revenueLine s) v (revenueMillion s)
    (queryInput s) (resultsSection_hidden s) (modelId s) (timeHorizon s)
    (totalRevenue s) (projectionsTable s) (driversContainer s) (assumptionsContainer s)
    (loadingIndicator_hidden s) (errorMessage s) (tab_btns s) (tab_panes s) (notices s)
    (downloads s) (canvases s) (window_Chart s) (instances s) (requests s).

Definition set_revenueMillion (v : option nat) (s : State) : State :=
  mkState (API_BASE s) (currentModel s) (revenueLine s) (revenueBreakdown s) v
    (queryInput s) (resultsSection_hidden s) (modelId s) (timeHorizon s)
    (totalRevenue s) (projectionsTable s) (driversContainer s) (assumptionsContainer s)
    (loadingIndicator_hidden s) (errorMessage s) (tab_btns s) (tab_panes s) (notices s)
    (downloads s) (canvases s) (window_Chart s) (instances s) (requests s).

Definition set_queryInput (v : string) (s : State) : State :=
  mkState (API_BASE s) (currentModel s) (revenueLine s) (revenueBreakdown s)
    (revenueMillion s) v (resultsSection_hidden s) (modelId s) (timeHorizon s)
    (totalRevenue s) (projectionsTable s) (driversContainer s) (assumptionsContainer s)
    (loadingIndicator_hidden s) (errorMessage s) (tab_btns s) (tab_panes s) (notices s)
    (downloads s) (canvases s) (window_Chart s) (instances s) (requests s).

Definition set_resultsSection_hidden (v : bool) (s : State) : State :=
  mkState (API_BASE s) (currentModel s) (revenueLine s) (revenueBreakdown s)
    (revenueMillion s) (queryInput s) v (modelId s) (timeHorizon s) (totalRevenue s)
    (projectionsTable s) (driversContainer s) (assumptionsContainer s)
    (loadingIndicator_hidden s) (errorMessage s) (tab_btns s) (tab_panes s) (notices s)
    (downloads s) (canvases s) (window_Chart s) (instances s) (requests s).

Definition set_modelId (v : string) (s : State) : State :=
  mkState (API_BASE s) (currentModel s) (revenueLine s) (revenueBreakdown s)
    (revenueMillion s) (queryInput s) (resultsSection_hidden s) v (timeHorizon s)
    (totalRevenue s) (projectionsTable s) (driversContainer s) (assumptionsContainer s)
    (loadingIndicator_hidden s) (errorMessage s) (tab_btns s) (tab_panes s) (notices s)
    (downloads s) (canvases s) (window_Chart s) (instances s) (requests s).

Definition set_timeHorizon (v : string) (s : State) : State :=
  mkState (API_BASE s) (currentModel s) (revenueLine s) (revenueBreakdown s)
    (revenueMillion s) (queryInput s) (resultsSection_hidden s) (modelId s) v
    (totalRevenue s) (projectionsTable s) (driversContainer s) (assumptionsContainer s)
    (loadingIndicator_hidden s) (errorMessage s) (tab_btns s) (tab_panes s) (notices s)
    (downloads s) (canvases s) (window_Chart s) (instances s) (requests s).

Definition set_totalRevenue (v : string) (s : State) : State :=
  mkState (API_BASE s) (currentModel s) (revenueLine s) (revenueBreakdown s)
    (revenueMillion s) (queryInput s) (resultsSection_hidden s) (modelId s)
    (timeHorizon s) v (projectionsTable s) (driversContainer s) (assumptionsContainer s)
    (loadingIndicator_hidden s) (errorMessage s) (tab_btns s) (tab_panes s) (notices s)
    (downloads s) (canvases s) (window_Chart s) (instances s) (requests s).

Definition set_projectionsTable (v : list Html) (s : State) : State :=
  mkState (API_BASE s) (currentModel s) (revenueLine s) (revenueBreakdown s)
    (revenueMillion s) (queryInput s) (resultsSection_hidden s) (modelId s)
    (timeHorizon s) (totalRevenue s) v (driversContainer s) (assumptionsContainer s)
    (loadingIndicator_hidden s) (errorMessage s) (tab_btns s) (tab_panes s) (notices s)
    (downloads s) (canvases s) (window_Chart s) (instances s) (requests s).

Definition set_driversContainer (v : list Html) (s : State) : State :=
  mkState (API_BASE s) (currentModel s) (revenueLine s) (revenueBreakdown s)
    (revenueMillion s) (queryInput s) (resultsSection_hidden s) (modelId s)
    (timeHorizon s) (totalRevenue s) (projectionsTable s) v (assumptionsContainer s)
    (loadingIndicator_hidden s) (errorMessage s) (tab_btns s) (tab_panes s) (notices s)
    (downloads s) (canvases s) (window_Chart s) (instances s) (requests s).

Definition set_assumptionsContainer (v : list Html) (s : State) : State :=
  mkState (API_BASE s) (currentModel s) (revenueLine s) (revenueBreakdown s)
    (revenueMillion s) (queryInput s) (resultsSection_hidden s) (modelId s)
    (timeHorizon s) (totalRevenue s) (projectionsTable s) (driversContainer s) v
    (loadingIndicator_hidden s) (errorMessage s) (tab_btns s) (tab_panes s) (notices s)
    (downloads s) (canvases s) (window_Chart s) (instances s) (requests s).

Definition set_loadingIndicator_hidden (v : bool) (s : State) : State :=
  mkState (API_BASE s) (currentModel s) (revenueLine s) (revenueBreakdown s)
    (revenueMillion s) (queryInput s) (resultsSection_hidden s) (modelId s)
    (timeHorizon s) (totalRevenue s) (projectionsTable s) (driversContainer s)
    (assumptionsContainer s) v (errorMessage s) (tab_btns s) (tab_panes s) (notices s)
    (downloads s) (canvases s) (window_Chart s) (instances s) (requests s).

Definition set_errorMessage (v : option ErrorElement) (s : State) : State :=
  mkState (API_BASE s) (currentModel s) (revenueLine s) (revenueBreakdown s)
    (revenueMillion s) (queryInput s) (resultsSection_hidden s) (modelId s)
    (timeHorizon s) (totalRevenue s) (projectionsTable s) (driversContainer s)
    (assumptionsContainer s) (loadingIndicator_hidden s) v (tab_btns s) (tab_panes s)
    (notices s) (downloads s) (canvases s) (window_Chart s) (instances s) (requests s).

Definition set_tab_btns (v : list (string * bool)) (s : State) : State :=
  mkState (API_BASE s) (currentModel s) (revenueLine s) (revenueBreakdown s)
    (revenueMillion s) (queryInput s) (resultsSection_hidden s) (modelId s)
    (timeHorizon s) (totalRevenue s) (projectionsTable s) (driversContainer s)
    (assumptionsContainer s) (loadingIndicator_hidden s) (errorMessage s) v
    (tab_panes s) (notices s) (downloads s) (canvases s) (window_Chart s) (instances s)
    (requests s).

Definition set_tab_panes (v : list (string * bool)) (s : State) : State :=
  mkState (API_BASE s) (currentModel s) (revenueLine s) (revenueBreakdown s)
    (revenueMillion s) (queryInput s) (resultsSection_hidden s) (modelId s)
    (timeHorizon s) (totalRevenue s) (projectionsTable s) (driversContainer s)
    (assumptionsContainer s) (loadingIndicator_hidden s) (errorMessage s) (tab_btns s) v
    (notices s) (downloads s) (canvases s) (window_Chart s) (instances s) (requests s).

Definition set_notices (v : list string) (s : State) : State :=
  mkState (API_BASE s) (currentModel s) (revenueLine s) (revenueBreakdown s)
    (revenueMillion s) (queryInput s) (resultsSection_hidden s) (modelId s)
    (timeHorizon s) (totalRevenue s) (projectionsTable s) (driversContainer s)
    (assumptionsContainer s) (loadingIndicator_hidden s) (errorMessage s) (tab_btns s)
    (tab_panes s) v (downloads s) (canvases s) (window_Chart s) (instances s)
    (requests s).

Definition set_downloads (v : list (string * string)) (s : State) : State :=
  mkState (API_BASE s) (currentModel s) (revenueLine s) (revenueBreakdown s)
    (revenueMillion s) (queryInput s) (resultsSection_hidden s) (modelId s)
    (timeHorizon s) (totalRevenue s) (projectionsTable s) (driversContainer s)
    (assumptionsContainer s) (loadingIndicator_hidden s) (errorMessage s) (tab_btns s)
    (tab_panes s) (notices s) v (canvases s) (window_Chart s) (instances s) (requests s).

Definition set_instances (v : list Chart) (s : State) : State :=
  mkState (API_BASE s) (currentModel s) (revenueLine s) (revenueBreakdown s)
    (revenueMillion s) (queryInput s) (resultsSection_hidden s) (modelId s)
    (timeHorizon s) (totalRevenue s) (projectionsTable s) (driversContainer s)
    (assumptionsContainer s) (loadingIndicator_hidden s) (errorMessage s) (tab_btns s)
    (tab_panes s) (notices s) (downloads s) (canvases s) (window_Chart s) v (requests s).

Definition set_requests (v : list string) (s : State) : State :=
  mkState (API_BASE s) (currentModel s) (revenueLine s) (revenueBreakdown s)
    (revenueMillion s) (queryInput s) (resultsSection_hidden s) (modelId s)
    (timeHorizon s) (totalRevenue s) (projectionsTable s) (driversContainer s)
    (assumptionsContainer s) (loadingIndicator_hidden s) (errorMessage s) (tab_btns s)
    (tab_panes s) (notices s) (downloads s) (canvases s) (window_Chart s) (instances s)
    v.

(** [arr.forEach(f)] for an [f] that cannot throw. *)
Definition forEach {A} (f : A -> State -> State) (l : list A) (s : State) : State :=
  fold_left (fun s a => f a s) l s.

(** [arr.forEach(f)] for an [f] that can throw: the loop stops there. *)
Fixpoint forEachM {A} (f : A -> M State unit) (l : list A) : M State unit :=
  match l with
  | [] => ret tt
  | a :: r => f a ;; forEachM f r
  end.

(** [await fetch(url)] on the search endpoint. *)
Definition fetch_search (net : Network Model) (url : string) : M State (SearchReply Model) :=
  fun s => (Ok (search net url), set_requests (requests s ++ [url]) s).

Definition fetch_export (net : Network Model) (url : string) : M State ExportReply :=
  fun s => (Ok (export_excel net url), set_requests (requests s ++ [url]) s).

(** [await response.json()] and [await response.blob()]. *)
Definition read_body {A} (b : Outcome A) : M State A := lift b.

Definition show_scalar (v : scalar) : string :=
  match v with SNum x => Number_toString x | SStr s => s end.

Definition placeholder (msg : string) : Html := El "p" "" [Text msg].

(** [this.currentModel.model_id] when [this.currentModel] is [null]. *)
Definition no_model_id : JsError :=
  TypeError "Cannot read properties of null (reading 'model_id')".

(** The last element [l[l.length - 1]], when [l] is not empty. *)
Definition last_of {A} (l : list A) : option A := l !! (length l - 1)%nat.

(* ================================================================== *)
(** * app.js: class FinancialApp *)
(* ================================================================== *)

Module App.

Definition showLoading (show : bool) (s : State) : State :=
  set_loadingIndicator_hidden (negb show) s.

(** The element is made when the page has none; either way it ends up
    shown, with the message as its text. *)
Definition showError (message : string) (s : State) : State :=
  set_errorMessage (Some (mkErrorElement false message)) s.

Definition showSuccess (message : string) (s : State) : State :=
  set_notices (notices s ++ [message]) s.

Definition hideError (s : State) : State :=
  match errorMessage s with
  | Some e => set_errorMessage (Some (mkErrorElement true (err_text e))) s
  | None => s
  end.

Definition formatCurrency (amount : float) : string := Intl_format "$" 0 amount.
Definition formatNumber (num : float) : string := Intl_format "" 3 num.

(** [String(text || '').replace(/_/g, ' ').replace(/\b\w/g, l => l.toUpperCase())]. *)
Definition formatText (text : JSValue) : string :=
  capitalize_words
    (underscores_to_spaces (ToString (if ToBoolean text then text else JString ""))).

(** The row that [displayProjectionsTable] builds for one projection. *)
Definition projection_row (proj : Projection) : Html :=
  El "tr" ""
    [ El "td" "" [El "strong" "" [Text ("Month " +:+ show_number (month proj))]];
      El "td" "" [Text (show_number (sales_people proj) +:+ " people")];
      El "td" "" [Text (Number_toLocaleString (nullish_zero (large_customers_cumulative proj)))];
      El "td" "" [Text (Number_toLocaleString (nullish_zero (small_customers_cumulative proj)))];
      El "td" "" [Text (formatCurrency (or_zero (large_customer_revenue proj)))];
      El "td" "" [Text (formatCurrency (or_zero (small_customer_revenue proj)))];
      El "td" "" [El "strong" "revenue-highlight"
                    [Text (formatCurrency (or_zero (total_revenue proj)))]] ].

Definition displayProjectionsTable (projections : list Projection) (s : State) : State :=
  forEach (fun proj s => set_projectionsTable (projectionsTable s ++ [projection_row proj]) s)
          projections
          (set_projectionsTable [] s).

(** The card that [displayRevenueDrivers] builds for one driver. *)
Definition driver_card (driver : Driver) : Html :=
  El "div" "driver-card"
    ([ El "h4" "" [Text (formatText (value_of_string (d_name driver)))];
       El "p" "" [El "strong" "" [Text "Type:"]; Text (" " +:+ or_string (d_type driver) "N/A")];
       El "p" "" [El "strong" "" [Text "Value:"];
                  Text (" " +:+ match d_value driver with
                                | Present v => show_scalar v
                                | _ => "N/A"
                                end
                            +:+ " " +:+ or_string (d_unit driver) "")] ]
     ++ (if truthy_string (d_formula driver)
         then [El "p" "" [El "strong" "" [Text "Formula:"]; Text " ";
                          El "code" "" [Text (or_string (d_formula driver) "")]]]
         else [])
     ++ (if truthy_string (d_business_unit driver)
         then [El "p" "" [El "strong" "" [Text "Business Unit:"];
                          Text (" " +:+ or_string (d_business_unit driver) "")]]
         else [])).

Definition displayRevenueDrivers (drivers : list Driver) (s : State) : State :=
  let s := set_driversContainer [] s in
  if Nat.eqb (length drivers) 0
  then set_driversContainer [placeholder "No revenue drivers available"] s
  else forEach (fun driver s => set_driversContainer (driversContainer s ++ [driver_card driver]) s)
               drivers s.

(** The card that [displayAssumptions] builds for one key and its value. *)
Definition assumption_card (entry : string * scalar) : Html :=
  El "div" "assumption-card"
    [ El "h4" "" [Text (formatText (JString (fst entry)))];
      El "p" "" [Text (match snd entry with
                       | SNum x => formatNumber x
                       | SStr v => v
                       end)] ].

Definition displayAssumptions (assumptions : list (string * scalar)) (s : State) : State :=
  let s := set_assumptionsContainer [] s in
  if Nat.eqb (length (List.map fst assumptions)) 0
  then set_assumptionsContainer [placeholder "No assumptions available"] s
  else forEach (fun entry s =>
                  set_assumptionsContainer (assumptionsContainer s ++ [assumption_card entry]) s)
               assumptions s.

Definition handle (slot : Slot) (s : State) : option nat :=
  match slot with
  | RevenueLine => revenueLine s
  | RevenueBreakdown => revenueBreakdown s
  | RevenueMillion => revenueMillion s
  end.

Definition set_handle (slot : Slot) (h : option nat) (s : State) : State :=
  match slot with
  | RevenueLine => set_revenueLine h s
  | RevenueBreakdown => set_revenueBreakdown h s
  | RevenueMillion => set_revenueMillion h s
  end.

(** [chart.destroy()] on the instance [i]. *)
Definition destroy (i : nat) (s : State) : State :=
  set_instances
    (alter (fun c => mkChart (canvas c) (kind c) (labels c) (datasets c) true) i (instances s)) s.

(** [new Chart(ctx, config)]: the new instance, and its index. *)
Definition new_Chart (config : Chart) (s : State) : nat * State :=
  (length (instances s), set_instances (instances s ++ [config]) s).

(** One of the three blocks of [renderCharts]: when the slot's canvas and
    Chart.js are there, the chart the slot holds is destroyed and a new one
    is made and stored. *)
Definition draw (slot : Slot) (config : Chart) (s : State) : State :=
  if existsb (Slot_eqb slot) (canvases s) && window_Chart s then
    let s := match handle slot s with
             | Some i => destroy i s
             | None => s
             end in
    let '(i, s) := new_Chart config s in
    set_handle slot (Some i) s
  else s.

Definition renderCharts (projections : list Projection) (s : State) : State :=
  if Nat.eqb (length projections) 0 then s
  else
    let labels := List.map (fun p => "M" +:+ show_number (month p)) projections in
    let largeRev := List.map (fun p => or_zero (large_customer_revenue p)) projections in
    let smallRev := List.map (fun p => or_zero (small_customer_revenue p)) projections in
    let totalRev := List.map (fun p => or_zero (total_revenue p)) projections in
    let totalRevMn :=
      List.map (fun v => (Math_round ((v / 1000000) * 100) / 100)%float) totalRev in
    let s := draw RevenueLine
               (mkChart RevenueLine "line" labels
                  [("Total Revenue ($/month)", totalRev)] false) s in
    let s := draw RevenueBreakdown
               (mkChart RevenueBreakdown "bar" labels
                  [("Large Customers ($/month)", largeRev);
                   ("Small/Medium Customers ($/month)", smallRev)] false) s in
    draw RevenueMillion
      (mkChart RevenueMillion "line" labels
         [("Total Revenues ($ Mn per month)", totalRevMn)] false) s.

Definition switchTab (tabName : string) (s : State) : State :=
  let s := set_tab_btns (activate_first tabName (deactivate_all (tab_btns s))) s in
  let s := set_tab_panes (activate_first (tabName +:+ "Tab") (deactivate_all (tab_panes s))) s in
  if String.eqb tabName "charts" then
    match currentModel s with
    | Some model =>
        match monthly_projections model with
        | Present projections =>
            match revenueLine s, revenueBreakdown s, revenueMillion s with
            | None, None, None => renderCharts projections s
            | _, _, _ => s   (* the charts are resized *)
            end
        | _ => s
        end
    | None => s
    end
  else s.

Definition displayResults (data : Model) (s : State) : State :=
  let s := set_resultsSection_hidden false s in
  let s := set_modelId (model_id data) s in
  let months := match monthly_projections data with
                | Present l => length l
                | _ => 0%nat
                end in
  let s := set_timeHorizon (digits_of (Z.of_nat months) +:+ " months") s in
  let lastMonth := if Nat.eqb months 0 then None
                   else last_of (or_default (monthly_projections data) []) in
  let totalRevenue := match lastMonth with
                      | Some p => or_zero (total_revenue p)
                      | None => PrimFloat.zero
                      end in
  let s := set_totalRevenue (formatCurrency totalRevenue) s in
  let s := displayProjectionsTable (or_default (monthly_projections data) []) s in
  let s := displayRevenueDrivers (or_default (revenue_drivers data) []) s in
  let s := displayAssumptions (or_default (assumptions data) []) s in
  let s := renderCharts (or_default (monthly_projections data) []) s in
  switchTab "charts" s.

Definition generateModel (net : Network Model) : M State unit :=
  query <- gets (fun s => trim (queryInput s)) ;;
  if String.eqb query "" then
    exec (showError "Please describe your financial scenario")
  else
    exec (showLoading true) ;;
    exec hideError ;;
    try_finally
      (try_catch
         (base <- gets API_BASE ;;
          response <- fetch_search net
                        (base +:+ "/api/v1/search?query=" +:+ encodeURIComponent query) ;;
          match response with
          | NetworkError e => throw e
          | Failure body =>
              let fallback := JString "Failed to generate model. Please try again." in
              detail <- try_catch
                          (err <- read_body body ;;
                           d <- lift (get_detail err) ;;
                           ret (if ToBoolean d then d else fallback))
                          (fun _ => ret fallback) ;;
              throw (new_Error detail)
          | Success body =>
              data <- read_body body ;;
              exec (set_currentModel (Some data)) ;;
              exec (displayResults data)
          end)
         (fun error =>
            exec (showError (if String.eqb (message error) "" then Error_toString error
                             else message error))))
      (exec (showLoading false)).

(** [exportToExcel]: the file is named after [this.currentModel], read
    again once the response and its blob have come. *)
Definition exportToExcel (net : Network Model) : M State unit :=
  current <- gets currentModel ;;
  match current with
  | None => ret tt
  | Some model =>
      try_finally
        (try_catch
           (exec (showLoading true) ;;
            base <- gets API_BASE ;;
            response <- fetch_export net (base +:+ "/api/v1/export/excel/" +:+ model_id model) ;;
            match response with
            | ExportNetworkError e => throw e
            | ExportFailure => throw (new_Error (JString "Failed to export Excel file"))
            | ExportOk body =>
                blob <- read_body body ;;
                held <- gets currentModel ;;
                match held with
                | None => throw no_model_id
                | Some held =>
                    exec (fun s => set_downloads
                                     (downloads s
                                        ++ [("financial_model_" +:+ model_id held +:+ ".xlsx",
                                             blob)]) s) ;;
                    exec (showSuccess "Excel file downloaded successfully!")
                end
            end)
           (fun error =>
              exec (showError (if String.eqb (message error) "" then Error_toString error
                               else message error))))
        (exec (showLoading false))
  end.

Definition resetUI (s : State) : State :=
  let s := set_queryInput "" s in
  let s := set_resultsSection_hidden true s in
  let s := set_currentModel None s in
  hideError s.

End App.

(* ================================================================== *)
(** * part_000: class FinancialApp, the variant without charts *)
(* ================================================================== *)

Module Legacy.

Definition showLoading (show : bool) (s : State) : State :=
  set_loadingIndicator_hidden (negb show) s.

(** The page is taken to have the [.main-content] the new element goes to. *)
Definition showError (message : string) (s : State) : State :=
  set_errorMessage (Some (mkErrorElement false message)) s.

Definition showSuccess (message : string) (s : State) : State :=
  set_notices (notices s ++ [message]) s.

Definition hideError (s : State) : State :=
  match errorMessage s with
  | Some e => set_errorMessage (Some (mkErrorElement true (err_text e))) s
  | None => s
  end.

(** [formatCurrency(amount)], for an amount read from a field: the
    formatter takes ToNumber of it. *)
Definition formatCurrency (amount : field float) : string :=
  Intl_format "$" 0 (ToNumber amount).

Definition formatNumber (num : float) : string := Intl_format "" 3 num.

(** [text.replace(/_/g, ' ').replace(/\b\w/g, l => l.toUpperCase())]: only a
    string has [replace]. *)
Definition formatText (text : JSValue) : Outcome string :=
  match text with
  | JString s => Ok (capitalize_words (underscores_to_spaces s))
  | JUndefined => Throw (TypeError "Cannot read properties of undefined (reading 'replace')")
  | JNull => Throw (TypeError "Cannot read properties of null (reading 'replace')")
  | _ => Throw (TypeError "text.replace is not a function")
  end.

(** [f?.toLocaleString() || '0']. *)
Definition locale_or_zero (f : field float) : string :=
  match f with
  | Present x => let t := Number_toLocaleString x in if String.eqb t "" then "0" else t
  | _ => "0"
  end.

Definition projection_row (proj : Projection) : Html :=
  El "tr" ""
    [ El "td" "" [El "strong" "" [Text ("Month " +:+ show_number (month proj))]];
      El "td" "" [Text (show_number (sales_people proj) +:+ " people")];
      El "td" "" [Text (locale_or_zero (large_customers_cumulative proj))];
      El "td" "" [Text (locale_or_zero (small_customers_cumulative proj))];
      El "td" "" [Text (formatCurrency (Present (or_zero (large_customer_revenue proj))))];
      El "td" "" [Text (formatCurrency (Present (or_zero (small_customer_revenue proj))))];
      El "td" "" [El "strong" "revenue-highlight"
                    [Text (formatCurrency (Present (or_zero (total_revenue proj))))]] ].

Definition displayProjectionsTable (projections : list Projection) (s : State) : State :=
  forEach (fun proj s => set_projectionsTable (projectionsTable s ++ [projection_row proj]) s)
          projections
          (set_projectionsTable [] s).

(** [driver.value || 'N/A']. *)
Definition value_or_NA (v : field scalar) : string :=
  match v with
  | Present (SNum x) => if truthy_number x then Number_toString x else "N/A"
  | Present (SStr t) => if String.eqb t "" then "N/A" else t
  | _ => "N/A"
  end.

Definition driver_card (driver : Driver) : Outcome Html :=
  match formatText (value_of_string (d_name driver)) with
  | Throw e => Throw e
  | Ok title =>
      Ok (El "div" "driver-card"
            ([ El "h4" "" [Text title];
               El "p" "" [El "strong" "" [Text "Type:"];
                          Text (" " +:+ or_string (d_type driver) "N/A")];
               El "p" "" [El "strong" "" [Text "Value:"];
                          Text (" " +:+ value_or_NA (d_value driver)
                                    +:+ " " +:+ or_string (d_unit driver) "")] ]
             ++ (if truthy_string (d_formula driver)
                 then [El "p" "" [El "strong" "" [Text "Formula:"]; Text " ";
                                  El "code" "" [Text (or_string (d_formula driver) "")]]]
                 else [])
             ++ (if truthy_string (d_business_unit driver)
                 then [El "p" "" [El "strong" "" [Text "Business Unit:"];
                                  Text (" " +:+ or_string (d_business_unit driver) "")]]
                 else [])))
  end.

Definition displayRevenueDrivers (drivers : field (list Driver)) : M State unit :=
  exec (set_driversContainer []) ;;
  match drivers with
  | Present (d :: ds) =>
      forEachM (fun driver =>
                  card <- lift (driver_card driver) ;;
                  exec (fun s => set_driversContainer (driversContainer s ++ [card]) s))
               (d :: ds)
  | _ => exec (set_driversContainer [placeholder "No revenue drivers available"])
  end.

Definition assumption_card (entry : string * scalar) : Outcome Html :=
  match formatText (JString (fst entry)) with
  | Throw e => Throw e
  | Ok formattedKey =>
      Ok (El "div" "assumption-card"
            [ El "h4" "" [Text formattedKey];
              El "p" "" [Text (match snd entry with
                               | SNum x => formatNumber x
                               | SStr v => v
                               end)] ])
  end.

Definition displayAssumptions (assumptions : field (list (string * scalar))) : M State unit :=
  exec (set_assumptionsContainer []) ;;
  match assumptions with
  | Present (e :: es) =>
      forEachM (fun entry =>
                  card <- lift (assumption_card entry) ;;
                  exec (fun s => set_assumptionsContainer (assumptionsContainer s ++ [card]) s))
               (e :: es)
  | _ => exec (set_assumptionsContainer [placeholder "No assumptions available"])
  end.

Definition displayResults (data : Model) : M State unit :=
  exec (set_resultsSection_hidden false) ;;
  exec (set_modelId (model_id data)) ;;
  match monthly_projections data with
  | Present projections =>
      exec (set_timeHorizon (digits_of (Z.of_nat (length projections)) +:+ " months")) ;;
      let totalRevenue := match last_of projections with
                          | Some lastMonth => total_revenue lastMonth
                          | None => Present PrimFloat.zero
                          end in
      exec (set_totalRevenue (formatCurrency totalRevenue)) ;;
      exec (displayProjectionsTable projections) ;;
      displayRevenueDrivers (revenue_drivers data) ;;
      displayAssumptions (assumptions_used data)
  | Null => throw (TypeError "Cannot read properties of null (reading 'length')")
  | Absent => throw (TypeError "Cannot read properties of undefined (reading 'length')")
  end.

Definition generateModel (net : Network Model) : M State unit :=
  query <- gets (fun s => trim (queryInput s)) ;;
  if String.eqb query "" then
    exec (showError "Please describe your financial scenario")
  else
    exec (showLoading true) ;;
    exec hideError ;;
    try_finally
      (try_catch
         (base <- gets API_BASE ;;
          response <- fetch_search net
                        (base +:+ "/api/v1/search?query=" +:+ encodeURIComponent query) ;;
          match response with
          | NetworkError e => throw e
          | Failure body =>
              errorData <- read_body body ;;
              detail <- lift (get_detail errorData) ;;
              throw (new_Error (if ToBoolean detail then detail
                                else JString "Failed to generate model. Please try again."))
          | Success body =>
              data <- read_body body ;;
              exec (set_currentModel (Some data)) ;;
              displayResults data
          end)
         (fun error => exec (showError (message error))))
      (exec (showLoading false)).

(** [exportToExcel]: the file is named after [this.currentModel], read
    again once the response and its blob have come. *)
Definition exportToExcel (net : Network Model) : M State unit :=
  current <- gets currentModel ;;
  match current with
  | None => ret tt
  | Some model =>
      try_finally
        (try_catch
           (exec (showLoading true) ;;
            base <- gets API_BASE ;;
            response <- fetch_export net (base +:+ "/api/v1/export/excel/" +:+ model_id model) ;;
            match response with
            | ExportNetworkError e => throw e
            | ExportFailure => throw (new_Error (JString "Failed to export Excel file"))
            | ExportOk body =>
                blob <- read_body body ;;
                held <- gets currentModel ;;
                match held with
                | None => throw no_model_id
                | Some held =>
                    exec (fun s => set_downloads
                                     (downloads s
                                        ++ [("financial_model_" +:+ model_id held +:+ ".xlsx",
                                             blob)]) s) ;;
                    exec (showSuccess "Excel file downloaded successfully!")
                end
            end)
           (fun error => exec (showError (message error))))
        (exec (showLoading false))
  end.

(** [querySelector(...).classList.add('active')] throws when the page has
    no such button or pane. *)
Definition switchTab (tabName : string) : M State unit :=
  exec (fun s => set_tab_btns (deactivate_all (tab_btns s)) s) ;;
  has_btn <- gets (fun s => has_key tabName (tab_btns s)) ;;
  if negb has_btn then throw (TypeError "Cannot read properties of null (reading 'classList')")
  else
    exec (fun s => set_tab_btns (activate_first tabName (tab_btns s)) s) ;;
    exec (fun s => set_tab_panes (deactivate_all (tab_panes s)) s) ;;
    has_pane <- gets (fun s => has_key (tabName +:+ "Tab") (tab_panes s)) ;;
    if negb has_pane then throw (TypeError "Cannot read properties of null (reading 'classList')")
    else exec (fun s => set_tab_panes (activate_first (tabName +:+ "Tab") (tab_panes s)) s).

Definition resetUI (s : State) : State :=
  let s := set_queryInput "" s in
  let s := set_resultsSection_hidden true s in
  set_currentModel None s.

End Legacy.

(* ================================================================== *)
(** * script.js: the form handlers *)
(* ================================================================== *)

Module Script.

(** The payload this variant reads: other fields of a projection, and
    numeric values throughout. *)
Record Projection : Type := mkProjection {
  month : field float;
  sales_people : field float;
  large_customers_acquired : field float;
  large_customer_revenue : field float;
  small_customers_acquired : field float;
  small_customer_revenue : field float;
  marketing_spend : field float;
  total_revenue : field float
}.

Record Driver : Type := mkDriver {
  d_name : field string;
  d_value : field float;
  d_unit : field string
}.

Record Model : Type := mkModel {
  model_id : string;
  monthly_projections : field (list Projection);
  revenue_drivers : field (list Driver);
  assumptions : field (list (string * field float))
}.

(** The values of the form's inputs, as [FormData.get] gives them; an input
    left empty is the empty string. *)
Record Form : Type := mkForm {
  query : string;
  months : string;
  initialSalesPeople : string;
  marketingSpend : string;
  largeCustomerRevenue : string
}.

Record State : Type := mkState {
  API_BASE : string;  (* [window.location.origin] *)
  currentModelId : option string;  (* [let currentModelId]: [None] is [null] *)
  form : Form;  (* the values of [#queryForm] *)
  loadingSection_shown : bool;  (* [#loadingSection] is displayed *)
  resultsSection_shown : bool;  (* [#resultsSection] is displayed *)
  modelId : string;  (* text of [#modelId] *)
  timeHorizon : string;  (* text of [#timeHorizon] *)
  month1Revenue : string;  (* text of [#month1Revenue] *)
  finalRevenue : string;  (* text of [#finalRevenue] *)
  revenueDriversList : list Html;  (* children of [#revenueDriversList] *)
  projectionsTableBody : list Html;  (* children of [#projectionsTableBody] *)
  assumptionsList : list Html;  (* children of [#assumptionsList] *)
  alerts : list string;  (* the messages shown by [alert] *)
  notices : list string;  (* the notifications [showSuccess] has put up *)
  opened : list string;  (* the URLs opened by [window.open] *)
  requests : list string  (* the URLs fetched so far *)
}.

(** Assignments: one setter for each field that is written. *)
Definition set_currentModelId (v : option string) (s : State) : State :=
  mkState (API_BASE s) v (form s) (loadingSection_shown s) (resultsSection_shown s)
    (modelId s) (timeHorizon s) (month1Revenue s) (finalRevenue s)
    (revenueDriversList s) (projectionsTableBody s) (assumptionsList s) (alerts s)
    (notices s) (opened s) (requests s).

Definition set_loadingSection_shown (v : bool) (s : State) : State :=
  mkState (API_BASE s) (currentModelId s) (form s) v (resultsSection_shown s)
    (modelId s) (timeHorizon s) (month1Revenue s) (finalRevenue s)
    (revenueDriversList s) (projectionsTableBody s) (assumptionsList s) (alerts s)
    (notices s) (opened s) (requests s).

Definition set_resultsSection_shown (v : bool) (s : State) : State :=
  mkState (API_BASE s) (currentModelId s) (form s) (loadingSection_shown s) v
    (modelId s) (timeHorizon s) (month1Revenue s) (finalRevenue s)
    (revenueDriversList s) (projectionsTableBody s) (assumptionsList s) (alerts s)
    (notices s) (opened s) (requests s).

Definition set_modelId (v : string) (s : State) : State :=
  mkState (API_BASE s) (currentModelId s) (form s) (loadingSection_shown s)
    (resultsSection_shown s) v (timeHorizon s) (month1Revenue s) (finalRevenue s)
    (revenueDriversList s) (projectionsTableBody s) (assumptionsList s) (alerts s)
    (notices s) (opened s) (requests s).

Definition set_timeHorizon (v : string) (s : State) : State :=
  mkState (API_BASE s) (currentModelId s) (form s) (loadingSection_shown s)
    (resultsSection_shown s) (modelId s) v (month1Revenue s) (finalRevenue s)
    (revenueDriversList s) (projectionsTableBody s) (assumptionsList s) (alerts s)
    (notices s) (opened s) (requests s).

Definition set_month1Revenue (v : string) (s : State) : State :=
  mkState (API_BASE s) (currentModelId s) (form s) (loadingSection_shown s)
    (resultsSection_shown s) (modelId s) (timeHorizon s) v (finalRevenue s)
    (revenueDriversList s) (projectionsTableBody s) (assumptionsList s) (alerts s)
    (notices s) (opened s) (requests s).

Definition set_finalRevenue (v : string) (s : State) : State :=
  mkState (API_BASE s) (currentModelId s) (form s) (loadingSection_shown s)
    (resultsSection_shown s) (modelId s) (timeHorizon s) (month1Revenue s) v
    (revenueDriversList s) (projectionsTableBody s) (assumptionsList s) (alerts s)
    (notices s) (opened s) (requests s).

Definition set_revenueDriversList (v : list Html) (s : State) : State :=
  mkState (API_BASE s) (currentModelId s) (form s) (loadingSection_shown s)
    (resultsSection_shown s) (modelId s) (timeHorizon s) (month1Revenue s)
    (finalRevenue s) v (projectionsTableBody s) (assumptionsList s) (alerts s)
    (notices s) (opened s) (requests s).

Definition set_projectionsTableBody (v : list Html) (s : State) : State :=
  mkState (API_BASE s) (currentModelId s) (form s) (loadingSection_shown s)
    (resultsSection_shown s) (modelId s) (timeHorizon s) (month1Revenue s)
    (finalRevenue s) (revenueDriversList s) v (assumptionsList s) (alerts s) (notices s)
    (opened s) (requests s).

Definition set_assumptionsList (v : list Html) (s : State) : State :=
  mkState (API_BASE s) (currentModelId s) (form s) (loadingSection_shown s)
    (resultsSection_shown s) (modelId s) (timeHorizon s) (month1Revenue s)
    (finalRevenue s) (revenueDriversList s) (projectionsTableBody s) v (alerts s)
    (notices s) (opened s) (requests s).

Definition set_alerts (v : list string) (s : State) : State :=
  mkState (API_BASE s) (currentModelId s) (form s) (loadingSection_shown s)
    (resultsSection_shown s) (modelId s) (timeHorizon s) (month1Revenue s)
    (finalRevenue s) (revenueDriversList s) (projectionsTableBody s) (assumptionsList s)
    v (notices s) (opened s) (requests s).

Definition set_notices (v : list string) (s : State) : State :=
  mkState (API_BASE s) (currentModelId s) (form s) (loadingSection_shown s)
    (resultsSection_shown s) (modelId s) (timeHorizon s) (month1Revenue s)
    (finalRevenue s) (revenueDriversList s) (projectionsTableBody s) (assumptionsList s)
    (alerts s) v (opened s) (requests s).

Definition set_opened (v : list string) (s : State) : State :=
  mkState (API_BASE s) (currentModelId s) (form s) (loadingSection_shown s)
    (resultsSection_shown s) (modelId s) (timeHorizon s) (month1Revenue s)
    (finalRevenue s) (revenueDriversList s) (projectionsTableBody s) (assumptionsList s)
    (alerts s) (notices s) v (requests s).

Definition set_requests (v : list string) (s : State) : State :=
  mkState (API_BASE s) (currentModelId s) (form s) (loadingSection_shown s)
    (resultsSection_shown s) (modelId s) (timeHorizon s) (month1Revenue s)
    (finalRevenue s) (revenueDriversList s) (projectionsTableBody s) (assumptionsList s)
    (alerts s) (notices s) (opened s) v.

Definition showLoading (s : State) : State :=
  set_resultsSection_shown false (set_loadingSection_shown true s).

Definition hideLoading (s : State) : State := set_loadingSection_shown false s.

Definition showError (message : string) (s : State) : State :=
  let s := hideLoading s in
  set_alerts (alerts s ++ ["Error: " +:+ message]) s.

Definition showSuccess (message : string) (s : State) : State :=
  set_notices (notices s ++ [message]) s.

Definition formatCurrency (value : field float) : string :=
  Intl_format "$" 0 (ToNumber value).

Definition no_method (f : field float) (method : string) : JsError :=
  TypeError ("Cannot read properties of "
             +:+ (match f with Null => "null" | _ => "undefined" end)
             +:+ " (reading '" +:+ method +:+ "')").

(** [value.toLocaleString()]: [null] and [undefined] have no methods. *)
Definition toLocaleString (value : field float) : Outcome string :=
  match value with
  | Present x => Ok (Number_toLocaleString x)
  | _ => Throw (no_method value "toLocaleString")
  end.

Definition percent_of (value : field float) : string :=
  toFixed1 (ToNumber value * 100)%float +:+ "%".

Definition formatValue (value : field float) (unit : field string) : Outcome string :=
  match unit with
  | Present "$" => Ok (formatCurrency value)
  | Present "#" => Ok (Number_toLocaleString (Math_round (ToNumber value)))
  | Present "%" => Ok (percent_of value)
  | _ => toLocaleString value
  end.

(** [key.replace(/_/g, ' ').replace(/\b\w/g, l => l.toUpperCase())]. *)
Definition formatLabel (key : JSValue) : Outcome string :=
  match key with
  | JString s => Ok (capitalize_words (underscores_to_spaces s))
  | JUndefined => Throw (TypeError "Cannot read properties of undefined (reading 'replace')")
  | JNull => Throw (TypeError "Cannot read properties of null (reading 'replace')")
  | _ => Throw (TypeError "key.replace is not a function")
  end.

Definition formatAssumptionValue (value : field float) (key : string) : Outcome string :=
  if includes key "revenue" || includes key "spend" then Ok (formatCurrency value)
  else if includes key "rate" || includes key "conversion" then Ok (percent_of value)
  else if includes key "people" || includes key "inquiries"
       then Ok (Number_toLocaleString (Math_round (ToNumber value)))
  else toLocaleString value.

Fixpoint forEachM {A} (f : A -> M State unit) (l : list A) : M State unit :=
  match l with
  | [] => ret tt
  | a :: r => f a ;; forEachM f r
  end.

Definition driver_item (driver : Driver) : Outcome Html :=
  match d_name driver with
  | Present n =>
      match formatValue (d_value driver) (d_unit driver) with
      | Ok v => Ok (El "div" "driver-item"
                      [ El "h4" "" [Text (toUpperCase (underscores_to_spaces n))];
                        El "div" "value" [Text v] ])
      | Throw e => Throw e
      end
  | Null => Throw (TypeError "Cannot read properties of null (reading 'replace')")
  | Absent => Throw (TypeError "Cannot read properties of undefined (reading 'replace')")
  end.

Definition no_forEach {A} (f : field A) : JsError :=
  TypeError ("Cannot read properties of "
             +:+ (match f with Null => "null" | _ => "undefined" end)
             +:+ " (reading 'forEach')").

Definition displayRevenueDrivers (drivers : field (list Driver)) : M State unit :=
  exec (set_revenueDriversList []) ;;
  match drivers with
  | Present l =>
      forEachM (fun driver =>
                  item <- lift (driver_item driver) ;;
                  exec (fun s => set_revenueDriversList (revenueDriversList s ++ [item]) s))
               l
  | _ => throw (no_forEach drivers)
  end.

Definition projection_row (projection : Projection) : Html :=
  El "tr" ""
    [ El "td" "" [Text (show_number (month projection))];
      El "td" "" [Text (show_number (sales_people projection))];
      El "td" "" [Text (show_number (large_customers_acquired projection))];
      El "td" "" [Text (formatCurrency (large_customer_revenue projection))];
      El "td" "" [Text (show_number (small_customers_acquired projection))];
      El "td" "" [Text (formatCurrency (small_customer_revenue projection))];
      El "td" "" [Text (formatCurrency (marketing_spend projection))];
      El "td" "" [El "strong" "" [Text (formatCurrency (total_revenue projection))]] ].

Definition displayProjectionsTable (projections : field (list Projection)) : M State unit :=
  exec (set_projectionsTableBody []) ;;
  match projections with
  | Present l =>
      forEachM (fun projection =>
                  exec (fun s => set_projectionsTableBody
                                   (projectionsTableBody s ++ [projection_row projection]) s))
               l
  | _ => throw (no_forEach projections)
  end.

Definition keyAssumptions : list string :=
  [ "initial_sales_people"; "sales_people_growth_rate"; "large_customer_revenue_monthly";
    "small_customer_revenue_monthly"; "marketing_spend_monthly";
    "sales_inquiries_per_month"; "conversion_rate" ].

(** [assumptions[key]]: [None] is [undefined]. *)
Fixpoint lookup_key (key : string) (l : list (string * field float)) : option (field float) :=
  match l with
  | [] => None
  | (k, v) :: r => if String.eqb key k then Some v else lookup_key key r
  end.

Definition assumption_item (key : string) (value : field float) : Outcome Html :=
  match formatLabel (JString key), formatAssumptionValue value key with
  | Ok l, Ok v => Ok (El "div" "assumption-item"
                        [ El "div" "label" [Text l]; El "div" "value" [Text v] ])
  | Throw e, _ => Throw e
  | _, Throw e => Throw e
  end.

Definition displayAssumptions (assumptions : field (list (string * field float))) : M State unit :=
  exec (set_assumptionsList []) ;;
  forEachM (fun key =>
              match assumptions with
              | Present l =>
                  match lookup_key key l with
                  | Some v =>
                      item <- lift (assumption_item key v) ;;
                      exec (fun s => set_assumptionsList (assumptionsList s ++ [item]) s)
                  | None => ret tt
                  end
              | Null => throw (TypeError ("Cannot read properties of null (reading '"
                                          +:+ key +:+ "')"))
              | Absent => throw (TypeError ("Cannot read properties of undefined (reading '"
                                            +:+ key +:+ "')"))
              end)
           keyAssumptions.

Definition no_total_revenue : JsError :=
  TypeError "Cannot read properties of undefined (reading 'total_revenue')".

Definition displayResults (data : Model) : M State unit :=
  exec hideLoading ;;
  exec (set_modelId (utf16_prefix 8 (model_id data) +:+ "...")) ;;
  match monthly_projections data with
  | Present projections =>
      exec (set_timeHorizon (digits_of (Z.of_nat (length projections)) +:+ " months")) ;;
      match projections !! 0%nat, last_of projections with
      | Some firstMonth, Some lastMonth =>
          exec (set_month1Revenue (formatCurrency (total_revenue firstMonth))) ;;
          exec (set_finalRevenue (formatCurrency (total_revenue lastMonth))) ;;
          displayRevenueDrivers (revenue_drivers data) ;;
          displayProjectionsTable (monthly_projections data) ;;
          displayAssumptions (assumptions data) ;;
          exec (set_resultsSection_shown true)
      | _, _ => throw no_total_revenue
      end
  | Null => throw (TypeError "Cannot read properties of null (reading 'length')")
  | Absent => throw (TypeError "Cannot read properties of undefined (reading 'length')")
  end.

(** [params.append(name, value)] when [value] is not empty. *)
Definition optional_param (name value : string) : string :=
  if String.eqb value "" then "" else "&" +:+ name +:+ "=" +:+ form_urlencode value.

(** The text of [params]: the query, then the optional numbers that the
    form holds. *)
Definition search_params (f : Form) : string :=
  "query=" +:+ form_urlencode (query f)
    +:+ optional_param "months" (months f)
    +:+ optional_param "initial_sales_people" (initialSalesPeople f)
    +:+ optional_param "marketing_spend_monthly" (marketingSpend f)
    +:+ optional_param "large_customer_revenue_monthly" (largeCustomerRevenue f).

Definition fetch_search (net : Network Model) (url : string) : M State (SearchReply Model) :=
  fun s => (Ok (search net url), set_requests (requests s ++ [url]) s).

Definition handleQuerySubmit (net : Network Model) : M State unit :=
  params <- gets (fun s => search_params (form s)) ;;
  exec showLoading ;;
  try_catch
    (base <- gets API_BASE ;;
     response <- fetch_search net (base +:+ "/api/v1/search?" +:+ params) ;;
     match response with
     | NetworkError e => throw e
     | Failure body =>
         errorData <- lift body ;;
         detail <- lift (get_detail errorData) ;;
         throw (new_Error (if ToBoolean detail then detail
                           else JString "Failed to generate model"))
     | Success body =>
         data <- lift body ;;
         exec (set_currentModelId (Some (model_id data))) ;;
         displayResults data
     end)
    (fun error => exec (showError (message error))).

Definition handleExport (s : State) : State :=
  match currentModelId s with
  | Some id =>
      if String.eqb id "" then showError "No model to export" s
      else
        let s := set_opened (opened s ++ [API_BASE s +:+ "/api/v1/export/excel/" +:+ id
                                           +:+ "?auto_open=true"]) s in
        showSuccess "Excel file generated and opened!" s
  | None => showError "No model to export" s
  end.

End Script.

(* ================================================================== *)
(** * Definitions for the properties *)
(* ================================================================== *)

(** ** The label format *)

(** The label format in the spec's words: every underscore becomes a space,
    and the first character of every word (a run of letters and digits) is
    uppercased.  [label_char prev c] is the character shown for [c] when
    [prev] is the character before it. *)
Definition label_char (prev : option ascii) (c : ascii) : ascii :=
  if (code c =? 95)%Z then " "%char
  else if is_alnum c && match prev with
                        | None => true
                        | Some p => negb (is_alnum p)
                        end
       then upper c
       else c.

Definition formatLabel_spec (s : string) (i : nat) : option ascii :=
  match String.get i s with
  | Some c => Some (label_char (match i with O => None | S j => String.get j s end) c)
  | None => None
  end.

(** ** Containers *)

(** What a container of cards holds after a render that puts a
    placeholder in place of no card. *)
Definition cards_or_placeholder {A : Type} (msg : string) (card : A -> Html)
    (l : list A) : list Html :=
  match l with
  | [] => [placeholder msg]
  | _ => List.map card l
  end.

(** ** Live charts *)

(** The live charts on a canvas: the instances not destroyed yet. *)
Definition is_live_on (slot : Slot) (c : Chart) : bool :=
  Slot_eqb (canvas c) slot && negb (destroyed c).

Definition live_on (slot : Slot) (s : State) : list Chart :=
  List.filter (is_live_on slot) (instances s).

(** No chart on the slot's canvas is live. *)
Definition slot_free (slot : Slot) (s : State) : Prop :=
  forall i c, instances s !! i = Some c -> destroyed c = false -> canvas c <> slot.

(** Every chart that is live is the one its slot holds. *)
Definition charts_owned (s : State) : Prop :=
  forall (i : nat) (c : Chart),
    instances s !! i = Some c -> destroyed c = false -> App.handle (canvas c) s = Some i.

(** The states [App.draw] goes through: after the old chart is destroyed,
    after the new one is made, and after it is stored in the slot. *)
Definition draw_points (slot : Slot) (config : Chart) (s : State) : list State :=
  if existsb (Slot_eqb slot) (canvases s) && window_Chart s then
    let s1 := match App.handle slot s with
              | Some i => App.destroy i s
              | None => s
              end in
    let s2 := snd (App.new_Chart config s1) in
    [s1; s2; App.set_handle slot (Some (fst (App.new_Chart config s1))) s2]
  else [].

(** The states [App.renderCharts] goes through, block after block. *)
Definition renderCharts_points (projections : list Projection) (s : State) : list State :=
  if Nat.eqb (length projections) 0 then []
  else
    let labels := List.map (fun p => "M" +:+ show_number (month p)) projections in
    let largeRev := List.map (fun p => or_zero (large_customer_revenue p)) projections in
    let smallRev := List.map (fun p => or_zero (small_customer_revenue p)) projections in
    let totalRev := List.map (fun p => or_zero (total_revenue p)) projections in
    let totalRevMn :=
      List.map (fun v => (Math_round ((v / 1000000) * 100) / 100)%float) totalRev in
    let c1 := mkChart RevenueLine "line" labels [("Total Revenue ($/month)", totalRev)] false in
    let c2 := mkChart RevenueBreakdown "bar" labels
                [("Large Customers ($/month)", largeRev);
                 ("Small/Medium Customers ($/month)", smallRev)] false in
    let c3 := mkChart RevenueMillion "line" labels
                [("Total Revenues ($ Mn per month)", totalRevMn)] false in
    let s1 := App.draw RevenueLine c1 s in
    let s2 := App.draw RevenueBreakdown c2 s1 in
    draw_points RevenueLine c1 s ++ draw_points RevenueBreakdown c2 s1
      ++ draw_points RevenueMillion c3 s2.

(** Every state seen while [renderCharts] is called with each element of
    [calls] in turn: the points of each call, then the state it returns. *)
Fixpoint render_trace (calls : list (list Projection)) (s : State) : list State :=
  match calls with
  | [] => []
  | projections :: rest =>
      renderCharts_points projections s
        ++ App.renderCharts projections s :: render_trace rest (App.renderCharts projections s)
  end.

(** ** Frames: the parts of the state an operation leaves alone *)

(** The session: what no renderer writes to. *)
Definition same_session (s s' : State) : Prop :=
  API_BASE s' = API_BASE s /\ currentModel s' = currentModel s
  /\ queryInput s' = queryInput s
  /\ loadingIndicator_hidden s' = loadingIndicator_hidden s
  /\ errorMessage s' = errorMessage s /\ notices s' = notices s
  /\ downloads s' = downloads s /\ requests s' = requests s.

Definition same_tabs (s s' : State) : Prop :=
  tab_btns s' = tab_btns s /\ tab_panes s' = tab_panes s.

Definition same_charts (s s' : State) : Prop :=
  instances s' = instances s /\ revenueLine s' = revenueLine s
  /\ revenueBreakdown s' = revenueBreakdown s /\ revenueMillion s' = revenueMillion s
  /\ canvases s' = canvases s /\ window_Chart s' = window_Chart s.

(** The results view: the header fields and the three containers. *)
Definition same_results (s s' : State) : Prop :=
  resultsSection_hidden s' = resultsSection_hidden s /\ modelId s' = modelId s
  /\ timeHorizon s' = timeHorizon s /\ totalRevenue s' = totalRevenue s
  /\ projectionsTable s' = projectionsTable s
  /\ driversContainer s' = driversContainer s
  /\ assumptionsContainer s' = assumptionsContainer s.

(** Everything but the results view. *)
Definition outside_results (s s' : State) : Prop :=
  same_session s s' /\ same_tabs s s' /\ same_charts s s'.

(** A computation keeps [R] when the state it leaves is related to the
    state it starts from, whether it returns or throws. *)
Definition keeps (R : State -> State -> Prop) {A : Type} (c : M State A) : Prop :=
  forall s, R s (snd (c s)).

(** The error message is not on show. *)
Definition error_cleared (s : State) : Prop :=
  match errorMessage s with
  | Some e => err_hidden e = true
  | None => True
  end.

(** ** Searches in the class variants *)

(** The URL of the search. *)
Definition search_url (s : State) : string :=
  API_BASE s +:+ "/api/v1/search?query=" +:+ encodeURIComponent (trim (queryInput s)).

(** A search that does not deliver a model: the request fails, the response
    is not [ok], or the body of an [ok] response cannot be read.  A thrown
    error is one of the runtime's, which all have a name. *)
Definition search_fails (r : SearchReply Model) : Prop :=
  match r with
  | NetworkError e | Success (Throw e) => name e <> ""
  | Failure _ => True
  | Success (Ok _) => False
  end.

(** A model that part_000 can display: its projections are there, and
    every driver has a name. *)
Definition has_name (d : Driver) : bool := negb (nullish (d_name d)).

Definition displayable (data : Model) : bool :=
  negb (nullish (monthly_projections data))
  && forallb has_name (or_default (revenue_drivers data) []).

(** The state a search starts from once the query is accepted: loading is
    shown, the error hidden, and the request recorded. *)
Definition App_requested (s : State) : State :=
  set_requests (requests s ++ [search_url s]) (App.hideError (App.showLoading true s)).

(** The message the error handler of app.js shows for a caught error:
    [error.message || String(error)]. *)
Definition shown_message (error : JsError) : string :=
  if String.eqb (message error) "" then Error_toString error else message error.

(** [err.detail || detail] of app.js, with its fallback when the body cannot
    be read or has no truthy detail. *)
Definition App_detail (body : Outcome JSValue) : JSValue :=
  match body with
  | Ok err =>
      match get_detail err with
      | Ok d => if ToBoolean d then d
                else JString "Failed to generate model. Please try again."
      | Throw _ => JString "Failed to generate model. Please try again."
      end
  | Throw _ => JString "Failed to generate model. Please try again."
  end.

(** What app.js does with each reply, before loading is cleared
    ([App_generateModel_unfold] below relates it to [App.generateModel]). *)
Definition App_settle (r : SearchReply Model) (s : State) : State :=
  match r with
  | NetworkError e | Success (Throw e) => App.showError (shown_message e) s
  | Failure body => App.showError (shown_message (new_Error (App_detail body))) s
  | Success (Ok data) => App.displayResults data (set_currentModel (Some data) s)
  end.

(** The error part_000 throws for a response that is not [ok]. *)
Definition Legacy_error (body : Outcome JSValue) : JsError :=
  match body with
  | Ok errorData =>
      match get_detail errorData with
      | Ok d => new_Error (if ToBoolean d then d
                           else JString "Failed to generate model. Please try again.")
      | Throw e => e
      end
  | Throw e => e
  end.

(** What part_000 does with each reply, before loading is cleared
    ([Legacy_generateModel_unfold] below). *)
Definition Legacy_settle (r : SearchReply Model) (s : State) : State :=
  match r with
  | NetworkError e | Success (Throw e) => Legacy.showError (message e) s
  | Failure body => Legacy.showError (message (Legacy_error body)) s
  | Success (Ok data) =>
      match Legacy.displayResults data (set_currentModel (Some data) s) with
      | (Ok _, s') => s'
      | (Throw e, s') => Legacy.showError (message e) s'
      end
  end.

(** ** The events of app.js *)

(** What [initializeEventListeners] listens to: the user edits the query;
    clicks Generate (or presses Ctrl+Enter), a template button (which
    copies its query first, when it has one), a tab, Export, or New
    analysis.  A click that reaches the network comes with the collaborator
    as it answers then. *)
Inductive Event : Type :=
  | Edit_query (text : string)
  | Click_generate (net : Network Model)
  | Click_template (text : string) (net : Network Model)
  | Click_tab (tabName : string)
  | Click_export (net : Network Model)
  | Click_new.

Definition App_step (e : Event) (s : State) : State :=
  match e with
  | Edit_query text => set_queryInput text s
  | Click_generate net => run (App.generateModel net) s
  | Click_template text net =>
      if String.eqb text "" then s
      else run (App.generateModel net) (set_queryInput text s)
  | Click_tab tabName => App.switchTab tabName s
  | Click_export net => run (App.exportToExcel net) s
  | Click_new => App.resetUI s
  end.

(** The states after each of a sequence of events. *)
Fixpoint App_states (events : list Event) (s : State) : list State :=
  match events with
  | [] => []
  | e :: rest => App_step e s :: App_states rest (App_step e s)
  end.

(** ** Sample data *)

(** A page as the class variants expect it, just loaded: nothing shown, the
    table tab active, the three canvases and Chart.js in place. *)
Definition example_page (origin query : string) : State :=
  mkState origin None None None None query true "" "" "" [] [] [] true None
    [("table", true); ("drivers", false); ("assumptions", false); ("charts", false)]
    [("tableTab", true); ("driversTab", false); ("assumptionsTab", false); ("chartsTab", false)]
    [] [] [RevenueLine; RevenueBreakdown; RevenueMillion] true [] [].

(** The page of script.js, just loaded, with the form filled in. *)
Definition example_form_page (origin : string) (f : Script.Form) : Script.State :=
  Script.mkState origin None f false false "" "" "" "" [] [] [] [] [] [] [].

(** A network that is down: every request fails. *)
Definition offline {D : Type} : Network D :=
  mkNetwork (fun _ => NetworkError (TypeError "Failed to fetch"))
            (fun _ => ExportNetworkError (TypeError "Failed to fetch")).

(** A network that answers every search with the same reply. *)
Definition always {D : Type} (reply : SearchReply D) : Network D :=
  mkNetwork (fun _ => reply) (fun _ => ExportFailure).

Definition example_projection (revenue : float) : Projection :=
  mkProjection (Present 1%float) (Present 2%float) (Present 3%float) (Present 40%float)
    (Present 1000000%float) (Present 250000%float) (Present revenue).

Definition example_model : Model :=
  mkModel "model-1" (Present [example_projection 12345678%float])
    (Present [mkDriver (Present "large_customer_revenue") (Present "input")
                (Present (SNum 1000000%float)) (Present "$") Absent Absent])
    (Present [("initial_sales_people", SNum 2%float)])
    (Present [("initial_sales_people", SNum 2%float)]).

(** ** Tactics *)

(** Closes a frame goal between a state and setters applied to it. *)
Ltac frame :=
  unfold outside_results, same_session, same_tabs, same_charts, same_results;
  repeat split; reflexivity.

(** ** The view and the model *)

(** The results view shows the model [m]: the section is on show, the
    header gives its id, the number of its projections and the total
    revenue of the last one, and the three containers hold what the
    renderers of app.js make of it. *)
Definition shows (m : Model) (s : State) : Prop :=
  resultsSection_hidden s = false
  /\ modelId s = model_id m
  /\ timeHorizon s
     = digits_of (Z.of_nat (length (or_default (monthly_projections m) []))) +:+ " months"
  /\ totalRevenue s
     = App.formatCurrency
         match last_of (or_default (monthly_projections m) []) with
         | Some p => or_zero (total_revenue p)
         | None => PrimFloat.zero
         end
  /\ projectionsTable s = List.map App.projection_row (or_default (monthly_projections m) [])
  /\ driversContainer s
     = cards_or_placeholder "No revenue drivers available" App.driver_card
         (or_default (revenue_drivers m) [])
  /\ assumptionsContainer s
     = cards_or_placeholder "No assumptions available" App.assumption_card
         (or_default (assumptions m) []).

(** The view is in step with the model that is held, if one is. *)
Definition view_in_sync (s : State) : Prop :=
  forall m, currentModel s = Some m -> shows m s.

(** The model and the results view are what they were. *)
Definition same_view (s s' : State) : Prop :=
  currentModel s' = currentModel s /\ same_results s s'.

(** ** Searches that fail, as the interface has them *)

(** An error of the runtime (a rejected [fetch], a body that is not JSON):
    it has a name and a message. *)
Definition runtime_error (e : JsError) : Prop := name e <> "" /\ message e <> "".

(** A reply of the search endpoint that delivers no model, within the
    interface: the call throws, or the response is not [ok] and its body is
    either an object whose [detail] is a string or not JSON at all. *)
Definition failure_in_interface (r : SearchReply Model) : Prop :=
  match r with
  | NetworkError e | Success (Throw e) | Failure (Throw e) => runtime_error e
  | Failure (Ok body) =>
      exists props d, body = JObject props /\ lookup_prop "detail" props = JString d
  | Success (Ok _) => False
  end.

(** ** Exports in the class variants *)

(** The URL of the export of a model. *)
Definition export_url (s : State) (m : Model) : string :=
  API_BASE s +:+ "/api/v1/export/excel/" +:+ model_id m.

(** The state an export waits in: loading is shown and the request
    recorded. *)
Definition export_requested (m : Model) (s : State) : State :=
  set_requests (requests s ++ [export_url s m]) (App.showLoading true s).

(** What [exportToExcel] does once the reply has come, in the state [s] it
    resumes in, before loading is cleared: [s] is the state the request left
    when nothing ran during the awaits ([App_exportToExcel_unfold] below),
    and any state otherwise.  The model is read from [s]; [msg] is the text
    the variant shows for the error caught. *)
Definition export_settle (msg : JsError -> string) (r : ExportReply) (s : State) : State :=
  match r with
  | ExportNetworkError e | ExportOk (Throw e) => App.showError (msg e) s
  | ExportFailure => App.showError (msg (new_Error (JString "Failed to export Excel file"))) s
  | ExportOk (Ok blob) =>
      match currentModel s with
      | Some held =>
          App.showSuccess "Excel file downloaded successfully!"
            (set_downloads
               (downloads s ++ [("financial_model_" +:+ model_id held +:+ ".xlsx", blob)]) s)
      | None => App.showError (msg no_model_id) s
      end
  end.

Definition App_export_settle : ExportReply -> State -> State := export_settle shown_message.
Definition Legacy_export_settle : ExportReply -> State -> State := export_settle message.

(** What an export leaves in [s'] when it resumes in [s] with the reply
    [r]: loading cleared, the model and the requests as in [s]; for a
    response that is [ok] and whose blob can be read, one download under the
    name of the model held in [s], and a notice, or, when [s] holds no model,
    no download and the TypeError on show; for any other reply no download
    and the error on show, with the text [msg] makes of it. *)
Definition export_settled (msg : JsError -> string) (r : ExportReply) (s s' : State) : Prop :=
  loadingIndicator_hidden s' = true
  /\ currentModel s' = currentModel s
  /\ requests s' = requests s
  /\ match r with
     | ExportOk (Ok blob) =>
         match currentModel s with
         | Some held =>
             downloads s'
             = downloads s ++ [("financial_model_" +:+ model_id held +:+ ".xlsx", blob)]
             /\ notices s' = notices s ++ ["Excel file downloaded successfully!"]
             /\ errorMessage s' = errorMessage s
         | None =>
             downloads s' = downloads s /\ notices s' = notices s
             /\ errorMessage s'
                = Some (mkErrorElement false
                          "Cannot read properties of null (reading 'model_id')")
         end
     | ExportFailure =>
         downloads s' = downloads s /\ notices s' = notices s
         /\ errorMessage s' = Some (mkErrorElement false "Failed to export Excel file")
     | ExportNetworkError e | ExportOk (Throw e) =>
         downloads s' = downloads s /\ notices s' = notices s
         /\ errorMessage s' = Some (mkErrorElement false (msg e))
     end.

(** ** script.js: starting over *)

Module ScriptReset.

Definition set_form (v : Script.Form) (s : Script.State) : Script.State :=
  Script.mkState (Script.API_BASE s) (Script.currentModelId s) v
    (Script.loadingSection_shown s) (Script.resultsSection_shown s) (Script.modelId s)
    (Script.timeHorizon s) (Script.month1Revenue s) (Script.finalRevenue s)
    (Script.revenueDriversList s) (Script.projectionsTableBody s) (Script.assumptionsList s)
    (Script.alerts s) (Script.notices s) (Script.opened s) (Script.requests s).

(** [handleNewModel]: [queryForm.reset()] gives every input the value the
    page loaded it with, [initial]; the results section is hidden.
    Scrolling and focus are not part of the state. *)
Definition handleNewModel (initial : Script.Form) (s : Script.State) : Script.State :=
  let s := set_form initial s in
  Script.set_resultsSection_shown false s.

End ScriptReset.

(** ** script.js: what it can display *)

(** The keys of [keyAssumptions] that the mapping has, in the order of
    [keyAssumptions]. *)
Definition Script_shown_keys (l : list (string * field float)) : list string :=
  List.filter (fun k => match Script.lookup_key k l with Some _ => true | None => false end)
    Script.keyAssumptions.

(** A unit that [formatValue] has a format for. *)
Definition Script_unit_known (u : field string) : bool :=
  match u with
  | Present "$" | Present "#" | Present "%" => true
  | _ => false
  end.

(** A driver that [displayRevenueDrivers] can show: it has a name, and a
    value unless its unit has a format of its own. *)
Definition Script_driver_ok (d : Script.Driver) : bool :=
  negb (nullish (Script.d_name d))
  && (Script_unit_known (Script.d_unit d) || negb (nullish (Script.d_value d))).

(** A model that script.js can display: at least one projection, a list of
    drivers that can be shown, and a mapping of assumptions. *)
Definition Script_displayable (data : Script.Model) : bool :=
  match Script.monthly_projections data with
  | Present (_ :: _) => true
  | _ => false
  end
  && negb (nullish (Script.revenue_drivers data))
  && forallb Script_driver_ok (or_default (Script.revenue_drivers data) [])
  && negb (nullish (Script.assumptions data)).

(** The state of script.js once a search is sent and a model has come
    back: loading on show, the results hidden, the request recorded and the
    id of the model kept. *)
Definition Script_received (data : Script.Model) (s : Script.State) : Script.State :=
  Script.set_currentModelId (Some (Script.model_id data))
    (Script.set_requests
       (Script.requests s
          ++ [Script.API_BASE s +:+ "/api/v1/search?" +:+ Script.search_params (Script.form s)])
       (Script.showLoading s)).

(** ** The charts the slots hold *)

(** Every handle refers to a chart on the canvas of its slot. *)
Definition handles_wf (s : State) : Prop :=
  forall slot i, App.handle slot s = Some i ->
                 exists c, instances s !! i = Some c /\ canvas c = slot.

(** The chart a slot holds. *)
Definition held (slot : Slot) (s : State) : option Chart :=
  match App.handle slot s with
  | Some i => instances s !! i
  | None => None
  end.

(** A live chart on the slot's canvas that plots the projections [ps]: its
    labels are their months, and each of its series has one value for each
    of them. *)
Definition plots (ps : list Projection) (slot : Slot) (c : Chart) : Prop :=
  canvas c = slot /\ destroyed c = false
  /\ labels c = List.map (fun p => "M" +:+ show_number (month p)) ps
  /\ Forall (fun series => length (snd series) = length ps) (datasets c).

(** ** Characters of a string *)

Fixpoint string_forall (p : ascii -> bool) (s : string) : bool :=
  match s with
  | EmptyString => true
  | String a r => p a && string_forall p r
  end.


Fixpoint count_char (c : ascii) (s : string) : nat :=
  match s with
  | EmptyString => O
  | String a r => (if Ascii.eqb a c then 1 else 0) + count_char c r
  end.

(** A string of ASCII characters: every byte is a character, and a
    UTF-16 code unit. *)
Definition is_ascii (s : string) : bool := string_forall (fun a => code a <? 128) s.

(** The characters [encodeURIComponent] lets through, and those of an
    escape: none of them ends the value of a parameter or the query. *)
Definition url_safe (a : ascii) : bool :=
  is_alnum a || mem_ascii a "-_.!~*'()%".


(** The optional inputs of the form of script.js that are filled in. *)
Definition Script_filled (f : Script.Form) : nat :=
  length (List.filter (fun v => negb (String.eqb v ""))
            [Script.months f; Script.initialSalesPeople f; Script.marketingSpend f;
             Script.largeCustomerRevenue f]).

(** ** Values that are falsy *)

(** A driver's value that is there but falsy: [0], [-0], [NaN] or the
    empty string. *)
Definition falsy_value (v : field scalar) : bool :=
  match v with
  | Present (SNum x) => negb (truthy_number x)
  | Present (SStr t) => String.eqb t ""
  | _ => false
  end.

(** The driver without its value. *)
Definition without_value (d : Driver) : Driver :=
  mkDriver (d_name d) (d_type d) Absent (d_unit d) (d_formula d) (d_business_unit d).

(** ** script.js: what a display leaves alone *)

(** Whatever [displayResults] of script.js does after it has hidden the
    loading section, it leaves the session as it is: the id kept, the
    loading section hidden, the alerts, and the results section hidden until
    its last statement. *)
Definition Script_same_session (s s' : Script.State) : Prop :=
  Script.currentModelId s' = Script.currentModelId s
  /\ Script.loadingSection_shown s' = Script.loadingSection_shown s
  /\ Script.resultsSection_shown s' = Script.resultsSection_shown s
  /\ Script.alerts s' = Script.alerts s
  /\ Script.requests s' = Script.requests s
  /\ Script.opened s' = Script.opened s.

Definition Script_keeps {A : Type} (c : M Script.State A) : Prop :=
  forall s, Script_same_session s (snd (c s)).

(** Closes a frame goal between a state of script.js and setters applied
    to it. *)
Ltac script_frame := intros; unfold Script_same_session; repeat split.

(* ================================================================== *)
(** * Properties *)
(* ================================================================== *)

Local Open Scope nat_scope.

(** ** Loops that append to a container *)

Section Appending.
Context {A : Type}.

Lemma forEach_cons (f : A -> State -> State) (a : A) (l : list A) (s : State) :
  forEach f (a :: l) s = forEach f l (f a s).
Proof. reflexivity. Qed.

Lemma forEach_rows (row : A -> Html) (l : list A) :
  forall s,
    forEach (fun a s => set_projectionsTable (projectionsTable s ++ [row a]) s) l s
    = set_projectionsTable (projectionsTable s ++ List.map row l) s.
Proof.
  induction l as [|a l IH]; intros s.
  - destruct s. cbn. now rewrite app_nil_r.
  - rewrite forEach_cons, IH. cbn. now rewrite <- app_assoc.
Qed.

Lemma forEach_cards (card : A -> Html) (l : list A) :
  forall s,
    forEach (fun a s => set_driversContainer (driversContainer s ++ [card a]) s) l s
    = set_driversContainer (driversContainer s ++ List.map card l) s.
Proof.
  induction l as [|a l IH]; intros s.
  - destruct s. cbn. now rewrite app_nil_r.
  - rewrite forEach_cons, IH. cbn. now rewrite <- app_assoc.
Qed.

Lemma forEach_assumption_cards (card : A -> Html) (l : list A) :
  forall s,
    forEach (fun a s => set_assumptionsContainer (assumptionsContainer s ++ [card a]) s) l s
    = set_assumptionsContainer (assumptionsContainer s ++ List.map card l) s.
Proof.
  induction l as [|a l IH]; intros s.
  - destruct s. cbn. now rewrite app_nil_r.
  - rewrite forEach_cons, IH. cbn. now rewrite <- app_assoc.
Qed.

Lemma Script_forEachM_rows (row : A -> Html) (l : list A) :
  forall s,
    Script.forEachM
      (fun a => exec (fun s => Script.set_projectionsTableBody
                                 (Script.projectionsTableBody s ++ [row a]) s)) l s
    = (Ok tt, Script.set_projectionsTableBody
                (Script.projectionsTableBody s ++ List.map row l) s).
Proof.
  induction l as [|a l IH]; intros s; simpl.
  - unfold ret. rewrite app_nil_r. now destruct s.
  - unfold bind, exec at 1. rewrite IH. simpl. now rewrite <- app_assoc.
Qed.
End Appending.

(** What the three renderers of app.js leave: the container alone is
    rewritten. *)
Lemma App_displayProjectionsTable_eq (ps : list Projection) (s : State) :
  App.displayProjectionsTable ps s = set_projectionsTable (List.map App.projection_row ps) s.
Proof. unfold App.displayProjectionsTable. now rewrite forEach_rows. Qed.

Lemma Legacy_displayProjectionsTable_eq (ps : list Projection) (s : State) :
  Legacy.displayProjectionsTable ps s
  = set_projectionsTable (List.map Legacy.projection_row ps) s.
Proof. unfold Legacy.displayProjectionsTable. now rewrite forEach_rows. Qed.

Lemma App_displayRevenueDrivers_eq (ds : list Driver) (s : State) :
  App.displayRevenueDrivers ds s
  = set_driversContainer
      (cards_or_placeholder "No revenue drivers available" App.driver_card ds) s.
Proof.
  unfold App.displayRevenueDrivers. destruct ds as [|d ds]; [reflexivity|].
  cbn [length Nat.eqb]. now rewrite forEach_cards.
Qed.

Lemma App_displayAssumptions_eq (l : list (string * scalar)) (s : State) :
  App.displayAssumptions l s
  = set_assumptionsContainer
      (cards_or_placeholder "No assumptions available" App.assumption_card l) s.
Proof.
  unfold App.displayAssumptions. destruct l as [|e l]; [reflexivity|].
  cbn [length List.map Nat.eqb]. now rewrite forEach_assumption_cards.
Qed.

Lemma App_table (ps : list Projection) (s : State) :
  projectionsTable (App.displayProjectionsTable ps s) = List.map App.projection_row ps.
Proof. now rewrite App_displayProjectionsTable_eq. Qed.

Lemma Legacy_table (ps : list Projection) (s : State) :
  projectionsTable (Legacy.displayProjectionsTable ps s) = List.map Legacy.projection_row ps.
Proof. now rewrite Legacy_displayProjectionsTable_eq. Qed.

Lemma Script_table (ps : list Script.Projection) (s : Script.State) :
  Script.projectionsTableBody (run (Script.displayProjectionsTable (Present ps)) s)
  = List.map Script.projection_row ps.
Proof.
  unfold Script.displayProjectionsTable, run, bind, exec at 1.
  now rewrite Script_forEachM_rows.
Qed.

Lemma append_empty_r (s : string) : s +:+ "" = s.
Proof.
  induction s as [|a r IH]; [reflexivity|].
  change (String a (r +:+ "") = String a r). now rewrite IH.
Qed.

Lemma App_row_cells (p : Projection) :
  cells (App.projection_row p)
  = [ "Month " +:+ show_number (month p);
      show_number (sales_people p) +:+ " people";
      Number_toLocaleString (nullish_zero (large_customers_cumulative p));
      Number_toLocaleString (nullish_zero (small_customers_cumulative p));
      App.formatCurrency (or_zero (large_customer_revenue p));
      App.formatCurrency (or_zero (small_customer_revenue p));
      App.formatCurrency (or_zero (total_revenue p)) ].
Proof.
  unfold App.projection_row. cbn [cells List.map textContent fold_right].
  now rewrite !append_empty_r.
Qed.

Lemma Legacy_row_cells (p : Projection) :
  cells (Legacy.projection_row p)
  = [ "Month " +:+ show_number (month p);
      show_number (sales_people p) +:+ " people";
      Legacy.locale_or_zero (large_customers_cumulative p);
      Legacy.locale_or_zero (small_customers_cumulative p);
      Legacy.formatCurrency (Present (or_zero (large_customer_revenue p)));
      Legacy.formatCurrency (Present (or_zero (small_customer_revenue p)));
      Legacy.formatCurrency (Present (or_zero (total_revenue p))) ].
Proof.
  unfold Legacy.projection_row. cbn [cells List.map textContent fold_right].
  now rewrite !append_empty_r.
Qed.

Lemma Script_row_cells (p : Script.Projection) :
  cells (Script.projection_row p)
  = [ show_number (Script.month p);
      show_number (Script.sales_people p);
      show_number (Script.large_customers_acquired p);
      Script.formatCurrency (Script.large_customer_revenue p);
      show_number (Script.small_customers_acquired p);
      Script.formatCurrency (Script.small_customer_revenue p);
      Script.formatCurrency (Script.marketing_spend p);
      Script.formatCurrency (Script.total_revenue p) ].
Proof.
  unfold Script.projection_row. cbn [cells List.map textContent fold_right].
  now rewrite !append_empty_r.
Qed.

(** C2.  In each of the three variants the projections table gets one row
    per projection, [N] rows for [N] projections, in the order of the
    payload: the row at position [i] shows the projection at position [i],
    cell by cell (in the class variants its month after ["Month "], its
    sales people, its cumulative customers and its three revenues; in
    script.js its month and seven more of its fields).  So two projections
    sent with month 2 before month 1 give a row of month 2 and then a row of
    month 1, each with the revenue of its own projection. *)
Theorem C2_one_row_per_projection :
  (forall (ps : list Projection) (s : State),
      let rows := projectionsTable (App.displayProjectionsTable ps s) in
      length rows = length ps
      /\ (forall i, rows !! i = App.projection_row <$> ps !! i)
      /\ forall i p, ps !! i = Some p ->
           cells <$> rows !! i
           = Some [ "Month " +:+ show_number (month p);
                    show_number (sales_people p) +:+ " people";
                    Number_toLocaleString (nullish_zero (large_customers_cumulative p));
                    Number_toLocaleString (nullish_zero (small_customers_cumulative p));
                    App.formatCurrency (or_zero (large_customer_revenue p));
                    App.formatCurrency (or_zero (small_customer_revenue p));
                    App.formatCurrency (or_zero (total_revenue p)) ])
  /\
  (forall (ps : list Projection) (s : State),
      let rows := projectionsTable (Legacy.displayProjectionsTable ps s) in
      length rows = length ps
      /\ (forall i, rows !! i = Legacy.projection_row <$> ps !! i)
      /\ forall i p, ps !! i = Some p ->
           cells <$> rows !! i
           = Some [ "Month " +:+ show_number (month p);
                    show_number (sales_people p) +:+ " people";
                    Legacy.locale_or_zero (large_customers_cumulative p);
                    Legacy.locale_or_zero (small_customers_cumulative p);
                    Legacy.formatCurrency (Present (or_zero (large_customer_revenue p)));
                    Legacy.formatCurrency (Present (or_zero (small_customer_revenue p)));
                    Legacy.formatCurrency (Present (or_zero (total_revenue p))) ])
  /\
  (forall (ps : list Script.Projection) (s : Script.State),
      let rows := Script.projectionsTableBody
                    (run (Script.displayProjectionsTable (Present ps)) s) in
      length rows = length ps
      /\ (forall i, rows !! i = Script.projection_row <$> ps !! i)
      /\ forall i p, ps !! i = Some p ->
           cells <$> rows !! i
           = Some [ show_number (Script.month p);
                    show_number (Script.sales_people p);
                    show_number (Script.large_customers_acquired p);
                    Script.formatCurrency (Script.large_customer_revenue p);
                    show_number (Script.small_customers_acquired p);
                    Script.formatCurrency (Script.small_customer_revenue p);
                    Script.formatCurrency (Script.marketing_spend p);
                    Script.formatCurrency (Script.total_revenue p) ])
  /\
  (let p (m r : float) :=
     mkProjection (Present m) (Present 3%float) (Present 12%float) (Present 1500%float)
       (Present 1000000%float) (Present 250000%float) (Present r) in
   let q (m r : float) :=
     Script.mkProjection (Present m) (Present 3%float) (Present 2%float)
       (Present 1000000%float) (Present 40%float) (Present 250000%float)
       (Present 300000%float) (Present r) in
   List.map cells
     (projectionsTable
        (App.displayProjectionsTable [p 2%float 2500000%float; p 1%float 1250000%float]
           (example_page "http://localhost" "")))
   = [ ["Month 2"; "3 people"; "12"; "1,500"; "$1,000,000"; "$250,000"; "$2,500,000"];
       ["Month 1"; "3 people"; "12"; "1,500"; "$1,000,000"; "$250,000"; "$1,250,000"] ]
   /\ List.map cells
        (projectionsTable
           (Legacy.displayProjectionsTable [p 2%float 2500000%float; p 1%float 1250000%float]
              (example_page "http://localhost" "")))
      = [ ["Month 2"; "3 people"; "12"; "1,500"; "$1,000,000"; "$250,000"; "$2,500,000"];
          ["Month 1"; "3 people"; "12"; "1,500"; "$1,000,000"; "$250,000"; "$1,250,000"] ]
   /\ List.map cells
        (Script.projectionsTableBody
           (run (Script.displayProjectionsTable
                   (Present [q 2%float 2500000%float; q 1%float 1250000%float]))
              (example_form_page "http://localhost" (Script.mkForm "q" "" "" "" ""))))
      = [ ["2"; "3"; "2"; "$1,000,000"; "40"; "$250,000"; "$300,000"; "$2,500,000"];
          ["1"; "3"; "2"; "$1,000,000"; "40"; "$250,000"; "$300,000"; "$1,250,000"] ]).
Proof.
  split; [|split; [|split]].
  - intros ps s rows; subst rows. rewrite App_table.
    split; [apply length_map|]. split; [intro; apply list_lookup_fmap|].
    intros i p Hp. rewrite list_lookup_fmap, Hp. cbn [fmap option_fmap option_map].
    now rewrite App_row_cells.
  - intros ps s rows; subst rows. rewrite Legacy_table.
    split; [apply length_map|]. split; [intro; apply list_lookup_fmap|].
    intros i p Hp. rewrite list_lookup_fmap, Hp. cbn [fmap option_fmap option_map].
    now rewrite Legacy_row_cells.
  - intros ps s rows; subst rows. rewrite Script_table.
    split; [apply length_map|]. split; [intro; apply list_lookup_fmap|].
    intros i p Hp. rewrite list_lookup_fmap, Hp. cbn [fmap option_fmap option_map].
    now rewrite Script_row_cells.
  - cbv zeta. split; [|split]; vm_compute; reflexivity.
Qed.

(** ** Export and validation *)

(** C10.  In both class variants [exportToExcel] with no current model
    returns at once: the state it leaves is the state it found, so no request
    is made, nothing is downloaded, and model, loading flag and error
    message stay as they were. *)
Theorem C10_export_without_model_does_nothing (net : Network Model) (s : State) :
  currentModel s = None ->
  App.exportToExcel net s = (Ok tt, s) /\ Legacy.exportToExcel net s = (Ok tt, s).
Proof.
  intros H. unfold App.exportToExcel, Legacy.exportToExcel, bind, gets.
  now rewrite H.
Qed.

Lemma C10_export_without_model_witness :
  currentModel (example_page "http://localhost" "q") = None /\
  App.exportToExcel offline (example_page "http://localhost" "q")
    = (Ok tt, example_page "http://localhost" "q") /\
  Legacy.exportToExcel offline (example_page "http://localhost" "q")
    = (Ok tt, example_page "http://localhost" "q").
Proof.
  split; [reflexivity|].
  apply (C10_export_without_model_does_nothing offline (example_page "http://localhost" "q")).
  reflexivity.
Defined.

(** With a model held the export does reach the network: the run is the
    request, then what the method does with the reply in the state the
    request left, then loading cleared. *)
Lemma App_exportToExcel_unfold (net : Network Model) (s : State) (m : Model) :
  currentModel s = Some m ->
  App.exportToExcel net s
  = (Ok tt, App.showLoading false
              (App_export_settle (export_excel net (export_url s m)) (export_requested m s))).
Proof.
  intros H. unfold App.exportToExcel, bind at 1, gets at 1. rewrite H.
  unfold try_finally, try_catch, bind, exec, gets, fetch_export, read_body, lift, throw.
  cbn [fst snd API_BASE requests App.showLoading set_loadingIndicator_hidden set_requests].
  unfold App_export_settle, export_settle, export_requested, export_url.
  cbn [currentModel App.showLoading set_loadingIndicator_hidden set_requests].
  destruct (export_excel net _) as [e|[blob|e]|]; try reflexivity.
  change (currentModel (set_requests _ (App.showLoading true s))) with (currentModel s).
  rewrite H. reflexivity.
Qed.

Lemma Legacy_exportToExcel_unfold (net : Network Model) (s : State) (m : Model) :
  currentModel s = Some m ->
  Legacy.exportToExcel net s
  = (Ok tt, App.showLoading false
              (Legacy_export_settle (export_excel net (export_url s m))
                 (export_requested m s))).
Proof.
  intros H. unfold Legacy.exportToExcel, bind at 1, gets at 1. rewrite H.
  unfold try_finally, try_catch, bind, exec, gets, fetch_export, read_body, lift, throw.
  change Legacy.showLoading with App.showLoading.
  cbn [fst snd API_BASE requests App.showLoading set_loadingIndicator_hidden set_requests].
  unfold Legacy_export_settle, export_settle, export_requested, export_url.
  cbn [currentModel App.showLoading set_loadingIndicator_hidden set_requests].
  destruct (export_excel net _) as [e|[blob|e]|]; try reflexivity.
  change (currentModel (set_requests _ (App.showLoading true s))) with (currentModel s).
  rewrite H. reflexivity.
Qed.

(** C8, as amended.  In the class variants a query that is empty once
    trimmed is answered on the spot: the validation message is shown, and
    nothing else changes; in particular no request is made. *)
Theorem C8_blank_query_never_reaches_the_network (net : Network Model) (s : State) :
  trim (queryInput s) = "" ->
  (App.generateModel net s
     = (Ok tt, App.showError "Please describe your financial scenario" s)
   /\ requests (run (App.generateModel net) s) = requests s
   /\ errorMessage (run (App.generateModel net) s)
      = Some (mkErrorElement false "Please describe your financial scenario"))
  /\
  (Legacy.generateModel net s
     = (Ok tt, Legacy.showError "Please describe your financial scenario" s)
   /\ requests (run (Legacy.generateModel net) s) = requests s
   /\ errorMessage (run (Legacy.generateModel net) s)
      = Some (mkErrorElement false "Please describe your financial scenario")).
Proof.
  intros H.
  unfold run, App.generateModel, Legacy.generateModel, bind, gets.
  rewrite H. simpl. repeat split; reflexivity.
Qed.

Lemma C8_blank_query_witness :
  trim (queryInput (example_page "http://localhost" "   ")) = "" /\
  requests (run (App.generateModel offline) (example_page "http://localhost" "   ")) = [] /\
  requests (run (Legacy.generateModel offline) (example_page "http://localhost" "   ")) = [].
Proof.
  pose proof (C8_blank_query_never_reaches_the_network offline
                (example_page "http://localhost" "   ") eq_refl) as [[_ [Ha _]] [_ [Hl _]]].
  split; [reflexivity|]. split; [exact Ha | exact Hl].
Defined.

(** The handler of script.js has no such check: a blank query is sent. *)
Lemma C8_script_sends_a_blank_query :
  trim (Script.query (Script.mkForm "  " "" "" "" "")) = "" /\
  Script.requests
    (run (Script.handleQuerySubmit offline)
         (example_form_page "http://localhost" (Script.mkForm "  " "" "" "" "")))
  = ["http://localhost/api/v1/search?query=++"].
Proof. split; reflexivity. Qed.

(** ** Labels *)

Lemma capitalize_from_get (s : string) :
  forall (prev : option ascii) (i : nat),
    String.get i (capitalize_from (match prev with
                                   | None => false
                                   | Some p => is_word (if (code p =? 95)%Z then " "%char else p)
                                   end)
                                  (underscores_to_spaces s))
    = match String.get i s with
      | Some c => Some (label_char (match i with O => prev | S j => String.get j s end) c)
      | None => None
      end.
Proof.
  induction s as [|a r IH]; intros prev i.
  - reflexivity.
  - destruct i as [|i].
    + cbn [underscores_to_spaces string_map capitalize_from String.get].
      unfold label_char. f_equal.
      destruct (code a =? 95)%Z eqn:Ea.
      * change (is_word " "%char) with false. reflexivity.
      * assert (Hw : is_word a = is_alnum a).
        { unfold is_word, is_alnum. rewrite Ea. now rewrite orb_false_r. }
        rewrite Hw. destruct prev as [p|]; [|reflexivity].
        destruct (code p =? 95)%Z eqn:Ep.
        -- assert (Hp : is_alnum p = false).
           { unfold is_alnum, is_lower, is_upper, is_digit, between.
             apply Z.eqb_eq in Ep. rewrite Ep. reflexivity. }
           rewrite Hp. reflexivity.
        -- assert (Hp : is_word p = is_alnum p).
           { unfold is_word, is_alnum. rewrite Ep. now rewrite orb_false_r. }
           now rewrite Hp.
    + cbn [underscores_to_spaces string_map capitalize_from String.get].
      exact (IH (Some a) i).
Qed.

Lemma App_formatText_string (s : string) :
  App.formatText (JString s) = capitalize_words (underscores_to_spaces s).
Proof.
  unfold App.formatText. cbn [ToBoolean].
  destruct (String.eqb_spec s ""); [subst|]; reflexivity.
Qed.

Lemma ToString_truthy (v : JSValue) :
  ToBoolean v = true ->
  App.formatText v = capitalize_words (underscores_to_spaces (ToString v)).
Proof. intros H. unfold App.formatText. now rewrite H. Qed.

(** C5, as amended.  [formatText] of app.js, a total function from values to
    strings: on a string it does what the spec says of [formatLabel],
    character by character (and part_000's [formatText] and script.js's
    [formatLabel] give the same string); a falsy value gives the empty
    string; any other value is formatted as its string conversion is. *)
Theorem C5_formatText_on_strings_and_other_values :
  (forall (s : string) (i : nat),
      String.get i (App.formatText (JString s)) = formatLabel_spec s i)
  /\ (forall s : string,
         Legacy.formatText (JString s) = Ok (App.formatText (JString s))
         /\ Script.formatLabel (JString s) = Ok (App.formatText (JString s)))
  /\ (forall v : JSValue, ToBoolean v = false -> App.formatText v = "")
  /\ (forall v : JSValue,
         ToBoolean v = true -> App.formatText v = App.formatText (JString (ToString v)))
  /\ App.formatText (JString "large_customer_revenue") = "Large Customer Revenue".
Proof.
  split; [|split; [|split; [|split]]].
  - intros s i. rewrite App_formatText_string. unfold capitalize_words, formatLabel_spec.
    exact (capitalize_from_get s None i).
  - intros s. rewrite App_formatText_string. split; reflexivity.
  - intros v H. unfold App.formatText. now rewrite H.
  - intros v H. rewrite App_formatText_string. now apply ToString_truthy.
  - reflexivity.
Qed.

Lemma C5_formatText_witness :
  App.formatText JNull = ""
  /\ App.formatText (JNumber 0%float) = ""
  /\ App.formatText (JArray [JString "net_margin"; JNumber 2%float])
     = App.formatText (JString "net_margin,2").
Proof.
  destruct C5_formatText_on_strings_and_other_values as (_ & _ & Hfalsy & Htruthy & _).
  split; [apply Hfalsy; reflexivity|].
  split; [apply Hfalsy; reflexivity|].
  apply (Htruthy (JArray [JString "net_margin"; JNumber 2%float])). reflexivity.
Defined.

(** A value that is not a string need not give the empty string: [true]
    gives ["True"], and [42] gives ["42"]. *)
Lemma C5_nonstring_input_is_not_emptied :
  App.formatText (JBool true) = "True"
  /\ App.formatText (JNumber 42%float) = "42"
  /\ ~ (forall v : JSValue, (forall s, v <> JString s) -> App.formatText v = "").
Proof.
  split; [reflexivity|]. split; [vm_compute; reflexivity|].
  intros H. specialize (H (JBool true)).
  assert (Hs : forall s, JBool true <> JString s) by (intros s; discriminate).
  specialize (H Hs). discriminate H.
Qed.

(** In part_000 and script.js a value without [replace] makes the call throw. *)
Lemma formatText_without_coercion_throws :
  Legacy.formatText JUndefined
    = Throw (TypeError "Cannot read properties of undefined (reading 'replace')")
  /\ Script.formatLabel (JNumber 42%float) = Throw (TypeError "key.replace is not a function").
Proof. split; reflexivity. Qed.

(** ** The projections table *)

Lemma formatCurrency_zero : App.formatCurrency PrimFloat.zero = "$0".
Proof. vm_compute. reflexivity. Qed.

Lemma toLocaleString_zero : Number_toLocaleString PrimFloat.zero = "0".
Proof. vm_compute. reflexivity. Qed.

Lemma or_zero_nullish (f : field float) : nullish f = true -> or_zero f = PrimFloat.zero.
Proof. now destruct f. Qed.

Lemma nullish_zero_nullish (f : field float) :
  nullish f = true -> nullish_zero f = PrimFloat.zero.
Proof. now destruct f. Qed.

Lemma locale_or_zero_nullish (f : field float) :
  nullish f = true -> Legacy.locale_or_zero f = "0".
Proof. now destruct f. Qed.

(** C6, as amended.  In the class variants a revenue of a projection
    (large, small, total) that is absent or [null] is shown as ["$0"], and a
    cumulative customer count that is absent or [null] as ["0"]. *)
Theorem C6_missing_revenues_and_counts_show_zero (p : Projection) :
  (nullish (total_revenue p) = true ->
   cells (App.projection_row p) !! 6 = Some "$0"
   /\ cells (Legacy.projection_row p) !! 6 = Some "$0")
  /\ (nullish (large_customer_revenue p) = true ->
      cells (App.projection_row p) !! 4 = Some "$0"
      /\ cells (Legacy.projection_row p) !! 4 = Some "$0")
  /\ (nullish (small_customer_revenue p) = true ->
      cells (App.projection_row p) !! 5 = Some "$0"
      /\ cells (Legacy.projection_row p) !! 5 = Some "$0")
  /\ (nullish (large_customers_cumulative p) = true ->
      cells (App.projection_row p) !! 2 = Some "0"
      /\ cells (Legacy.projection_row p) !! 2 = Some "0")
  /\ (nullish (small_customers_cumulative p) = true ->
      cells (App.projection_row p) !! 3 = Some "0"
      /\ cells (Legacy.projection_row p) !! 3 = Some "0").
Proof.
  split; [|split; [|split; [|split]]]; intros H; split;
    cbn [cells App.projection_row Legacy.projection_row List.map lookup list_lookup
         textContent fold_right];
    unfold Legacy.formatCurrency; cbn [ToNumber];
    rewrite ?(or_zero_nullish _ H), ?(nullish_zero_nullish _ H), ?(locale_or_zero_nullish _ H);
    fold (App.formatCurrency PrimFloat.zero);
    rewrite ?formatCurrency_zero, ?toLocaleString_zero; reflexivity.
Qed.

Lemma C6_missing_fields_witness :
  nullish (total_revenue (mkProjection (Present 1%float) (Present 2%float)
                            Absent Null Null Absent Null)) = true
  /\ cells (App.projection_row (mkProjection (Present 1%float) (Present 2%float)
                                  Absent Null Null Absent Null)) !! 6 = Some "$0"
  /\ cells (Legacy.projection_row (mkProjection (Present 1%float) (Present 2%float)
                                     Absent Null Null Absent Null)) !! 6 = Some "$0".
Proof.
  split; [reflexivity|].
  apply (C6_missing_revenues_and_counts_show_zero
           (mkProjection (Present 1%float) (Present 2%float) Absent Null Null Absent Null)).
  reflexivity.
Defined.

(** The table of script.js applies no defaults: with its fields absent a
    row shows ["undefined"] and ["$NaN"], and only a [null] amount shows as
    ["$0"]. *)
Lemma C6_script_row_shows_undefined :
  cells (Script.projection_row
           (Script.mkProjection Absent Absent Absent Absent Absent Absent Null Absent))
  = ["undefined"; "undefined"; "undefined"; "$NaN"; "undefined"; "$NaN"; "$0"; "$NaN"].
Proof. vm_compute. reflexivity. Qed.

(** In the class variants the month and the head count are shown as they
    come. *)
Lemma App_row_shows_missing_sales_people :
  cells (App.projection_row (mkProjection Absent Absent Absent Absent Absent Absent Absent))
  = ["Month undefined"; "undefined people"; "0"; "0"; "$0"; "$0"; "$0"].
Proof. vm_compute. reflexivity. Qed.

(** ** Frames *)

#[local] Instance same_session_preorder : PreOrder same_session.
Proof.
  split.
  - intros s. unfold same_session. tauto.
  - intros s1 s2 s3 H12 H23. unfold same_session in *.
    destruct H12 as (?&?&?&?&?&?&?&?), H23 as (?&?&?&?&?&?&?&?).
    repeat split; congruence.
Qed.

#[local] Instance same_tabs_preorder : PreOrder same_tabs.
Proof.
  split.
  - intros s. unfold same_tabs. tauto.
  - intros s1 s2 s3 [? ?] [? ?]. split; congruence.
Qed.

#[local] Instance same_charts_preorder : PreOrder same_charts.
Proof.
  split.
  - intros s. unfold same_charts. tauto.
  - intros s1 s2 s3 H12 H23. unfold same_charts in *.
    destruct H12 as (?&?&?&?&?&?), H23 as (?&?&?&?&?&?).
    repeat split; congruence.
Qed.

#[local] Instance same_results_preorder : PreOrder same_results.
Proof.
  split.
  - intros s. unfold same_results. tauto.
  - intros s1 s2 s3 H12 H23. unfold same_results in *.
    destruct H12 as (?&?&?&?&?&?&?), H23 as (?&?&?&?&?&?&?).
    repeat split; congruence.
Qed.

#[local] Instance outside_results_preorder : PreOrder outside_results.
Proof.
  split.
  - intros s. split; [|split]; reflexivity.
  - intros s1 s2 s3 (?&?&?) (?&?&?). split; [|split]; etransitivity; eassumption.
Qed.

Section Keeps.
Variable R : State -> State -> Prop.
Context `{!PreOrder R}.

Lemma keeps_ret {A} (a : A) : keeps R (ret a).
Proof. intros s. reflexivity. Qed.

Lemma keeps_throw {A} (e : JsError) : keeps R (@throw State A e).
Proof. intros s. reflexivity. Qed.

Lemma keeps_lift {A} (o : Outcome A) : keeps R (lift o).
Proof. intros s. reflexivity. Qed.

Lemma keeps_gets {A} (f : State -> A) : keeps R (gets f).
Proof. intros s. reflexivity. Qed.

Lemma keeps_exec (f : State -> State) : (forall s, R s (f s)) -> keeps R (exec f).
Proof. intros H s. apply H. Qed.

Lemma keeps_bind {A B} (c : M State A) (k : A -> M State B) :
  keeps R c -> (forall a, keeps R (k a)) -> keeps R (bind c k).
Proof.
  intros Hc Hk s. unfold bind. specialize (Hc s).
  destruct (c s) as [[a|e] s']; cbn [snd] in *; [|exact Hc].
  etransitivity; [exact Hc | apply Hk].
Qed.

Lemma keeps_try_catch {A} (c : M State A) (h : JsError -> M State A) :
  keeps R c -> (forall e, keeps R (h e)) -> keeps R (try_catch c h).
Proof.
  intros Hc Hh s. unfold try_catch. specialize (Hc s).
  destruct (c s) as [[a|e] s']; cbn [snd] in *; [exact Hc|].
  etransitivity; [exact Hc | apply Hh].
Qed.

Lemma keeps_try_finally {A} (c : M State A) (f : M State unit) :
  keeps R c -> keeps R f -> keeps R (try_finally c f).
Proof.
  intros Hc Hf s. unfold try_finally. specialize (Hc s).
  destruct (c s) as [r s']. specialize (Hf s').
  destruct (f s') as [[u|e] s'']; cbn [snd] in *; etransitivity; eassumption.
Qed.

Lemma keeps_forEachM {A} (f : A -> M State unit) (l : list A) :
  (forall a, keeps R (f a)) -> keeps R (forEachM f l).
Proof.
  intros Hf. induction l as [|a l IH]; cbn [forEachM].
  - apply keeps_ret.
  - apply keeps_bind; [apply Hf | intros _; exact IH].
Qed.
End Keeps.

(** The renderers of app.js. *)
Lemma App_displayProjectionsTable_frame (ps : list Projection) (s : State) :
  outside_results s (App.displayProjectionsTable ps s).
Proof. rewrite App_displayProjectionsTable_eq. frame. Qed.

Lemma App_displayRevenueDrivers_frame (ds : list Driver) (s : State) :
  outside_results s (App.displayRevenueDrivers ds s).
Proof. rewrite App_displayRevenueDrivers_eq. frame. Qed.

Lemma App_displayAssumptions_frame (l : list (string * scalar)) (s : State) :
  outside_results s (App.displayAssumptions l s).
Proof. rewrite App_displayAssumptions_eq. frame. Qed.

Lemma App_draw_frame (slot : Slot) (config : Chart) (s : State) :
  same_session s (App.draw slot config s) /\ same_tabs s (App.draw slot config s)
  /\ same_results s (App.draw slot config s).
Proof.
  unfold App.draw, App.new_Chart, App.destroy.
  destruct (existsb _ _ && _); [|frame].
  destruct slot; cbn [App.handle].
  - destruct (revenueLine s); frame.
  - destruct (revenueBreakdown s); frame.
  - destruct (revenueMillion s); frame.
Qed.

Lemma App_renderCharts_frame (ps : list Projection) (s : State) :
  same_session s (App.renderCharts ps s) /\ same_tabs s (App.renderCharts ps s)
  /\ same_results s (App.renderCharts ps s).
Proof.
  unfold App.renderCharts. destruct (Nat.eqb _ _); [frame|].
  cbv zeta.
  repeat match goal with
         | |- context [App.draw ?sl ?c ?st] =>
             lazymatch goal with
             | H : same_session st (App.draw sl c st) |- _ => fail
             | _ => destruct (App_draw_frame sl c st) as (?&?&?)
             end
         end.
  split; [|split]; (etransitivity; [eassumption|]); (etransitivity; [eassumption|]);
    eassumption.
Qed.

Lemma App_switchTab_frame (tabName : string) (s : State) :
  same_session s (App.switchTab tabName s) /\ same_results s (App.switchTab tabName s)
  /\ tab_btns (App.switchTab tabName s) = activate_first tabName (deactivate_all (tab_btns s))
  /\ tab_panes (App.switchTab tabName s)
     = activate_first (tabName +:+ "Tab") (deactivate_all (tab_panes s)).
Proof.
  unfold App.switchTab. cbv zeta.
  set (s1 := set_tab_panes _ (set_tab_btns _ s)).
  assert (H1 : same_session s s1 /\ same_results s s1) by (split; frame).
  destruct H1 as [Hs Hr].
  destruct (String.eqb tabName "charts"); [|now repeat split].
  destruct (currentModel s1) as [model|]; [|now repeat split].
  destruct (monthly_projections model) as [| |ps]; try now repeat split.
  destruct (revenueLine s1), (revenueBreakdown s1), (revenueMillion s1);
    try now repeat split.
  destruct (App_renderCharts_frame ps s1) as (Hs' & [Hb Hp] & Hr').
  split; [etransitivity; [exact Hs | exact Hs']|].
  split; [etransitivity; [exact Hr | exact Hr']|].
  split; [rewrite Hb | rewrite Hp]; reflexivity.
Qed.

(** What [displayResults] of app.js leaves: the session as it was, the
    three containers filled from the model, and the charts tab active. *)
Lemma App_displayResults_spec (data : Model) (s : State) :
  same_session s (App.displayResults data s)
  /\ projectionsTable (App.displayResults data s)
     = List.map App.projection_row (or_default (monthly_projections data) [])
  /\ driversContainer (App.displayResults data s)
     = cards_or_placeholder "No revenue drivers available" App.driver_card
         (or_default (revenue_drivers data) [])
  /\ assumptionsContainer (App.displayResults data s)
     = cards_or_placeholder "No assumptions available" App.assumption_card
         (or_default (assumptions data) [])
  /\ tab_btns (App.displayResults data s)
     = activate_first "charts" (deactivate_all (tab_btns s))
  /\ tab_panes (App.displayResults data s)
     = activate_first "chartsTab" (deactivate_all (tab_panes s)).
Proof.
  unfold App.displayResults. cbv zeta.
  set (s1 := set_totalRevenue _ _).
  assert (H1 : outside_results s s1) by frame.
  rewrite App_displayProjectionsTable_eq, App_displayRevenueDrivers_eq,
    App_displayAssumptions_eq.
  set (s4 := set_assumptionsContainer _ _).
  assert (H4 : outside_results s s4) by (destruct H1 as (?&?&?); frame).
  destruct (App_renderCharts_frame (or_default (monthly_projections data) []) s4)
    as (Hs5 & [Hb5 Hp5] & Hr5).
  set (s5 := App.renderCharts _ s4) in *.
  destruct (App_switchTab_frame "charts" s5) as (Hs6 & Hr6 & Hb6 & Hp6).
  destruct H4 as (Hs4 & [Hb4 Hp4] & _).
  assert (Hr : same_results s4 (App.switchTab "charts" s5))
    by (etransitivity; [exact Hr5 | exact Hr6]).
  destruct Hr as (_ & _ & _ & _ & Ht & Hd & Ha).
  split; [etransitivity; [exact Hs4 | etransitivity; [exact Hs5 | exact Hs6]]|].
  split; [rewrite Ht; reflexivity|].
  split; [rewrite Hd; reflexivity|].
  split; [rewrite Ha; reflexivity|].
  split; [rewrite Hb6, Hb5, Hb4 | rewrite Hp6, Hp5, Hp4]; reflexivity.
Qed.

(** The renderers of part_000. *)
Lemma Legacy_displayRevenueDrivers_keeps (f : field (list Driver)) :
  keeps outside_results (Legacy.displayRevenueDrivers f).
Proof.
  unfold Legacy.displayRevenueDrivers.
  apply keeps_bind; [exact _ | apply keeps_exec; intros; frame |].
  intros _. destruct f as [| |[|d ds]]; try (apply keeps_exec; intros; frame).
  apply keeps_forEachM; [exact _|]. intros a.
  apply keeps_bind; [exact _ | apply keeps_lift; exact _ |].
  intros card. apply keeps_exec. intros. frame.
Qed.

Lemma Legacy_displayAssumptions_keeps (f : field (list (string * scalar))) :
  keeps outside_results (Legacy.displayAssumptions f).
Proof.
  unfold Legacy.displayAssumptions.
  apply keeps_bind; [exact _ | apply keeps_exec; intros; frame |].
  intros _. destruct f as [| |[|d ds]]; try (apply keeps_exec; intros; frame).
  apply keeps_forEachM; [exact _|]. intros a.
  apply keeps_bind; [exact _ | apply keeps_lift; exact _ |].
  intros card. apply keeps_exec. intros. frame.
Qed.

Lemma Legacy_displayResults_keeps (data : Model) :
  keeps outside_results (Legacy.displayResults data).
Proof.
  unfold Legacy.displayResults.
  do 2 (apply keeps_bind; [exact _ | apply keeps_exec; intros; frame | intros _]).
  destruct (monthly_projections data) as [| |ps]; try (apply keeps_throw; exact _).
  do 2 (apply keeps_bind; [exact _ | apply keeps_exec; intros; frame | intros _]).
  apply keeps_bind; [exact _ | |intros _].
  - apply keeps_exec. intros s. rewrite Legacy_displayProjectionsTable_eq. frame.
  - apply keeps_bind; [exact _ | apply Legacy_displayRevenueDrivers_keeps |].
    intros _. apply Legacy_displayAssumptions_keeps.
Qed.

(** A displayable model is displayed without a throw. *)
Lemma forEachM_returns {A} (f : A -> M State unit) (l : list A) :
  (forall a, In a l -> forall s, fst (f a s) = Ok tt) ->
  forall s, fst (forEachM f l s) = Ok tt.
Proof.
  induction l as [|a l IH]; intros Hf s; cbn [forEachM]; [reflexivity|].
  unfold bind. pose proof (Hf a (or_introl eq_refl) s) as Ha.
  destruct (f a s) as [[[]|e] s']; cbn [fst] in Ha; [|discriminate].
  apply IH. intros b Hb. apply Hf. now right.
Qed.

Lemma Legacy_displayRevenueDrivers_returns (f : field (list Driver)) (s : State) :
  forallb has_name (or_default f []) = true ->
  fst (Legacy.displayRevenueDrivers f s) = Ok tt.
Proof.
  intros H. unfold Legacy.displayRevenueDrivers, bind, exec at 1.
  destruct f as [| |[|d ds]]; try reflexivity.
  apply forEachM_returns. intros a Ha s'.
  cbn [or_default] in H. rewrite forallb_forall in H. specialize (H a Ha).
  unfold has_name in H. unfold bind, lift, Legacy.driver_card.
  destruct (d_name a) as [| |n]; try discriminate H. reflexivity.
Qed.

Lemma Legacy_displayAssumptions_returns (f : field (list (string * scalar))) (s : State) :
  fst (Legacy.displayAssumptions f s) = Ok tt.
Proof.
  unfold Legacy.displayAssumptions, bind, exec at 1.
  destruct f as [| |[|d ds]]; try reflexivity.
  apply forEachM_returns. intros a Ha s'. reflexivity.
Qed.

Lemma Legacy_displayResults_returns (data : Model) (s : State) :
  displayable data = true -> fst (Legacy.displayResults data s) = Ok tt.
Proof.
  unfold displayable. intros H. apply andb_true_iff in H as [Hp Hd].
  unfold Legacy.displayResults.
  destruct (monthly_projections data) as [| |ps]; try discriminate Hp.
  unfold bind at 1 2 3 4 5, exec. cbn [fst snd].
  unfold bind.
  match goal with
  | |- context [Legacy.displayRevenueDrivers ?f ?st] =>
      pose proof (Legacy_displayRevenueDrivers_returns f st Hd) as Hr;
      destruct (Legacy.displayRevenueDrivers f st) as [[[]|e] s']; [|discriminate Hr]
  end.
  apply Legacy_displayAssumptions_returns.
Qed.

(** ** Empty lists *)

(** C7, as amended.  In the class variants an empty list of drivers and an
    empty mapping of assumptions are rendered as one paragraph that says so,
    by the renderers themselves and through [displayResults] of app.js
    (where an absent list counts as empty). *)
Theorem C7_empty_lists_get_a_placeholder :
  (forall s, driversContainer (App.displayRevenueDrivers [] s)
             = [El "p" "" [Text "No revenue drivers available"]])
  /\ (forall s, assumptionsContainer (App.displayAssumptions [] s)
                = [El "p" "" [Text "No assumptions available"]])
  /\ (forall data s,
         or_default (revenue_drivers data) [] = [] ->
         driversContainer (App.displayResults data s)
         = [El "p" "" [Text "No revenue drivers available"]])
  /\ (forall data s,
         or_default (assumptions data) [] = [] ->
         assumptionsContainer (App.displayResults data s)
         = [El "p" "" [Text "No assumptions available"]])
  /\ (forall f s,
         or_default f [] = [] ->
         driversContainer (run (Legacy.displayRevenueDrivers f) s)
         = [El "p" "" [Text "No revenue drivers available"]])
  /\ (forall f s,
         or_default f [] = [] ->
         assumptionsContainer (run (Legacy.displayAssumptions f) s)
         = [El "p" "" [Text "No assumptions available"]]).
Proof.
  split; [|split; [|split; [|split; [|split]]]].
  - intros s. now rewrite App_displayRevenueDrivers_eq.
  - intros s. now rewrite App_displayAssumptions_eq.
  - intros data s H.
    destruct (App_displayResults_spec data s) as (_ & _ & Hd & _). now rewrite Hd, H.
  - intros data s H.
    destruct (App_displayResults_spec data s) as (_ & _ & _ & Ha & _). now rewrite Ha, H.
  - intros f s H. destruct f as [| |[|d ds]]; try discriminate H; reflexivity.
  - intros f s H. destruct f as [| |[|d ds]]; try discriminate H; reflexivity.
Qed.

Lemma C7_empty_lists_witness :
  driversContainer
    (App.displayResults (mkModel "m" (Present []) (Present []) Absent Absent)
       (example_page "http://localhost" "q"))
  = [El "p" "" [Text "No revenue drivers available"]]
  /\ assumptionsContainer (run (Legacy.displayAssumptions Null) (example_page "" "q"))
     = [El "p" "" [Text "No assumptions available"]].
Proof.
  destruct C7_empty_lists_get_a_placeholder as (_ & _ & Hd & _ & _ & Ha).
  split; [apply Hd | apply Ha]; reflexivity.
Defined.

(** The renderers of script.js write nothing for an empty list: the
    container is left with no child. *)
Lemma C7_script_leaves_the_container_empty :
  Script.revenueDriversList
    (run (Script.displayRevenueDrivers (Present []))
         (example_form_page "http://localhost" (Script.mkForm "q" "" "" "" ""))) = []
  /\ Script.assumptionsList
       (run (Script.displayAssumptions (Present []))
            (example_form_page "http://localhost" (Script.mkForm "q" "" "" "" ""))) = [].
Proof. split; reflexivity. Qed.

(** ** A search that succeeds *)

Lemma active_after_switch (k : string) (l : list (string * bool)) :
  active (activate_first k (deactivate_all l)) = if has_key k l then [k] else [].
Proof.
  unfold active, has_key.
  assert (Hoff : forall l', List.filter snd (deactivate_all l') = []).
  { induction l' as [|[k' a] l' IH]; [reflexivity | exact IH]. }
  induction l as [|[k' a] l IH]; [reflexivity|].
  cbn [deactivate_all List.map activate_first existsb fst].
  destruct (String.eqb_spec k k') as [->|Hne].
  - cbn [List.filter snd List.map fst orb].
    fold (deactivate_all l). now rewrite Hoff.
  - cbn [List.filter snd orb]. exact IH.
Qed.

Lemma hideError_cleared (s : State) : error_cleared (App.hideError s).
Proof.
  unfold error_cleared, App.hideError.
  destruct (errorMessage s) as [e|] eqn:E; cbn; [reflexivity | now rewrite E].
Qed.

Lemma hideError_frame (s : State) :
  API_BASE (App.hideError s) = API_BASE s /\ requests (App.hideError s) = requests s
  /\ currentModel (App.hideError s) = currentModel s
  /\ queryInput (App.hideError s) = queryInput s
  /\ same_tabs s (App.hideError s) /\ same_charts s (App.hideError s).
Proof. unfold App.hideError. destruct (errorMessage s); repeat split. Qed.

(** A search with a query that is not blank: the reply is settled between
    showing and clearing the loading indicator. *)
Lemma App_generateModel_unfold (net : Network Model) (s : State) :
  trim (queryInput s) <> "" ->
  App.generateModel net s
  = (Ok tt, App.showLoading false (App_settle (search net (search_url s)) (App_requested s))).
Proof.
  intros Hq. apply String.eqb_neq in Hq.
  unfold App.generateModel, bind, gets. rewrite Hq.
  unfold try_finally, try_catch, bind, gets, exec, fetch_search, read_body, lift, throw, ret.
  cbn [fst snd].
  destruct (hideError_frame (App.showLoading true s)) as (Hb & Hr & _).
  rewrite Hb, Hr. cbn [API_BASE requests App.showLoading set_loadingIndicator_hidden].
  fold (search_url s). unfold App_requested.
  destruct (hideError_frame (App.showLoading true s)) as (_ & Hr' & _).
  destruct (search net (search_url s)) as [e|[data|e]|[err|e]]; cbn [App_settle App_detail];
    try reflexivity.
  destruct (get_detail err) as [d|e]; reflexivity.
Qed.

Lemma Legacy_generateModel_unfold (net : Network Model) (s : State) :
  trim (queryInput s) <> "" ->
  Legacy.generateModel net s
  = (Ok tt, Legacy.showLoading false
              (Legacy_settle (search net (search_url s)) (App_requested s))).
Proof.
  intros Hq. apply String.eqb_neq in Hq.
  unfold Legacy.generateModel, bind, gets. rewrite Hq.
  unfold try_finally, try_catch, bind, gets, exec, fetch_search, read_body, lift, throw, ret.
  cbn [fst snd].
  change Legacy.hideError with App.hideError. change Legacy.showLoading with App.showLoading.
  destruct (hideError_frame (App.showLoading true s)) as (Hb & Hr & _).
  rewrite Hb, Hr. cbn [API_BASE requests App.showLoading set_loadingIndicator_hidden].
  fold (search_url s). unfold App_requested.
  destruct (search net (search_url s)) as [e|[data|e]|[err|e]];
    cbn [Legacy_settle Legacy_error]; try reflexivity.
  - destruct (Legacy.displayResults data _) as [[[]|e] s']; reflexivity.
  - destruct (get_detail err) as [d|e]; reflexivity.
Qed.

Lemma App_requested_frame (s : State) :
  currentModel (App_requested s) = currentModel s
  /\ error_cleared (App_requested s)
  /\ same_tabs s (App_requested s) /\ same_charts s (App_requested s).
Proof.
  unfold App_requested.
  destruct (hideError_frame (App.showLoading true s)) as (_ & _ & Hm & _ & Ht & Hc).
  split; [exact Hm|]. split; [apply (hideError_cleared (App.showLoading true s))|].
  split; [exact Ht | exact Hc].
Qed.

(** In app.js the tab that was active does not stay active: from the table
    tab, a successful search ends on the charts tab. *)
Lemma C9_app_moves_to_the_charts_tab :
  active (tab_btns (example_page "http://localhost" "forecast")) = ["table"]
  /\ active (tab_btns (run (App.generateModel (always (Success (Ok example_model))))
                           (example_page "http://localhost" "forecast")))
     = ["charts"].
Proof. split; vm_compute; reflexivity. Qed.

(** ** A search that fails *)

Lemma shown_message_nonempty (e : JsError) : name e <> "" -> shown_message e <> "".
Proof.
  intros Hn. unfold shown_message, Error_toString.
  destruct (String.eqb_spec (message e) "") as [Hm|Hm]; [|exact Hm].
  destruct (String.eqb_spec (name e) "") as [Hn'|_]; [contradiction | exact Hn].
Qed.

Lemma shown_message_new_Error (v : JSValue) : shown_message (new_Error v) <> "".
Proof. apply shown_message_nonempty. discriminate. Qed.

(** In app.js a search that fails keeps the model that was held, shows an
    error message that is not empty, and leaves the loading indicator
    hidden. *)
Theorem App_failed_search_keeps_the_model (net : Network Model) (s : State) :
  trim (queryInput s) <> "" ->
  search_fails (search net (search_url s)) ->
  currentModel (run (App.generateModel net) s) = currentModel s
  /\ loadingIndicator_hidden (run (App.generateModel net) s) = true
  /\ exists msg, msg <> ""
                 /\ errorMessage (run (App.generateModel net) s)
                    = Some (mkErrorElement false msg).
Proof.
  intros Hq Hfail. unfold run. rewrite (App_generateModel_unfold net s Hq). cbn [snd].
  destruct (App_requested_frame s) as (Hm & _).
  destruct (search net (search_url s)) as [e|[data|e]|body]; cbn [search_fails] in Hfail;
    try contradiction; cbn [App_settle].
  - split; [exact Hm|]. split; [reflexivity|].
    exists (shown_message e). split; [now apply shown_message_nonempty | reflexivity].
  - split; [exact Hm|]. split; [reflexivity|].
    exists (shown_message e). split; [now apply shown_message_nonempty | reflexivity].
  - split; [exact Hm|]. split; [reflexivity|].
    exists (shown_message (new_Error (App_detail body))).
    split; [apply shown_message_new_Error | reflexivity].
Qed.

Lemma App_failed_search_witness :
  currentModel (run (App.generateModel (always (Failure (Ok (JObject [("detail", JArray [])])))))
                    (set_currentModel (Some example_model)
                       (example_page "http://localhost" "forecast")))
  = Some example_model.
Proof.
  assert (Hq : trim (queryInput (set_currentModel (Some example_model)
                                   (example_page "http://localhost" "forecast"))) <> "")
    by (vm_compute; discriminate).
  exact (proj1 (App_failed_search_keeps_the_model
                  (always (Failure (Ok (JObject [("detail", JArray [])]))))
                  (set_currentModel (Some example_model)
                     (example_page "http://localhost" "forecast")) Hq I)).
Defined.

(** In part_000 a search that fails keeps the model and hides the loading
    indicator too, and shows the message of the error it caught; for a
    payload whose detail is a string that is not empty, that string. *)
Theorem Legacy_failed_search_keeps_the_model (net : Network Model) (s : State) :
  trim (queryInput s) <> "" ->
  search_fails (search net (search_url s)) ->
  currentModel (run (Legacy.generateModel net) s) = currentModel s
  /\ loadingIndicator_hidden (run (Legacy.generateModel net) s) = true
  /\ (exists msg, errorMessage (run (Legacy.generateModel net) s)
                  = Some (mkErrorElement false msg))
  /\ (forall props d,
         search net (search_url s) = Failure (Ok (JObject props)) ->
         lookup_prop "detail" props = JString d -> d <> "" ->
         errorMessage (run (Legacy.generateModel net) s) = Some (mkErrorElement false d)).
Proof.
  intros Hq Hfail. unfold run. rewrite (Legacy_generateModel_unfold net s Hq). cbn [snd].
  destruct (App_requested_frame s) as (Hm & _).
  destruct (search net (search_url s)) as [e|[data|e]|body]; cbn [search_fails] in Hfail;
    try contradiction; cbn [Legacy_settle].
  - split; [exact Hm|]. split; [reflexivity|]. split; [now eexists|]. discriminate.
  - split; [exact Hm|]. split; [reflexivity|]. split; [now eexists|]. discriminate.
  - split; [exact Hm|]. split; [reflexivity|]. split; [now eexists|].
    intros props d Hb Hd Hne. injection Hb as ->.
    cbn [Legacy_error get_detail]. rewrite Hd. cbn [ToBoolean].
    apply String.eqb_neq in Hne. rewrite Hne. reflexivity.
Qed.

Lemma Legacy_failed_search_witness :
  errorMessage (run (Legacy.generateModel
                       (always (Failure (Ok (JObject [("detail", JString "No such scenario")])))))
                    (example_page "http://localhost" "forecast"))
  = Some (mkErrorElement false "No such scenario").
Proof.
  assert (Hq : trim (queryInput (example_page "http://localhost" "forecast")) <> "")
    by (vm_compute; discriminate).
  assert (Hne : "No such scenario" <> "") by discriminate.
  exact (proj2 (proj2 (proj2 (Legacy_failed_search_keeps_the_model
                  (always (Failure (Ok (JObject [("detail", JString "No such scenario")]))))
                  (example_page "http://localhost" "forecast") Hq I)))
               [("detail", JString "No such scenario")] "No such scenario"
               eq_refl eq_refl Hne).
Defined.

(** Outside the interface of the endpoint part_000 can show an error
    without a text: for a status that is not [ok] with the body
    [{"detail": []}] the detail is truthy, so the fallback text is not used,
    and its string conversion is the empty string.  On the same reply app.js
    falls back on [String(error)]. *)
Lemma part_000_shows_no_text_outside_the_interface :
  ToBoolean (JArray []) = true
  /\ message (new_Error (JArray [])) = ""
  /\ errorMessage
       (run (Legacy.generateModel (always (Failure (Ok (JObject [("detail", JArray [])])))))
            (example_page "http://localhost" "forecast"))
     = Some (mkErrorElement false "")
  /\ errorMessage
       (run (App.generateModel (always (Failure (Ok (JObject [("detail", JArray [])])))))
            (example_page "http://localhost" "forecast"))
     = Some (mkErrorElement false "Error").
Proof.
  assert (Hq : trim (queryInput (example_page "http://localhost" "forecast")) <> "")
    by (vm_compute; discriminate).
  split; [reflexivity|]. split; [reflexivity|]. unfold run.
  rewrite (Legacy_generateModel_unfold _ _ Hq), (App_generateModel_unfold _ _ Hq).
  split; reflexivity.
Qed.

(** C1.  In both class variants, a search with a query that is not blank
    and a reply, within the interface of the endpoint, that delivers no
    model (the call throws; the response is not [ok] and carries
    [{detail: string}], or a body that cannot be parsed) keeps the model that
    was held, shows the error element with a text that is not empty, and
    leaves the loading indicator hidden.  The text is the detail when it is
    not empty, the fallback of the variant when it is, and the message of
    the error when one was thrown (in app.js the error as a string when it
    has no message). *)
Theorem C1_failed_search_keeps_the_model (net : Network Model) (s : State) :
  trim (queryInput s) <> "" ->
  failure_in_interface (search net (search_url s)) ->
  (currentModel (run (App.generateModel net) s) = currentModel s
   /\ loadingIndicator_hidden (run (App.generateModel net) s) = true
   /\ exists msg, msg <> ""
                  /\ errorMessage (run (App.generateModel net) s)
                     = Some (mkErrorElement false msg))
  /\ (currentModel (run (Legacy.generateModel net) s) = currentModel s
      /\ loadingIndicator_hidden (run (Legacy.generateModel net) s) = true
      /\ exists msg, msg <> ""
                     /\ errorMessage (run (Legacy.generateModel net) s)
                        = Some (mkErrorElement false msg))
  /\ (forall props d,
         search net (search_url s) = Failure (Ok (JObject props)) ->
         lookup_prop "detail" props = JString d ->
         let shown := if String.eqb d "" then "Failed to generate model. Please try again."
                      else d in
         errorMessage (run (App.generateModel net) s) = Some (mkErrorElement false shown)
         /\ errorMessage (run (Legacy.generateModel net) s)
            = Some (mkErrorElement false shown))
  /\ (forall e,
         search net (search_url s) = NetworkError e ->
         errorMessage (run (App.generateModel net) s)
         = Some (mkErrorElement false (shown_message e))
         /\ errorMessage (run (Legacy.generateModel net) s)
            = Some (mkErrorElement false (message e))).
Proof.
  intros Hq Hfail. unfold run.
  rewrite (App_generateModel_unfold net s Hq), (Legacy_generateModel_unfold net s Hq).
  cbn [snd].
  assert (Hthrown : forall e,
             search net (search_url s) = NetworkError e ->
             errorMessage (App.showLoading false
                             (App_settle (search net (search_url s)) (App_requested s)))
             = Some (mkErrorElement false (shown_message e))
             /\ errorMessage (Legacy.showLoading false
                                (Legacy_settle (search net (search_url s)) (App_requested s)))
                = Some (mkErrorElement false (message e)))
    by (intros e He; rewrite He; split; reflexivity).
  refine ((fun H => conj (proj1 H) (conj (proj1 (proj2 H)) (conj (proj2 (proj2 H)) Hthrown)))
            _).
  clear Hthrown.
  destruct (App_requested_frame s) as (Hm & _).
  assert (Hdetail : forall props d,
             lookup_prop "detail" props = JString d ->
             let shown := if String.eqb d "" then "Failed to generate model. Please try again."
                          else d in
             shown <> ""
             /\ shown_message (new_Error (App_detail (Ok (JObject props)))) = shown
             /\ message (Legacy_error (Ok (JObject props))) = shown).
  { intros props d Hd. cbv zeta.
    cbn [App_detail Legacy_error get_detail]. rewrite Hd. cbn [ToBoolean].
    destruct (String.eqb_spec d "") as [->|Hne]; cbn [negb].
    - split; [discriminate|]. split; reflexivity.
    - split; [exact Hne|]. split; [|reflexivity].
      unfold shown_message. cbn [new_Error message ToString].
      apply String.eqb_neq in Hne. now rewrite Hne. }
  destruct (search net (search_url s)) as [e|[data|e]|[body|e]];
    cbn [failure_in_interface] in Hfail; try contradiction;
    cbn [App_settle Legacy_settle].
  - destruct Hfail as [Hn Hmsg].
    split; [|split; [|discriminate]].
    + split; [exact Hm|]. split; [reflexivity|].
      exists (shown_message e). split; [now apply shown_message_nonempty | reflexivity].
    + split; [exact Hm|]. split; [reflexivity|].
      exists (message e). split; [exact Hmsg | reflexivity].
  - destruct Hfail as [Hn Hmsg].
    split; [|split; [|discriminate]].
    + split; [exact Hm|]. split; [reflexivity|].
      exists (shown_message e). split; [now apply shown_message_nonempty | reflexivity].
    + split; [exact Hm|]. split; [reflexivity|].
      exists (message e). split; [exact Hmsg | reflexivity].
  - destruct Hfail as (props & d & -> & Hd).
    destruct (Hdetail props d Hd) as (Hne & Ha & Hl).
    split; [|split].
    + split; [exact Hm|]. split; [reflexivity|]. eexists. split; [|reflexivity].
      rewrite Ha. exact Hne.
    + split; [exact Hm|]. split; [reflexivity|]. eexists. split; [|reflexivity].
      rewrite Hl. exact Hne.
    + intros props' d' Heq Hd'. cbv zeta. injection Heq as <-.
      destruct (Hdetail props d' Hd') as (_ & Ha' & Hl').
      split; [rewrite <- Ha' | rewrite <- Hl']; reflexivity.
  - destruct Hfail as [Hn Hmsg].
    split; [|split; [|discriminate]].
    + split; [exact Hm|]. split; [reflexivity|].
      exists (shown_message (new_Error (App_detail (Throw e)))).
      split; [apply shown_message_new_Error | reflexivity].
    + split; [exact Hm|]. split; [reflexivity|].
      exists (message e). split; [exact Hmsg | reflexivity].
Qed.

Lemma C1_failed_search_witness :
  let net := always (Failure (Ok (JObject [("detail", JString "No such scenario")]))) in
  let s := set_currentModel (Some example_model) (example_page "http://localhost" "forecast") in
  trim (queryInput s) <> ""
  /\ failure_in_interface (search net (search_url s))
  /\ currentModel (run (Legacy.generateModel net) s) = Some example_model
  /\ errorMessage (run (Legacy.generateModel net) s)
     = Some (mkErrorElement false "No such scenario")
  /\ errorMessage (run (App.generateModel net) s)
     = Some (mkErrorElement false "No such scenario").
Proof.
  cbv zeta.
  assert (Hq : trim (queryInput (set_currentModel (Some example_model)
                                   (example_page "http://localhost" "forecast"))) <> "")
    by (vm_compute; discriminate).
  assert (Hin : failure_in_interface
                  (search (always (Failure (Ok (JObject [("detail",
                                                          JString "No such scenario")]))))
                     (search_url (set_currentModel (Some example_model)
                                    (example_page "http://localhost" "forecast")))))
    by (exists [("detail", JString "No such scenario")], "No such scenario"; split; reflexivity).
  split; [exact Hq|]. split; [exact Hin|].
  destruct (C1_failed_search_keeps_the_model _ _ Hq Hin) as (_ & (Hm & _) & Hshown & _).
  split; [exact Hm|].
  destruct (Hshown [("detail", JString "No such scenario")] "No such scenario"
              eq_refl eq_refl) as [Ha Hl].
  split; [exact Hl | exact Ha].
Defined.

(** In script.js a search that fails keeps the model id, hides the loading
    section and raises an alert, whose text starts with ["Error: "]. *)
Theorem Script_failed_search_keeps_the_model_id
    (net : Network Script.Model) (s : Script.State) :
  match search net (Script.API_BASE s +:+ "/api/v1/search?"
                      +:+ Script.search_params (Script.form s)) with
  | Success (Ok _) => False
  | _ => True
  end ->
  Script.currentModelId (run (Script.handleQuerySubmit net) s) = Script.currentModelId s
  /\ Script.loadingSection_shown (run (Script.handleQuerySubmit net) s) = false
  /\ exists msg, Script.alerts (run (Script.handleQuerySubmit net) s)
                 = Script.alerts s ++ ["Error: " +:+ msg].
Proof.
  intros Hfail.
  unfold run, Script.handleQuerySubmit, bind, gets, exec, try_catch, Script.fetch_search,
    lift, throw.
  cbn [fst snd Script.API_BASE Script.showLoading Script.set_resultsSection_shown
       Script.set_loadingSection_shown].
  destruct (search net _) as [e|[data|e]|[err|e]]; try contradiction; cbn [fst snd].
  - repeat split. now exists (message e).
  - repeat split. now exists (message e).
  - destruct (get_detail err) as [d|e]; cbn [fst snd];
      repeat split; now eexists.
  - repeat split. now exists (message e).
Qed.

Lemma Script_failed_search_witness :
  Script.currentModelId
    (run (Script.handleQuerySubmit offline)
         (example_form_page "http://localhost" (Script.mkForm "q" "" "" "" ""))) = None
  /\ exists msg,
       Script.alerts
         (run (Script.handleQuerySubmit offline)
              (example_form_page "http://localhost" (Script.mkForm "q" "" "" "" "")))
       = ["Error: " +:+ msg].
Proof.
  destruct (Script_failed_search_keeps_the_model_id offline
              (example_form_page "http://localhost" (Script.mkForm "q" "" "" "" "")) I)
    as (Hid & _ & msg & Hmsg).
  split; [exact Hid | exists msg; exact Hmsg].
Defined.

(** ** Charts *)

Lemma Slot_eqb_spec (a b : Slot) : reflect (a = b) (Slot_eqb a b).
Proof. destruct a, b; constructor; congruence. Qed.

Lemma handle_set_handle (slot slot' : Slot) (h : option nat) (s : State) :
  App.handle slot' (App.set_handle slot h s)
  = if Slot_eqb slot' slot then h else App.handle slot' s.
Proof. destruct slot, slot'; reflexivity. Qed.

Lemma instances_set_handle (slot : Slot) (h : option nat) (s : State) :
  instances (App.set_handle slot h s) = instances s.
Proof. destruct slot; reflexivity. Qed.

Lemma env_set_handle (slot : Slot) (h : option nat) (s : State) :
  canvases (App.set_handle slot h s) = canvases s
  /\ window_Chart (App.set_handle slot h s) = window_Chart s.
Proof. destruct slot; split; reflexivity. Qed.

(** When the live elements of a list all sit at one index, there is at
    most one of them. *)
Lemma filter_at_most_one {A} (p : A -> bool) (l : list A) :
  (forall i j a b, l !! i = Some a -> l !! j = Some b ->
                   p a = true -> p b = true -> i = j) ->
  length (List.filter p l) <= 1.
Proof.
  induction l as [|x l IH]; intros H; cbn [List.filter]; [cbn; lia|].
  destruct (p x) eqn:Hx.
  - assert (Hnone : List.filter p l = []).
    { clear IH. induction l as [|y l IHl]; [reflexivity|].
      cbn [List.filter]. destruct (p y) eqn:Hy.
      - specialize (H 0 1 x y eq_refl eq_refl Hx Hy). discriminate H.
      - apply IHl. intros i j a b Hi Hj Ha Hb.
        destruct i as [|i], j as [|j]; try reflexivity.
        + specialize (H 0 (S (S j)) a b Hi Hj Ha Hb). discriminate H.
        + specialize (H (S (S i)) 0 a b Hi Hj Ha Hb). discriminate H.
        + specialize (H (S (S i)) (S (S j)) a b Hi Hj Ha Hb). now injection H as ->. }
    rewrite Hnone. cbn. lia.
  - apply IH. intros i j a b Hi Hj Ha Hb.
    specialize (H (S i) (S j) a b Hi Hj Ha Hb). now injection H.
Qed.

Lemma is_live_on_true (slot : Slot) (c : Chart) :
  is_live_on slot c = true <-> canvas c = slot /\ destroyed c = false.
Proof.
  unfold is_live_on. rewrite andb_true_iff, negb_true_iff.
  destruct (Slot_eqb_spec (canvas c) slot); intuition congruence.
Qed.

Lemma owned_at_most_one (s : State) :
  charts_owned s -> forall slot, length (live_on slot s) <= 1.
Proof.
  intros Hown slot. unfold live_on. apply (filter_at_most_one (is_live_on slot)).
  intros i j a b Hi Hj Ha Hb.
  apply is_live_on_true in Ha as [Hca Hda], Hb as [Hcb Hdb].
  pose proof (Hown i a Hi Hda) as H1. pose proof (Hown j b Hj Hdb) as H2.
  rewrite Hca in H1. rewrite Hcb in H2. congruence.
Qed.

(** The first step of [draw]: the chart the slot holds is destroyed. *)
Lemma destroy_held_frees_the_slot (slot : Slot) (s : State) :
  charts_owned s ->
  let s1 := match App.handle slot s with
            | Some i => App.destroy i s
            | None => s
            end in
  charts_owned s1 /\ slot_free slot s1 /\ App.handle slot s1 = App.handle slot s
  /\ canvases s1 = canvases s /\ window_Chart s1 = window_Chart s.
Proof.
  intros Hown. destruct (App.handle slot s) as [h|] eqn:Hh; cbv zeta.
  - assert (Hlook : forall i c, instances (App.destroy h s) !! i = Some c ->
                                destroyed c = false ->
                                i <> h /\ instances s !! i = Some c).
    { intros i c Hi Hd. unfold App.destroy in Hi. cbn [instances set_instances] in Hi.
      destruct (decide (h = i)) as [->|Hne].
      - rewrite list_lookup_alter_eq in Hi.
        destruct (instances s !! i) as [c0|]; cbn in Hi; [|discriminate Hi].
        injection Hi as <-. discriminate Hd.
      - rewrite list_lookup_alter_ne in Hi by exact Hne. split; [congruence | exact Hi]. }
    assert (Hhandle : forall sl, App.handle sl (App.destroy h s) = App.handle sl s)
      by (intros sl; destruct sl; reflexivity).
    split; [|split; [|split; [rewrite Hhandle; exact Hh | split; reflexivity]]].
    + intros i c Hi Hd. rewrite Hhandle.
      destruct (Hlook i c Hi Hd) as [_ Hi']. now apply Hown.
    + intros i c Hi Hd Hc. destruct (Hlook i c Hi Hd) as [Hne Hi'].
      pose proof (Hown i c Hi' Hd) as Ho. rewrite Hc, Hh in Ho. congruence.
  - split; [exact Hown|]. split; [|split; [exact Hh | split; reflexivity]].
    intros i c Hi Hd Hc. pose proof (Hown i c Hi Hd) as Ho. rewrite Hc, Hh in Ho.
    discriminate Ho.
Qed.

Lemma slot_free_live_on (slot : Slot) (s : State) :
  slot_free slot s -> live_on slot s = [].
Proof.
  intros Hfree. unfold live_on.
  assert (H : forall l, (forall i c, l !! i = Some c -> is_live_on slot c = false) ->
                        List.filter (is_live_on slot) l = []).
  { induction l as [|x l IH]; intros Hl; [reflexivity|].
    cbn [List.filter]. rewrite (Hl 0 x eq_refl). apply IH.
    intros i c Hi. apply (Hl (S i) c Hi). }
  apply H. intros i c Hi.
  destruct (is_live_on slot c) eqn:E; [|reflexivity].
  apply is_live_on_true in E as [Hc Hd]. now destruct (Hfree i c Hi Hd).
Qed.

(** One block of [renderCharts]: at each point it goes through no canvas
    has two live charts, and the charts are owned again at its end. *)
Lemma draw_keeps_one_chart_per_slot (slot : Slot) (config : Chart) (s : State) :
  charts_owned s -> canvas config = slot -> destroyed config = false ->
  Forall (fun st => forall sl, length (live_on sl st) <= 1) (draw_points slot config s)
  /\ charts_owned (App.draw slot config s)
  /\ canvases (App.draw slot config s) = canvases s
  /\ window_Chart (App.draw slot config s) = window_Chart s.
Proof.
  intros Hown Hcanvas Hlive. unfold draw_points, App.draw.
  destruct (existsb (Slot_eqb slot) (canvases s) && window_Chart s);
    [|split; [constructor | split; [exact Hown | split; reflexivity]]].
  destruct (destroy_held_frees_the_slot slot s Hown) as (Hown1 & Hfree & _ & Hcv & Hwc).
  set (s1 := match App.handle slot s with
             | Some i => App.destroy i s
             | None => s
             end) in *.
  unfold App.new_Chart. cbn [fst snd].
  set (s2 := set_instances (instances s1 ++ [config]) s1).
  assert (Hlive2 : forall sl, length (live_on sl s2) <= 1).
  { intros sl. unfold live_on, s2. cbn [instances set_instances].
    rewrite List.filter_app, length_app. fold (live_on sl s1). cbn [List.filter].
    destruct (is_live_on sl config) eqn:E.
    - apply is_live_on_true in E as [Heq _].
      assert (Hsl : sl = slot) by congruence.
      rewrite Hsl, (slot_free_live_on slot s1 Hfree). cbn. lia.
    - cbn [length]. pose proof (owned_at_most_one s1 Hown1 sl). lia. }
  assert (Hown3 : charts_owned (App.set_handle slot (Some (length (instances s1))) s2)).
  { intros i c Hi Hd. rewrite instances_set_handle in Hi.
    unfold s2 in Hi. cbn [instances set_instances] in Hi.
    rewrite handle_set_handle.
    destruct (lookup_app_Some (instances s1) [config] i c) as [Hcases _].
    destruct (Hcases Hi) as [Hi1|[Hlen Hi2]].
    - pose proof (Hfree i c Hi1 Hd) as Hne.
      destruct (Slot_eqb_spec (canvas c) slot) as [Heq|_]; [contradiction|].
      replace (App.handle (canvas c) s2) with (App.handle (canvas c) s1)
        by (destruct (canvas c); reflexivity).
      now apply Hown1.
    - destruct (i - length (instances s1)) as [|k] eqn:Hk; [|discriminate Hi2].
      cbn in Hi2. injection Hi2 as <-. rewrite Hcanvas.
      destruct (Slot_eqb_spec slot slot) as [_|Hne]; [|contradiction].
      f_equal. lia. }
  split; [|split; [exact Hown3 | split]].
  - apply List.Forall_cons; [now apply owned_at_most_one|].
    apply List.Forall_cons; [exact Hlive2|].
    apply List.Forall_cons; [|apply List.Forall_nil].
    intros sl. unfold live_on. rewrite instances_set_handle. apply Hlive2.
  - destruct (env_set_handle slot (Some (length (instances s1))) s2) as [-> _]. exact Hcv.
  - destruct (env_set_handle slot (Some (length (instances s1))) s2) as [_ ->]. exact Hwc.
Qed.

(** The points of a block end in the state the block returns. *)
Lemma draw_points_end (slot : Slot) (config : Chart) (s : State) :
  List.last (draw_points slot config s) s = App.draw slot config s.
Proof.
  unfold draw_points, App.draw.
  destruct (existsb (Slot_eqb slot) (canvases s) && window_Chart s); reflexivity.
Qed.

Lemma renderCharts_keeps_one_chart_per_slot (ps : list Projection) (s : State) :
  charts_owned s ->
  Forall (fun st => forall sl, length (live_on sl st) <= 1) (renderCharts_points ps s)
  /\ charts_owned (App.renderCharts ps s).
Proof.
  intros Hown. unfold renderCharts_points, App.renderCharts.
  destruct (Nat.eqb (length ps) 0); [split; [constructor | exact Hown]|].
  cbv zeta.
  match goal with
  | |- context [App.draw RevenueLine ?c1 s] =>
      destruct (draw_keeps_one_chart_per_slot RevenueLine c1 s Hown eq_refl eq_refl)
        as (H1 & Hown1 & _);
      set (s1 := App.draw RevenueLine c1 s) in *
  end.
  match goal with
  | |- context [App.draw RevenueBreakdown ?c2 s1] =>
      destruct (draw_keeps_one_chart_per_slot RevenueBreakdown c2 s1 Hown1 eq_refl eq_refl)
        as (H2 & Hown2 & _);
      set (s2 := App.draw RevenueBreakdown c2 s1) in *
  end.
  match goal with
  | |- context [App.draw RevenueMillion ?c3 s2] =>
      destruct (draw_keeps_one_chart_per_slot RevenueMillion c3 s2 Hown2 eq_refl eq_refl)
        as (H3 & Hown3 & _)
  end.
  split; [|exact Hown3].
  apply Forall_app. split; [exact H1|]. apply Forall_app. split; [exact H2 | exact H3].
Qed.

(** C3.  Start from a state in which every live chart is the one its slot
    holds (as when the application is constructed), and call [renderCharts]
    any number of times, with any data: in every state on the way, between
    the calls and inside them, each of the three canvases has at most one
    live chart. *)
Theorem C3_at_most_one_live_chart_per_slot (calls : list (list Projection)) (s : State) :
  charts_owned s ->
  Forall (fun st => forall slot, length (live_on slot st) <= 1) (s :: render_trace calls s).
Proof.
  intros Hown. constructor; [now apply owned_at_most_one|].
  revert s Hown. induction calls as [|ps calls IH]; intros s Hown; cbn [render_trace].
  - apply List.Forall_nil.
  - destruct (renderCharts_keeps_one_chart_per_slot ps s Hown) as [Hpts Hown'].
    apply Forall_app. split; [exact Hpts|].
    constructor; [now apply owned_at_most_one | now apply IH].
Qed.

Lemma example_page_owned (origin query : string) : charts_owned (example_page origin query).
Proof. intros i c Hi. cbn in Hi. now rewrite lookup_nil in Hi. Qed.

Lemma C3_two_renders_witness :
  charts_owned (example_page "http://localhost" "q")
  /\ Forall (fun st => forall slot, length (live_on slot st) <= 1)
       (example_page "http://localhost" "q"
          :: render_trace [[example_projection 12345678%float];
                           [example_projection 1%float; example_projection 2%float]]
               (example_page "http://localhost" "q")).
Proof.
  split; [apply example_page_owned|].
  apply (C3_at_most_one_live_chart_per_slot
           [[example_projection 12345678%float];
            [example_projection 1%float; example_projection 2%float]]
           (example_page "http://localhost" "q")).
  apply example_page_owned.
Defined.

Lemma last_default_irrelevant {A} (l : list A) (y d d' : A) :
  List.last (y :: l) d = List.last (y :: l) d'.
Proof.
  revert y. induction l as [|x l IH]; intros y; [reflexivity|].
  change (List.last (x :: l) d = List.last (x :: l) d'). apply IH.
Qed.

Lemma last_cons_default {A} (l : list A) (x d : A) :
  List.last (x :: l) d = List.last l x.
Proof. destruct l as [|y l]; [reflexivity | apply (last_default_irrelevant l y d x)]. Qed.

Lemma last_app_default {A} (l1 l2 : list A) (d : A) :
  List.last (l1 ++ l2) d = List.last l2 (List.last l1 d).
Proof.
  revert d. induction l1 as [|x l1 IH]; intros d; [reflexivity|].
  change ((x :: l1) ++ l2) with (x :: (l1 ++ l2)).
  now rewrite !last_cons_default, IH.
Qed.

(** The states listed for [renderCharts] end in the state it returns. *)
Lemma renderCharts_points_end (ps : list Projection) (s : State) :
  List.last (renderCharts_points ps s) s = App.renderCharts ps s.
Proof.
  unfold renderCharts_points, App.renderCharts.
  destruct (Nat.eqb (length ps) 0); [reflexivity|]. cbv zeta.
  now rewrite !last_app_default, !draw_points_end.
Qed.

(** Before [draw] makes a chart for a slot, the slot has no live chart. *)
Lemma draw_destroys_before_it_creates (slot : Slot) (config : Chart) (s : State) :
  charts_owned s ->
  match draw_points slot config s with
  | before :: _ => live_on slot before = []
  | [] => App.draw slot config s = s
  end.
Proof.
  intros Hown. unfold draw_points, App.draw.
  destruct (existsb (Slot_eqb slot) (canvases s) && window_Chart s); [|reflexivity].
  destruct (destroy_held_frees_the_slot slot s Hown) as (_ & Hfree & _).
  now apply slot_free_live_on.
Qed.

Lemma draw_env (slot : Slot) (config : Chart) (s : State) :
  canvases (App.draw slot config s) = canvases s
  /\ window_Chart (App.draw slot config s) = window_Chart s.
Proof.
  unfold App.draw, App.new_Chart.
  destruct (existsb _ _ && _); [|split; reflexivity].
  cbn [fst snd].
  match goal with
  | |- context [App.set_handle slot ?h ?st] =>
      destruct (env_set_handle slot h st) as [-> ->]
  end.
  destruct (App.handle slot s); split; reflexivity.
Qed.

Lemma draw_creates (slot : Slot) (config : Chart) (s : State) :
  existsb (Slot_eqb slot) (canvases s) = true -> window_Chart s = true ->
  exists i, App.handle slot (App.draw slot config s) = Some i
            /\ instances (App.draw slot config s) !! i = Some config.
Proof.
  intros Hc Hw. unfold App.draw. rewrite Hc, Hw. cbn [andb].
  set (s1 := match App.handle slot s with
             | Some i => App.destroy i s
             | None => s
             end).
  unfold App.new_Chart. exists (length (instances s1)).
  rewrite handle_set_handle, instances_set_handle.
  destruct (Slot_eqb_spec slot slot) as [_|Hne]; [|contradiction].
  split; [reflexivity|]. cbn [instances set_instances].
  rewrite lookup_app_r by lia. now rewrite Nat.sub_diag.
Qed.

Lemma Math_round_nearest (x : float) (sg : bool) (m : positive) (e : Z) :
  Prim2SF x = S754_finite sg m e ->
  if (0 <=? e)%Z then Math_round x = x
  else exists n : Z,
      (inject_Z n - (1 # 2) <= inject_Z (if sg then Zneg m else Zpos m) * pow_Q 2 e)%Q
      /\ (inject_Z (if sg then Zneg m else Zpos m) * pow_Q 2 e < inject_Z n + (1 # 2))%Q
      /\ Math_round x = (if (n =? 0)%Z && sg then PrimFloat.opp PrimFloat.zero
                         else float_of_Z n).
Proof.
  intros H. unfold Math_round. rewrite H.
  destruct (0 <=? e)%Z eqn:He; [reflexivity|].
  apply Z.leb_gt in He.
  set (num := if sg then Z.neg m else Z.pos m).
  set (d := (2 ^ (- e))%Z).
  assert (Hd : (0 < d)%Z) by (apply Z.pow_pos_nonneg; lia).
  exists ((2 * num + d) / (2 * d))%Z.
  assert (Hpow : pow_Q 2 e = Qmake 1 (Z.to_pos d)).
  { unfold pow_Q. destruct (0 <=? e)%Z eqn:E; [apply Z.leb_le in E; lia | reflexivity]. }
  rewrite Hpow.
  pose proof (Z.mul_div_le (2 * num + d) (2 * d) ltac:(lia)) as Hlo.
  pose proof (Z.mul_succ_div_gt (2 * num + d) (2 * d) ltac:(lia)) as Hhi.
  set (r := ((2 * num + d) / (2 * d))%Z) in *.
  split; [|split].
  - unfold Qle, Qminus, Qplus, Qopp, Qmult, inject_Z. cbn [Qnum Qden].
    rewrite ?Pos2Z.inj_mul, ?Z2Pos.id by lia. nia.
  - unfold Qlt, Qminus, Qplus, Qopp, Qmult, inject_Z. cbn [Qnum Qden].
    rewrite ?Pos2Z.inj_mul, ?Z2Pos.id by lia. nia.
  - destruct sg; reflexivity.
Qed.

(** C4.  The chart that [renderCharts] stores in the revenueMillion slot
    has one dataset, and its value for the projection at position [j] is
    [Math.round(v / 1_000_000 * 100) / 100] for [v] the total revenue of
    that projection (0 when it is missing), in the arithmetic of doubles.
    The rounding is to the nearest integer, a tie to the larger one: for a
    double [x] with a fraction part, [Math.round(x)] is the integer [n]
    with [n - 1/2 <= x < n + 1/2] ([-0] when [n] is 0 and [x] is negative);
    an integer, a zero, an infinity and NaN are left as they are.  So total
    revenues of 12,345,678, 5,000, 15,000, 25,000, 4,999, 1,005,000,
    1,015,000, -5,000, -15,000 and 0 and a missing one are plotted as 12.35,
    0.01, 0.02, 0.03, 0, 1, 1.01, -0, -0.01, 0 and 0 ([1005000 / 1000000 * 100]
    is the double 100.49999999999999). *)
Theorem C4_millions_series :
  (forall (ps : list Projection) (s : State) (j : nat) (p : Projection),
      existsb (Slot_eqb RevenueMillion) (canvases s) = true ->
      window_Chart s = true ->
      ps !! j = Some p ->
      exists (i : nat) (c : Chart) (data : list float),
        revenueMillion (App.renderCharts ps s) = Some i
        /\ instances (App.renderCharts ps s) !! i = Some c
        /\ datasets c = [("Total Revenues ($ Mn per month)", data)]
        /\ data !! j
           = Some (Math_round ((or_zero (total_revenue p) / 1000000) * 100) / 100)%float)
  /\ (forall (x : float) (sg : bool) (m : positive) (e : Z),
         Prim2SF x = S754_finite sg m e ->
         if (0 <=? e)%Z then Math_round x = x
         else exists n : Z,
             (inject_Z n - (1 # 2) <= inject_Z (if sg then Zneg m else Zpos m) * pow_Q 2 e)%Q
             /\ (inject_Z (if sg then Zneg m else Zpos m) * pow_Q 2 e < inject_Z n + (1 # 2))%Q
             /\ Math_round x = (if (n =? 0)%Z && sg then PrimFloat.opp PrimFloat.zero
                                else float_of_Z n))
  /\ (forall x : float,
         match Prim2SF x with
         | S754_finite _ _ _ => True
         | _ => Math_round x = x
         end)
  /\ List.map Math_round
       [0.5; 1.5; 2.5; -0.5; -1.5; -2.5; 1234.5678; 1234.4999; 0.49999999999999994;
        100.49999999999999; 3; 0; -0.2]%float
     = [1; 2; 3; -0; -1; -2; 1235; 1234; 0; 100; 3; 0; -0]%float
  /\ (let revenues := [Present 12345678; Present 5000; Present 15000; Present 25000;
                       Present 4999; Present 1005000; Present 1015000; Present (-5000);
                       Present (-15000); Present 0; Absent]%float in
      let ps := List.map (fun r => mkProjection (Present 1%float) Absent Absent Absent
                                     Absent Absent r) revenues in
      let s := App.renderCharts ps (example_page "http://localhost" "") in
      revenueMillion s = Some 2
      /\ datasets <$> instances s !! 2
         = Some [("Total Revenues ($ Mn per month)",
                  [12.35; 0.01; 0.02; 0.03; 0; 1; 1.01; -0; -0.01; 0; 0]%float)]).
Proof.
  split; [|split; [|split; [|split]]].
  - intros ps s j p Hc Hw Hj. unfold App.renderCharts.
    destruct ps as [|p0 ps']; [now rewrite lookup_nil in Hj|].
    cbn [length Nat.eqb]. cbv zeta.
    set (ps := p0 :: ps') in *.
    match goal with
    | |- context [App.draw RevenueMillion ?c3 (App.draw RevenueBreakdown ?c2 (App.draw RevenueLine ?c1 s))] =>
        set (s1 := App.draw RevenueLine c1 s);
        set (s2 := App.draw RevenueBreakdown c2 s1);
        set (config := c3)
    end.
    assert (Henv : canvases s2 = canvases s /\ window_Chart s2 = window_Chart s).
    { unfold s2. destruct (draw_env RevenueBreakdown
                             (mkChart RevenueBreakdown "bar"
                                (List.map (fun p => "M" +:+ show_number (month p)) ps)
                                [("Large Customers ($/month)",
                                  List.map (fun p => or_zero (large_customer_revenue p)) ps);
                                 ("Small/Medium Customers ($/month)",
                                  List.map (fun p => or_zero (small_customer_revenue p)) ps)]
                                false) s1) as [-> ->].
      apply draw_env. }
    destruct Henv as [Hc2 Hw2].
    destruct (draw_creates RevenueMillion config s2) as (i & Hi & Hinst);
      [now rewrite Hc2 | now rewrite Hw2 |].
    exists i, config.
    eexists. split; [exact Hi|]. split; [exact Hinst|]. split; [reflexivity|].
    rewrite !list_lookup_fmap, Hj. reflexivity.
  - exact Math_round_nearest.
  - intros x. unfold Math_round. now destruct (Prim2SF x).
  - vm_compute. reflexivity.
  - cbv zeta. split; vm_compute; reflexivity.
Qed.

Lemma C4_millions_series_witness :
  exists (i : nat) (c : Chart) (data : list float),
    revenueMillion (App.renderCharts [example_projection 12345678%float]
                      (example_page "http://localhost" "q")) = Some i
    /\ instances (App.renderCharts [example_projection 12345678%float]
                    (example_page "http://localhost" "q")) !! i = Some c
    /\ datasets c = [("Total Revenues ($ Mn per month)", data)]
    /\ data !! 0 = Some 12.35%float.
Proof.
  destruct (proj1 C4_millions_series [example_projection 12345678%float]
              (example_page "http://localhost" "q") 0 (example_projection 12345678%float)
              eq_refl eq_refl eq_refl) as (i & c & data & Hi & Hc & Hd & H12).
  exists i, c, data. split; [exact Hi|]. split; [exact Hc|]. split; [exact Hd|].
  rewrite H12. vm_compute. reflexivity.
Defined.

(** The transform works on doubles: where the quotient is not exact, the
    value need not be the decimal rounding of the exact one. *)
Lemma millions_of_1005000 :
  (Math_round ((1005000 / 1000000) * 100) / 100 = 1)%float.
Proof. reflexivity. Qed.

(** ** The charts under every event *)

Lemma charts_owned_same_charts (s s' : State) :
  same_charts s s' -> charts_owned s -> charts_owned s'.
Proof.
  intros (Hi & Hl & Hb & Hm & _) Hown i c Hlook Hd. rewrite Hi in Hlook.
  pose proof (Hown i c Hlook Hd) as H. destruct (canvas c); cbn [App.handle] in *; congruence.
Qed.

Lemma App_switchTab_owned (tabName : string) (s : State) :
  charts_owned s -> charts_owned (App.switchTab tabName s).
Proof.
  intros Hown. unfold App.switchTab. cbv zeta.
  set (s1 := set_tab_panes _ (set_tab_btns _ s)).
  assert (Hown1 : charts_owned s1) by (apply (charts_owned_same_charts s); [frame | exact Hown]).
  destruct (String.eqb tabName "charts"); [|exact Hown1].
  destruct (currentModel s1) as [model|]; [|exact Hown1].
  destruct (monthly_projections model) as [| |ps]; try exact Hown1.
  destruct (revenueLine s1), (revenueBreakdown s1), (revenueMillion s1); try exact Hown1.
  now apply renderCharts_keeps_one_chart_per_slot.
Qed.

Lemma App_displayResults_owned (data : Model) (s : State) :
  charts_owned s -> charts_owned (App.displayResults data s).
Proof.
  intros Hown. unfold App.displayResults. cbv zeta.
  apply App_switchTab_owned. apply renderCharts_keeps_one_chart_per_slot.
  rewrite App_displayProjectionsTable_eq, App_displayRevenueDrivers_eq,
    App_displayAssumptions_eq.
  apply (charts_owned_same_charts s); [frame | exact Hown].
Qed.

Lemma App_exportToExcel_keeps_charts (net : Network Model) :
  keeps same_charts (App.exportToExcel net).
Proof.
  unfold App.exportToExcel.
  apply keeps_bind; [exact _ | apply keeps_gets; exact _ |].
  intros [model|]; [|apply keeps_ret; exact _].
  apply keeps_try_finally; [exact _ | | apply keeps_exec; intros; frame].
  apply keeps_try_catch; [exact _ | | intros e; apply keeps_exec; intros; frame].
  apply keeps_bind; [exact _ | apply keeps_exec; intros; frame | intros _].
  apply keeps_bind; [exact _ | apply keeps_gets; exact _ | intros base].
  apply keeps_bind; [exact _ | intros s; unfold fetch_export; frame | intros response].
  destruct response as [e|body|]; try (apply keeps_throw; exact _).
  apply keeps_bind; [exact _ | apply keeps_lift; exact _ | intros blob].
  apply keeps_bind; [exact _ | apply keeps_gets; exact _ | intros [held|]];
    [|apply keeps_throw; exact _].
  apply keeps_bind; [exact _ | apply keeps_exec; intros; frame | intros _].
  apply keeps_exec. intros. frame.
Qed.

Lemma App_generateModel_owned (net : Network Model) (s : State) :
  charts_owned s -> charts_owned (run (App.generateModel net) s).
Proof.
  intros Hown. destruct (String.eqb_spec (trim (queryInput s)) "") as [Hq|Hq].
  - unfold run, App.generateModel, bind, gets.
    apply String.eqb_eq in Hq. rewrite Hq.
    apply (charts_owned_same_charts s); [frame | exact Hown].
  - unfold run. rewrite (App_generateModel_unfold net s Hq). cbn [snd].
    destruct (App_requested_frame s) as (_ & _ & _ & Hc).
    pose proof (charts_owned_same_charts _ _ Hc Hown) as Hown1.
    assert (Hsettled : charts_owned (App_settle (search net (search_url s)) (App_requested s))).
    { destruct (search net (search_url s)) as [e|[data|e]|body]; cbn [App_settle];
        try (apply (charts_owned_same_charts (App_requested s)); [frame | exact Hown1]).
      apply App_displayResults_owned.
      apply (charts_owned_same_charts (App_requested s)); [frame | exact Hown1]. }
    set (s2 := App_settle (search net (search_url s)) (App_requested s)) in *.
    apply (charts_owned_same_charts s2); [frame | exact Hsettled].
Qed.

Lemma App_step_owned (e : Event) (s : State) :
  charts_owned s -> charts_owned (App_step e s).
Proof.
  intros Hown. destruct e as [text|net|text net|tabName|net|]; cbn [App_step].
  - apply (charts_owned_same_charts s); [frame | exact Hown].
  - now apply App_generateModel_owned.
  - destruct (String.eqb text ""); [exact Hown|].
    apply App_generateModel_owned.
    apply (charts_owned_same_charts s); [frame | exact Hown].
  - now apply App_switchTab_owned.
  - apply (charts_owned_same_charts s); [apply App_exportToExcel_keeps_charts | exact Hown].
  - unfold App.resetUI. cbv zeta.
    destruct (hideError_frame (set_currentModel None
                (set_resultsSection_hidden true (set_queryInput "" s))))
      as (_ & _ & _ & _ & _ & Hc).
    apply (charts_owned_same_charts _ _ Hc).
    apply (charts_owned_same_charts s); [frame | exact Hown].
Qed.

(** Whatever the user does, and whatever the network answers, each canvas
    has at most one live chart after every event. *)
Theorem one_live_chart_per_slot_under_every_event (events : list Event) (s : State) :
  charts_owned s ->
  Forall (fun st => forall slot, length (live_on slot st) <= 1) (App_states events s).
Proof.
  revert s. induction events as [|e events IH]; intros s Hown; cbn [App_states].
  - apply List.Forall_nil.
  - pose proof (App_step_owned e s Hown) as Hown'.
    apply List.Forall_cons; [now apply owned_at_most_one | now apply IH].
Qed.

Lemma one_live_chart_per_slot_witness :
  charts_owned (example_page "http://localhost" "")
  /\ Forall (fun st => forall slot, length (live_on slot st) <= 1)
       (App_states [Click_template "forecast" (always (Success (Ok example_model)));
                    Click_tab "table";
                    Click_generate (always (Success (Ok example_model)));
                    Click_new; Click_tab "charts"]
          (example_page "http://localhost" "")).
Proof.
  split; [apply example_page_owned|].
  apply one_live_chart_per_slot_under_every_event. apply example_page_owned.
Defined.

(** In that run the second search destroys the three charts of the first
    and makes three new ones. *)
Lemma two_searches_leave_three_live_charts :
  let s := List.last
             (App_states [Click_template "forecast" (always (Success (Ok example_model)));
                          Click_tab "table";
                          Click_generate (always (Success (Ok example_model)))]
                (example_page "http://localhost" ""))
             (example_page "http://localhost" "") in
  List.map destroyed (instances s) = [true; true; true; false; false; false]
  /\ (revenueLine s, revenueBreakdown s, revenueMillion s) = (Some 3, Some 4, Some 5).
Proof. vm_compute. split; reflexivity. Qed.

(** ** The view and the model *)

#[local] Instance same_view_preorder : PreOrder same_view.
Proof.
  split.
  - intros s. split; reflexivity.
  - intros s1 s2 s3 [Hm1 Hr1] [Hm2 Hr2]. split; [congruence | etransitivity; eassumption].
Qed.

Lemma shows_same_results (m : Model) (s s' : State) :
  same_results s s' -> shows m s -> shows m s'.
Proof.
  intros (H1 & H2 & H3 & H4 & H5 & H6 & H7) (S1 & S2 & S3 & S4 & S5 & S6 & S7).
  unfold shows. rewrite H1, H2, H3, H4, H5, H6, H7. tauto.
Qed.

Lemma view_in_sync_same_view (s s' : State) :
  same_view s s' -> view_in_sync s -> view_in_sync s'.
Proof.
  intros [Hm Hr] Hs m Hm'. rewrite Hm in Hm'. apply (shows_same_results m s s' Hr). now apply Hs.
Qed.

Lemma last_of_nil {A} : last_of (@nil A) = None.
Proof. reflexivity. Qed.

(** [displayResults] of app.js leaves the view showing the model it was
    given, whatever the view showed before: the header is derived from the
    model (the count of its projections; the total revenue of the last one,
    or [0] when there is none), and the containers are rewritten, not added
    to. *)
Lemma App_displayResults_shows (data : Model) (s : State) :
  shows data (App.displayResults data s).
Proof.
  unfold App.displayResults. cbv zeta.
  rewrite App_displayProjectionsTable_eq, App_displayRevenueDrivers_eq,
    App_displayAssumptions_eq.
  set (s4 := set_assumptionsContainer _ _).
  assert (H4 : shows data s4).
  { unfold shows, s4. cbn [resultsSection_hidden modelId timeHorizon totalRevenue
      projectionsTable driversContainer assumptionsContainer
      set_assumptionsContainer set_driversContainer set_projectionsTable
      set_totalRevenue set_timeHorizon set_modelId set_resultsSection_hidden].
    repeat split.
    - now destruct (monthly_projections data).
    - destruct (monthly_projections data) as [| |[|p ps]]; reflexivity. }
  destruct (App_renderCharts_frame (or_default (monthly_projections data) []) s4)
    as (_ & _ & Hr5).
  set (s5 := App.renderCharts _ s4) in *.
  destruct (App_switchTab_frame "charts" s5) as (_ & Hr6 & _).
  apply (shows_same_results data s5); [exact Hr6|].
  apply (shows_same_results data s4); [exact Hr5 | exact H4].
Qed.

(** [displayResults] of app.js rewrites the view: whatever it showed
    before, it shows the model given afterwards, so that displaying a model
    twice leaves what displaying it once leaves; and a model without
    projections gets the header [0 months] and [$0] over an empty table. *)
Theorem App_displayResults_rewrites_the_view (data : Model) (s : State) :
  shows data (App.displayResults data s)
  /\ same_results (App.displayResults data s)
       (App.displayResults data (App.displayResults data s))
  /\ (or_default (monthly_projections data) [] = [] ->
      timeHorizon (App.displayResults data s) = "0 months"
      /\ totalRevenue (App.displayResults data s) = "$0"
      /\ projectionsTable (App.displayResults data s) = []).
Proof.
  pose proof (App_displayResults_shows data s) as (A1 & A2 & A3 & A4 & A5 & A6 & A7).
  pose proof (App_displayResults_shows data (App.displayResults data s))
    as (B1 & B2 & B3 & B4 & B5 & B6 & B7).
  split; [unfold shows; tauto|]. split.
  - unfold same_results. rewrite A1, A2, A3, A4, A5, A6, A7, B1, B2, B3, B4, B5, B6, B7. tauto.
  - intros He. rewrite A3, A4, A5, He. cbn [length List.map]. rewrite last_of_nil.
    split; [reflexivity|]. split; [apply formatCurrency_zero | reflexivity].
Qed.

Lemma App_displayResults_view_witness :
  let data := mkModel "m-1" (Present []) Absent Absent Absent in
  let s := example_page "http://localhost" "" in
  or_default (monthly_projections data) [] = []
  /\ timeHorizon (App.displayResults data s) = "0 months"
  /\ totalRevenue (App.displayResults data s) = "$0"
  /\ projectionsTable (App.displayResults data s) = [].
Proof.
  cbv zeta. split; [reflexivity|].
  exact (proj2 (proj2 (App_displayResults_rewrites_the_view
                         (mkModel "m-1" (Present []) Absent Absent Absent)
                         (example_page "http://localhost" ""))) eq_refl).
Defined.

Lemma hideError_results (s : State) : same_results s (App.hideError s).
Proof. unfold App.hideError. destruct (errorMessage s); frame. Qed.

Lemma App_requested_same_view (s : State) : same_view s (App_requested s).
Proof.
  unfold App_requested.
  destruct (hideError_frame (App.showLoading true s)) as (_ & _ & Hm & _).
  pose proof (hideError_results (App.showLoading true s)) as Hr.
  split; [exact Hm | exact Hr].
Qed.

Lemma App_generateModel_in_sync (net : Network Model) (s : State) :
  view_in_sync s -> view_in_sync (run (App.generateModel net) s).
Proof.
  intros Hs. destruct (String.eqb_spec (trim (queryInput s)) "") as [Hq|Hq].
  - unfold run, App.generateModel, bind, gets.
    apply String.eqb_eq in Hq. rewrite Hq.
    apply (view_in_sync_same_view s); [split; [reflexivity | frame] | exact Hs].
  - unfold run. rewrite (App_generateModel_unfold net s Hq). cbn [snd].
    pose proof (view_in_sync_same_view _ _ (App_requested_same_view s) Hs) as Hs1.
    set (s1 := App_requested s) in *.
    assert (Hsettled : view_in_sync (App_settle (search net (search_url s)) s1)).
    { destruct (search net (search_url s)) as [e|[data|e]|body]; cbn [App_settle];
        try (apply (view_in_sync_same_view s1); [split; [reflexivity | frame] | exact Hs1]).
      intros m Hm.
      destruct (App_displayResults_spec data (set_currentModel (Some data) s1))
        as ((_ & Hcur & _) & _).
      rewrite Hcur in Hm. injection Hm as <-. apply App_displayResults_shows. }
    set (s2 := App_settle _ s1) in *.
    apply (view_in_sync_same_view s2); [split; [reflexivity | frame] | exact Hsettled].
Qed.

Lemma App_exportToExcel_keeps_view (net : Network Model) :
  keeps same_view (App.exportToExcel net).
Proof.
  assert (Hset : forall f : State -> State,
             (forall s, currentModel (f s) = currentModel s /\ same_results s (f s)) ->
             keeps same_view (exec f)).
  { intros f Hf. apply keeps_exec. intros s. exact (Hf s). }
  unfold App.exportToExcel.
  apply keeps_bind; [exact _ | apply keeps_gets; exact _ |].
  intros [model|]; [|apply keeps_ret; exact _].
  apply keeps_try_finally; [exact _ | | apply Hset; intros; split; [reflexivity | frame]].
  apply keeps_try_catch;
    [exact _ | | intros e; apply Hset; intros; split; [reflexivity | frame]].
  apply keeps_bind; [exact _ | apply Hset; intros; split; [reflexivity | frame] | intros _].
  apply keeps_bind; [exact _ | apply keeps_gets; exact _ | intros base].
  apply keeps_bind;
    [exact _ | intros s; unfold fetch_export; split; [reflexivity | frame] | intros response].
  destruct response as [e|body|]; try (apply keeps_throw; exact _).
  apply keeps_bind; [exact _ | apply keeps_lift; exact _ | intros blob].
  apply keeps_bind; [exact _ | apply keeps_gets; exact _ | intros [held|]];
    [|apply keeps_throw; exact _].
  apply keeps_bind; [exact _ | apply Hset; intros; split; [reflexivity | frame] | intros _].
  apply Hset; intros; split; [reflexivity | frame].
Qed.

Lemma App_step_in_sync (e : Event) (s : State) :
  view_in_sync s -> view_in_sync (App_step e s).
Proof.
  intros Hs. destruct e as [text|net|text net|tabName|net|]; cbn [App_step].
  - apply (view_in_sync_same_view s); [split; [reflexivity | frame] | exact Hs].
  - now apply App_generateModel_in_sync.
  - destruct (String.eqb text ""); [exact Hs|].
    apply App_generateModel_in_sync.
    apply (view_in_sync_same_view s); [split; [reflexivity | frame] | exact Hs].
  - destruct (App_switchTab_frame tabName s) as ((_ & Hm & _) & Hr & _).
    apply (view_in_sync_same_view s); [split; [exact Hm | exact Hr] | exact Hs].
  - apply (view_in_sync_same_view s); [apply App_exportToExcel_keeps_view | exact Hs].
  - intros m Hm. unfold App.resetUI in Hm. cbv zeta in Hm.
    destruct (hideError_frame (set_currentModel None
                (set_resultsSection_hidden true (set_queryInput "" s))))
      as (_ & _ & Hc & _).
    rewrite Hc in Hm. discriminate Hm.
Qed.

(** In app.js the view never falls behind the model: from a state in which
    the results view shows the model that is held (as when no model is
    held), after every sequence of user events, with any replies of the
    network, the view shows the model that is held then.  A search that fails
    changes neither; one that succeeds changes both. *)
Theorem view_in_sync_under_every_event (events : list Event) (s : State) :
  view_in_sync s -> Forall view_in_sync (App_states events s).
Proof.
  revert s. induction events as [|e events IH]; intros s Hs; cbn [App_states].
  - apply List.Forall_nil.
  - pose proof (App_step_in_sync e s Hs) as Hs'.
    apply List.Forall_cons; [exact Hs' | now apply IH].
Qed.

Lemma example_page_in_sync (origin query : string) : view_in_sync (example_page origin query).
Proof. intros m Hm. discriminate Hm. Qed.

Lemma view_in_sync_witness :
  view_in_sync (example_page "http://localhost" "")
  /\ Forall view_in_sync
       (App_states [Click_template "forecast" (always (Success (Ok example_model)));
                    Click_tab "table";
                    Click_generate offline;
                    Click_export offline]
          (example_page "http://localhost" "")).
Proof.
  split; [apply example_page_in_sync|].
  apply view_in_sync_under_every_event. apply example_page_in_sync.
Defined.

(** ** Requests and the loading indicator *)




(** ** Exports *)

Lemma export_settle_settled (msg : JsError -> string) (r : ExportReply) (s : State) :
  msg (new_Error (JString "Failed to export Excel file")) = "Failed to export Excel file" ->
  msg no_model_id = "Cannot read properties of null (reading 'model_id')" ->
  export_settled msg r s (App.showLoading false (export_settle msg r s)).
Proof.
  intros Hfail Hnull. unfold export_settled, export_settle.
  destruct r as [e|[blob|e]|]; try (now repeat split).
  - destruct (currentModel s) as [held|] eqn:Hm; [now repeat split|].
    rewrite Hnull. now repeat split.
  - rewrite Hfail. now repeat split.
Qed.

(** An export with a model held, in app.js and in part_000 alike: one
    request, for the model held at the click; then, in whatever state the
    page is when the reply has come, loading is cleared and the model and
    the requests are left as they are.  A response that is [ok] and whose
    blob can be read gives one download and a notice, and the file is named
    [financial_model_<id>.xlsx] after the model held then: the one exported
    when nothing ran during the awaits, another one after a search that
    came back in between, and when the model was reset in between there is
    no download and the TypeError is shown.  Any other reply gives no
    download and shows an error: a fixed text for a response that is not
    [ok], the message of the error caught otherwise (in app.js the error as
    a string when it has no message). *)
Theorem export_ends_in_a_download_or_an_error (net : Network Model) (m : Model) (s : State) :
  currentModel s = Some m ->
  let r := export_excel net (export_url s m) in
  (run (App.exportToExcel net) s
   = App.showLoading false (App_export_settle r (export_requested m s))
   /\ run (Legacy.exportToExcel net) s
      = App.showLoading false (Legacy_export_settle r (export_requested m s)))
  /\ (forall s1 : State,
         export_settled shown_message r s1 (App.showLoading false (App_export_settle r s1))
         /\ export_settled message r s1 (App.showLoading false (Legacy_export_settle r s1)))
  /\ (requests (run (App.exportToExcel net) s) = requests s ++ [export_url s m]
      /\ requests (run (Legacy.exportToExcel net) s) = requests s ++ [export_url s m])
  /\ (forall blob, r = ExportOk (Ok blob) ->
         downloads (run (App.exportToExcel net) s)
         = downloads s ++ [("financial_model_" +:+ model_id m +:+ ".xlsx", blob)]
         /\ downloads (run (Legacy.exportToExcel net) s)
            = downloads s ++ [("financial_model_" +:+ model_id m +:+ ".xlsx", blob)]).
Proof.
  intros H. cbv zeta. unfold run.
  rewrite (App_exportToExcel_unfold net s m H), (Legacy_exportToExcel_unfold net s m H).
  cbn [snd].
  assert (Hall : forall s1 r,
             export_settled shown_message r s1 (App.showLoading false (App_export_settle r s1))
             /\ export_settled message r s1
                  (App.showLoading false (Legacy_export_settle r s1))).
  { intros s1 r. split; apply export_settle_settled; reflexivity. }
  split; [split; reflexivity|]. split; [intros s1; apply Hall|].
  destruct (Hall (export_requested m s) (export_excel net (export_url s m)))
    as [(_ & _ & Hra & Hda) (_ & _ & Hrl & Hdl)].
  split; [split; [rewrite Hra | rewrite Hrl]; reflexivity|].
  intros blob Hr. rewrite Hr in Hda, Hdl. rewrite Hr.
  change (currentModel (export_requested m s)) with (currentModel s) in Hda, Hdl.
  rewrite H in Hda, Hdl.
  destruct Hda as (Hda & _). destruct Hdl as (Hdl & _).
  split; [rewrite Hda | rewrite Hdl]; reflexivity.
Qed.

Lemma export_witness :
  let s := run (App.generateModel (always (Success (Ok example_model))))
             (example_page "http://localhost" "forecast") in
  let net := mkNetwork (fun _ => Success (Ok example_model)) (fun _ => ExportOk (Ok "xlsx")) in
  currentModel s = Some example_model
  /\ downloads (run (App.exportToExcel net) s) = [("financial_model_model-1.xlsx", "xlsx")]
  /\ export_settled shown_message (ExportOk (Ok "xlsx")) (App.resetUI s)
       (App.showLoading false (App_export_settle (ExportOk (Ok "xlsx")) (App.resetUI s))).
Proof.
  cbv zeta.
  assert (H : currentModel (run (App.generateModel (always (Success (Ok example_model))))
                              (example_page "http://localhost" "forecast"))
              = Some example_model) by (vm_compute; reflexivity).
  split; [exact H|].
  destruct (export_ends_in_a_download_or_an_error
              (mkNetwork (fun _ => Success (Ok example_model)) (fun _ => ExportOk (Ok "xlsx")))
              _ _ H) as (_ & Hany & _ & Hdown).
  split.
  - rewrite (proj1 (Hdown "xlsx" eq_refl)). vm_compute. reflexivity.
  - exact (proj1 (Hany (App.resetUI _))).
Defined.

(** ** Tabs *)

Lemma deactivate_all_idem (l : list (string * bool)) :
  deactivate_all (deactivate_all l) = deactivate_all l.
Proof. unfold deactivate_all. rewrite List.map_map. reflexivity. Qed.

Lemma deactivate_all_activate_first (k : string) (l : list (string * bool)) :
  deactivate_all (activate_first k l) = deactivate_all l.
Proof.
  induction l as [|[k' a] l IH]; [reflexivity|].
  cbn [activate_first]. destruct (String.eqb k k'); [reflexivity|].
  cbn [deactivate_all List.map fst]. f_equal. exact IH.
Qed.

Lemma has_key_deactivate_all (k : string) (l : list (string * bool)) :
  has_key k (deactivate_all l) = has_key k l.
Proof.
  unfold has_key, deactivate_all. induction l as [|[k' a] l IH]; [reflexivity|].
  cbn [List.map existsb fst]. now rewrite IH.
Qed.

Lemma App_switchTab_keeps_charts (tabName : string) (s : State) :
  tabName <> "charts" \/ currentModel s = None
  \/ revenueLine s <> None \/ revenueBreakdown s <> None \/ revenueMillion s <> None ->
  same_charts s (App.switchTab tabName s).
Proof.
  intros H. unfold App.switchTab. cbv zeta.
  set (s1 := set_tab_panes _ (set_tab_btns _ s)).
  assert (H1 : same_charts s s1) by frame.
  destruct (String.eqb_spec tabName "charts") as [Ht|Ht]; [|exact H1].
  change (currentModel s1) with (currentModel s).
  change (revenueLine s1) with (revenueLine s).
  change (revenueBreakdown s1) with (revenueBreakdown s).
  change (revenueMillion s1) with (revenueMillion s).
  destruct (currentModel s) as [model|]; [|exact H1].
  destruct (monthly_projections model) as [| |ps]; try exact H1.
  destruct (revenueLine s), (revenueBreakdown s), (revenueMillion s); try exact H1.
  exfalso. destruct H as [H|[H|[H|[H|H]]]]; try contradiction; discriminate H.
Qed.

(** [switchTab] of app.js leaves exactly the tab it is given active, button
    and pane, when the page has them, and no tab otherwise; switching to the
    same tab again changes no tab.  It touches the charts in one case only:
    for the charts tab, with a model held and no chart in any slot. *)
Theorem App_switchTab_selects_one_tab (tabName : string) (s : State) :
  let s' := App.switchTab tabName s in
  active (tab_btns s') = (if has_key tabName (tab_btns s) then [tabName] else [])
  /\ active (tab_panes s')
     = (if has_key (tabName +:+ "Tab") (tab_panes s) then [tabName +:+ "Tab"] else [])
  /\ same_tabs s' (App.switchTab tabName s')
  /\ (tabName <> "charts" \/ currentModel s = None
      \/ revenueLine s <> None \/ revenueBreakdown s <> None \/ revenueMillion s <> None ->
      same_charts s s').
Proof.
  cbv zeta.
  destruct (App_switchTab_frame tabName s) as (_ & _ & Hb & Hp).
  destruct (App_switchTab_frame tabName (App.switchTab tabName s)) as (_ & _ & Hb' & Hp').
  split; [rewrite Hb; apply active_after_switch|].
  split; [rewrite Hp; apply active_after_switch|].
  split.
  - split.
    + rewrite Hb', Hb. now rewrite deactivate_all_activate_first, deactivate_all_idem.
    + rewrite Hp', Hp. now rewrite deactivate_all_activate_first, deactivate_all_idem.
  - apply App_switchTab_keeps_charts.
Qed.

Lemma App_switchTab_witness :
  let s := example_page "http://localhost" "" in
  ("table" <> "charts" \/ currentModel s = None
   \/ revenueLine s <> None \/ revenueBreakdown s <> None \/ revenueMillion s <> None)
  /\ same_charts s (App.switchTab "table" s).
Proof.
  cbv zeta.
  assert (H : "table" <> "charts"
              \/ currentModel (example_page "http://localhost" "") = None
              \/ revenueLine (example_page "http://localhost" "") <> None
              \/ revenueBreakdown (example_page "http://localhost" "") <> None
              \/ revenueMillion (example_page "http://localhost" "") <> None)
    by (left; discriminate).
  split; [exact H|].
  exact (proj2 (proj2 (proj2
           (App_switchTab_selects_one_tab "table" (example_page "http://localhost" "")))) H).
Defined.

(** [switchTab] of part_000 does what the one of app.js does to the tabs
    when the page has both the button and the pane.  When the button is
    missing it throws with every button inactive and the panes untouched, so
    the pane that was active stays active; when only the pane is missing it
    throws with the button active and no pane active. *)
Theorem Legacy_switchTab_on_a_missing_tab (tabName : string) (s : State) :
  let r := Legacy.switchTab tabName s in
  if has_key tabName (tab_btns s) then
    if has_key (tabName +:+ "Tab") (tab_panes s) then
      fst r = Ok tt /\ same_tabs (App.switchTab tabName s) (snd r)
    else
      (exists e, fst r = Throw e /\ name e = "TypeError")
      /\ active (tab_btns (snd r)) = [tabName] /\ active (tab_panes (snd r)) = []
  else
    (exists e, fst r = Throw e /\ name e = "TypeError")
    /\ active (tab_btns (snd r)) = [] /\ tab_panes (snd r) = tab_panes s.
Proof.
  cbv zeta.
  destruct (App_switchTab_frame tabName s) as (_ & _ & Hb & Hp).
  pose proof (active_after_switch tabName (tab_btns s)) as Ab.
  pose proof (active_after_switch (tabName +:+ "Tab") (tab_panes s)) as Ap.
  pose proof (active_after_switch tabName []) as Hnil. cbn in Hnil.
  unfold Legacy.switchTab, bind, exec, gets, throw.
  cbn [fst snd tab_btns tab_panes set_tab_btns set_tab_panes].
  rewrite has_key_deactivate_all.
  destruct (has_key tabName (tab_btns s)) eqn:Kb; cbn [negb fst snd].
  - cbn [fst snd tab_btns tab_panes set_tab_btns set_tab_panes].
    rewrite has_key_deactivate_all.
    destruct (has_key (tabName +:+ "Tab") (tab_panes s)) eqn:Kp; cbn [negb fst snd].
    + split; [reflexivity|]. split; [now rewrite Hb | now rewrite Hp].
    + split; [eexists; split; reflexivity|].
      cbn [tab_btns tab_panes set_tab_btns set_tab_panes].
      split; [exact Ab|].
      unfold active. clear. induction (tab_panes s) as [|[k a] l IH]; [reflexivity | exact IH].
  - split; [eexists; split; reflexivity|].
    cbn [tab_btns tab_panes set_tab_btns set_tab_panes].
    split; [|reflexivity].
    unfold active. clear. induction (tab_btns s) as [|[k a] l IH]; [reflexivity | exact IH].
Qed.

(** ** New analysis *)

(** [resetUI] drops the model, empties the query and hides the results
    section; the tabs, the charts and what the results section holds stay as
    they are.  After it an export makes no request, and in app.js opening the
    charts tab draws nothing.  Only app.js also hides the error: in part_000
    an error on show stays on show. *)
Theorem resetUI_drops_the_model_only (net : Network Model) (s : State) :
  (currentModel (App.resetUI s) = None /\ queryInput (App.resetUI s) = ""
   /\ resultsSection_hidden (App.resetUI s) = true /\ error_cleared (App.resetUI s)
   /\ same_tabs s (App.resetUI s) /\ same_charts s (App.resetUI s)
   /\ run (App.exportToExcel net) (App.resetUI s) = App.resetUI s
   /\ same_charts s (App.switchTab "charts" (App.resetUI s)))
  /\ (currentModel (Legacy.resetUI s) = None /\ queryInput (Legacy.resetUI s) = ""
      /\ resultsSection_hidden (Legacy.resetUI s) = true
      /\ errorMessage (Legacy.resetUI s) = errorMessage s
      /\ same_tabs s (Legacy.resetUI s)
      /\ run (Legacy.exportToExcel net) (Legacy.resetUI s) = Legacy.resetUI s).
Proof.
  split.
  - unfold App.resetUI. cbv zeta.
    set (s3 := set_currentModel None (set_resultsSection_hidden true (set_queryInput "" s))).
    destruct (hideError_frame s3) as (_ & _ & Hm & Hq & Ht & Hc).
    pose proof (hideError_results s3) as (Hr & _).
    assert (Hnone : currentModel (App.hideError s3) = None) by (rewrite Hm; reflexivity).
    split; [exact Hnone|]. split; [rewrite Hq; reflexivity|].
    split; [rewrite Hr; reflexivity|]. split; [apply hideError_cleared|].
    split; [exact Ht|]. split; [exact Hc|].
    split.
    + unfold run, App.exportToExcel, bind, gets. rewrite Hnone. reflexivity.
    + etransitivity; [exact Hc|].
      apply App_switchTab_keeps_charts. right. left. exact Hnone.
  - repeat split.
Qed.

(** ** Sequencing *)

Lemma exec_then {S A} (f : S -> S) (k : M S A) (s : S) : (exec f ;; k) s = k (f s).
Proof. reflexivity. Qed.

Lemma throw_then {S A B} (c : M S A) (k : A -> M S B) (s : S) (e : JsError) :
  fst (c s) = Throw e -> (x <- c ;; k x) s = (Throw e, snd (c s)).
Proof. intros H. unfold bind. destruct (c s) as [[a|e'] s']; cbn in *; congruence. Qed.

Lemma return_then {S A B} (c : M S A) (k : A -> M S B) (s : S) (a : A) :
  fst (c s) = Ok a -> (x <- c ;; k x) s = k a (snd (c s)).
Proof. intros H. unfold bind. destruct (c s) as [[a'|e'] s']; cbn in *; congruence. Qed.

(** ** part_000: models it cannot display *)

(** In part_000 a reply that is [ok] but whose model has no list of
    projections is stored all the same: the results section shows, with the
    new model's id in the header, while the horizon, the revenue, the table
    and the cards stay those of the model shown before; the error of
    [displayResults] is put on show.  (app.js shows [0 months] and an empty
    table for such a model.) *)
Theorem Legacy_model_without_projections (net : Network Model) (data : Model) (s : State) :
  trim (queryInput s) <> "" ->
  search net (search_url s) = Success (Ok data) ->
  nullish (monthly_projections data) = true ->
  let s' := run (Legacy.generateModel net) s in
  currentModel s' = Some data
  /\ resultsSection_hidden s' = false /\ modelId s' = model_id data
  /\ (exists t, errorMessage s' = Some (mkErrorElement false t) /\ t <> "")
  /\ timeHorizon s' = timeHorizon s /\ totalRevenue s' = totalRevenue s
  /\ projectionsTable s' = projectionsTable s
  /\ driversContainer s' = driversContainer s
  /\ assumptionsContainer s' = assumptionsContainer s.
Proof.
  intros Hq Hreply Hnull. cbv zeta. unfold run.
  rewrite (Legacy_generateModel_unfold net s Hq), Hreply. cbn [snd Legacy_settle].
  destruct (App_requested_same_view s) as (_ & _ & _ & H3 & H4 & H5 & H6 & H7).
  set (s1 := App_requested s) in *.
  unfold Legacy.displayResults, bind, exec, throw.
  destruct (monthly_projections data) as [| |ps]; [| |discriminate Hnull];
    cbn; (repeat split; try assumption); eexists; (split; [reflexivity | discriminate]).
Qed.

Lemma Legacy_model_without_projections_witness :
  let data := mkModel "m-2" Absent Absent Absent Absent in
  let s := example_page "http://localhost" "forecast" in
  let s' := run (Legacy.generateModel (always (Success (Ok data)))) s in
  currentModel s' = Some data /\ resultsSection_hidden s' = false /\ modelId s' = "m-2"
  /\ projectionsTable s' = projectionsTable s.
Proof.
  cbv zeta.
  pose proof (Legacy_model_without_projections
                (always (Success (Ok (mkModel "m-2" Absent Absent Absent Absent))))
                (mkModel "m-2" Absent Absent Absent Absent)
                (example_page "http://localhost" "forecast")
                ltac:(vm_compute; discriminate) eq_refl eq_refl)
    as (H1 & H2 & H3 & _ & _ & _ & H7 & _).
  split; [exact H1|]. split; [exact H2|]. split; [exact H3 | exact H7].
Defined.

Lemma Legacy_cards_until_unnamed (ds1 ds2 : list Driver) (d : Driver) (s : State) :
  forallb has_name ds1 = true -> has_name d = false ->
  let r := forEachM (fun driver =>
                       card <- lift (Legacy.driver_card driver) ;;
                       exec (fun s => set_driversContainer (driversContainer s ++ [card]) s))
             (ds1 ++ d :: ds2) s in
  exists e cards,
    fst r = Throw e /\ name e = "TypeError"
    /\ driversContainer (snd r) = driversContainer s ++ cards
    /\ Forall2 (fun d c => Legacy.driver_card d = Ok c) ds1 cards
    /\ projectionsTable (snd r) = projectionsTable s
    /\ assumptionsContainer (snd r) = assumptionsContainer s.
Proof.
  cbv zeta. revert s. induction ds1 as [|d1 ds1 IH]; intros s Hnamed Hd.
  - cbn [app forEachM]. unfold bind, lift, exec.
    unfold has_name in Hd. unfold Legacy.driver_card.
    destruct (d_name d) as [| |n]; [| |discriminate Hd]; cbn [value_of_string Legacy.formatText];
      eexists; exists []; cbn [fst snd]; rewrite app_nil_r;
      (split; [reflexivity|]); (split; [reflexivity|]); (split; [reflexivity|]);
      (split; [constructor|]); split; reflexivity.
  - cbn [forallb] in Hnamed. apply andb_true_iff in Hnamed as [Hn1 Hnamed].
    assert (Hcard : exists c, Legacy.driver_card d1 = Ok c).
    { unfold has_name in Hn1. unfold Legacy.driver_card.
      destruct (d_name d1) as [| |n]; try discriminate Hn1.
      cbn [value_of_string Legacy.formatText]. eexists. reflexivity. }
    destruct Hcard as [c Hc].
    match goal with
    | |- context [forEachM ?body ((d1 :: ds1) ++ d :: ds2) s] =>
        assert (Hstep : forEachM body ((d1 :: ds1) ++ d :: ds2) s
                        = forEachM body (ds1 ++ d :: ds2)
                            (set_driversContainer (driversContainer s ++ [c]) s))
          by (cbn [app forEachM]; unfold bind, lift, exec; rewrite Hc; reflexivity);
        rewrite Hstep
    end.
    destruct (IH (set_driversContainer (driversContainer s ++ [c]) s) Hnamed Hd)
      as (e & cards & He & Hname & Hcont & Hall & Hp & Ha).
    exists e, (c :: cards).
    split; [exact He|]. split; [exact Hname|].
    split; [rewrite Hcont; cbn [driversContainer set_driversContainer];
            now rewrite <- app_assoc|].
    split; [constructor; assumption|].
    split; [rewrite Hp | rewrite Ha]; reflexivity.
Qed.

(** [displayResults] of part_000 stops at the first driver without a name:
    it throws a TypeError with the projections table drawn, the cards of the
    drivers before that one in the container and none after, and the
    assumptions still those it found. *)
Theorem Legacy_unnamed_driver_stops_the_display
    (data : Model) (ps : list Projection) (ds1 ds2 : list Driver) (d : Driver) (s : State) :
  monthly_projections data = Present ps ->
  revenue_drivers data = Present (ds1 ++ d :: ds2) ->
  forallb has_name ds1 = true -> has_name d = false ->
  let r := Legacy.displayResults data s in
  exists e cards,
    fst r = Throw e /\ name e = "TypeError"
    /\ projectionsTable (snd r) = List.map Legacy.projection_row ps
    /\ driversContainer (snd r) = cards
    /\ Forall2 (fun d c => Legacy.driver_card d = Ok c) ds1 cards
    /\ assumptionsContainer (snd r) = assumptionsContainer s.
Proof.
  intros Hps Hds Hnamed Hd. cbv zeta.
  unfold Legacy.displayResults. rewrite Hps, Hds.
  rewrite !exec_then. rewrite Legacy_displayProjectionsTable_eq.
  set (s5 := set_projectionsTable _ _).
  destruct (Legacy_cards_until_unnamed ds1 ds2 d (set_driversContainer [] s5) Hnamed Hd)
    as (e & cards & He & Hname & Hcont & Hall & Hp & Ha).
  assert (Hdrivers :
            Legacy.displayRevenueDrivers (Present (ds1 ++ d :: ds2)) s5
            = forEachM (fun driver =>
                          card <- lift (Legacy.driver_card driver) ;;
                          exec (fun s => set_driversContainer (driversContainer s ++ [card]) s))
                (ds1 ++ d :: ds2) (set_driversContainer [] s5)).
  { unfold Legacy.displayRevenueDrivers. rewrite exec_then. now destruct ds1. }
  rewrite <- Hdrivers in He, Hcont, Hp, Ha.
  rewrite (throw_then _ _ _ _ He). cbn [fst snd].
  exists e, cards.
  split; [reflexivity|]. split; [exact Hname|].
  split; [rewrite Hp; reflexivity|]. split; [rewrite Hcont; reflexivity|].
  split; [exact Hall | rewrite Ha; reflexivity].
Qed.

Lemma Legacy_unnamed_driver_witness :
  let named := mkDriver (Present "growth_rate") Absent Absent Absent Absent Absent in
  let unnamed := mkDriver Absent Absent Absent Absent Absent Absent in
  let data := mkModel "m-3" (Present [example_projection 1%float])
                (Present [named; unnamed; named]) Absent Absent in
  exists e cards,
    fst (Legacy.displayResults data (example_page "http://localhost" "")) = Throw e
    /\ name e = "TypeError"
    /\ Forall2 (fun d c => Legacy.driver_card d = Ok c) [named] cards.
Proof.
  cbv zeta.
  destruct (Legacy_unnamed_driver_stops_the_display
              (mkModel "m-3" (Present [example_projection 1%float])
                 (Present [mkDriver (Present "growth_rate") Absent Absent Absent Absent Absent;
                           mkDriver Absent Absent Absent Absent Absent Absent;
                           mkDriver (Present "growth_rate") Absent Absent Absent Absent Absent])
                 Absent Absent)
              [example_projection 1%float]
              [mkDriver (Present "growth_rate") Absent Absent Absent Absent Absent]
              [mkDriver (Present "growth_rate") Absent Absent Absent Absent Absent]
              (mkDriver Absent Absent Absent Absent Absent Absent)
              (example_page "http://localhost" "")
              eq_refl eq_refl eq_refl eq_refl)
    as (e & cards & He & Hname & _ & _ & Hall & _).
  exists e, cards. split; [exact He|]. split; [exact Hname | exact Hall].
Defined.

(** ** script.js: the assumptions *)

Lemma Script_key_formats (k : string) :
  In k Script.keyAssumptions -> forall v, exists item, Script.assumption_item k v = Ok item.
Proof.
  intros Hk v. unfold Script.keyAssumptions in Hk. cbn [In] in Hk.
  unfold Script.assumption_item, Script.formatAssumptionValue. cbn [Script.formatLabel].
  repeat (destruct Hk as [<-|Hk];
          [repeat match goal with
                  | |- context [includes ?a ?b] =>
                      let r := eval vm_compute in (includes a b) in
                      change (includes a b) with r
                  end;
           cbn [orb]; eexists; reflexivity|]).
  contradiction.
Qed.

Lemma Script_assumptions_loop (l : list (string * field float)) (keys : list string) :
  (forall k, In k keys -> forall v, exists item, Script.assumption_item k v = Ok item) ->
  forall s,
    let r := Script.forEachM
               (fun key =>
                  match Script.lookup_key key l with
                  | Some v =>
                      item <- lift (Script.assumption_item key v) ;;
                      exec (fun s => Script.set_assumptionsList
                                       (Script.assumptionsList s ++ [item]) s)
                  | None => ret tt
                  end) keys s in
    fst r = Ok tt
    /\ exists items,
         Script.assumptionsList (snd r) = Script.assumptionsList s ++ items
         /\ Forall2 (fun k item => exists v, Script.lookup_key k l = Some v
                                             /\ Script.assumption_item k v = Ok item)
              (List.filter (fun k => match Script.lookup_key k l with
                                     | Some _ => true
                                     | None => false
                                     end) keys)
              items
         /\ Script.alerts (snd r) = Script.alerts s.
Proof.
  cbv zeta. induction keys as [|k keys IH]; intros Hfmt s.
  - split; [reflexivity|]. exists []. rewrite app_nil_r.
    split; [reflexivity|]. split; [constructor | reflexivity].
  - assert (Hrest : forall k', In k' keys ->
                               forall v, exists item, Script.assumption_item k' v = Ok item)
      by (intros k' Hk'; apply Hfmt; now right).
    cbn [List.filter].
    destruct (Script.lookup_key k l) as [v|] eqn:Hlook.
    + destruct (Hfmt k (or_introl eq_refl) v) as [item Hitem].
      match goal with
      | |- context [Script.forEachM ?body (k :: keys) s] =>
          assert (Hstep : Script.forEachM body (k :: keys) s
                          = Script.forEachM body keys
                              (Script.set_assumptionsList (Script.assumptionsList s ++ [item]) s))
            by (cbn [Script.forEachM]; unfold bind at 1; rewrite Hlook;
                unfold bind at 1, lift, exec; rewrite Hitem; reflexivity);
          rewrite Hstep
      end.
      destruct (IH Hrest (Script.set_assumptionsList (Script.assumptionsList s ++ [item]) s))
        as (Hok & items & Hlist & Hall & Halerts).
      split; [exact Hok|]. exists (item :: items).
      split; [rewrite Hlist; cbn [Script.assumptionsList Script.set_assumptionsList];
              now rewrite <- app_assoc|].
      split; [constructor; [exists v; split; [exact Hlook | exact Hitem] | exact Hall]|].
      rewrite Halerts. reflexivity.
    + match goal with
      | |- context [Script.forEachM ?body (k :: keys) s] =>
          assert (Hstep : Script.forEachM body (k :: keys) s = Script.forEachM body keys s)
            by (cbn [Script.forEachM]; unfold bind at 1; rewrite Hlook; reflexivity);
          rewrite Hstep
      end.
      exact (IH Hrest s).
Qed.

(** [displayAssumptions] of script.js never throws for a mapping, whatever
    its values: it rewrites the list with one item for each of the seven
    keys it knows that the mapping has, in its own fixed order, each
    formatted after its key; keys it does not know are not shown.  Without a
    mapping it throws a TypeError, with the list emptied. *)
Theorem Script_displayAssumptions_shows_the_known_keys
    (assumptions : field (list (string * field float))) (s : Script.State) :
  let r := Script.displayAssumptions assumptions s in
  match assumptions with
  | Present l =>
      fst r = Ok tt
      /\ Forall2 (fun k item => exists v, Script.lookup_key k l = Some v
                                          /\ Script.assumption_item k v = Ok item)
           (Script_shown_keys l) (Script.assumptionsList (snd r))
      /\ length (Script.assumptionsList (snd r)) <= 7
  | _ =>
      (exists e, fst r = Throw e /\ name e = "TypeError")
      /\ Script.assumptionsList (snd r) = []
  end.
Proof.
  cbv zeta. unfold Script.displayAssumptions. rewrite exec_then.
  destruct assumptions as [| |l].
  - split; [eexists; split; reflexivity | reflexivity].
  - split; [eexists; split; reflexivity | reflexivity].
  - cbv beta iota.
    destruct (Script_assumptions_loop l Script.keyAssumptions Script_key_formats
                (Script.set_assumptionsList [] s))
      as (Hok & items & Hlist & Hall & _).
    cbn [Script.assumptionsList Script.set_assumptionsList app] in Hlist.
    split; [exact Hok|]. rewrite Hlist. split; [exact Hall|].
    apply Forall2_length in Hall. rewrite <- Hall.
    unfold Script_shown_keys.
    etransitivity; [apply List.filter_length_le | cbn; lia].
Qed.

(** ** script.js: a search that succeeds *)

Lemma Script_handleQuerySubmit_unfold
    (net : Network Script.Model) (data : Script.Model) (s : Script.State) :
  search net (Script.API_BASE s +:+ "/api/v1/search?" +:+ Script.search_params (Script.form s))
  = Success (Ok data) ->
  Script.handleQuerySubmit net s
  = match Script.displayResults data (Script_received data s) with
    | (Ok a, s') => (Ok a, s')
    | (Throw e, s') => (Ok tt, Script.showError (message e) s')
    end.
Proof.
  intros Hreply.
  unfold Script.handleQuerySubmit, bind, gets, exec, try_catch, Script.fetch_search, lift.
  cbn [fst snd Script.API_BASE Script.showLoading Script.set_resultsSection_shown
       Script.set_loadingSection_shown Script.requests Script.form].
  rewrite Hreply. cbn [fst snd]. reflexivity.
Qed.

(** In script.js a model with an empty list of projections cannot be
    displayed: reading the revenue of its first month throws.  The id of the
    model is kept all the same, so that an export would ask for it; the
    header already says [0 months]; an alert is raised and the results
    section stays hidden, with loading hidden too. *)
Theorem Script_model_with_no_projections
    (net : Network Script.Model) (data : Script.Model) (s : Script.State) :
  search net (Script.API_BASE s +:+ "/api/v1/search?" +:+ Script.search_params (Script.form s))
  = Success (Ok data) ->
  Script.monthly_projections data = Present [] ->
  let s' := run (Script.handleQuerySubmit net) s in
  Script.currentModelId s' = Some (Script.model_id data)
  /\ Script.alerts s'
     = Script.alerts s
         ++ ["Error: Cannot read properties of undefined (reading 'total_revenue')"]
  /\ Script.resultsSection_shown s' = false
  /\ Script.loadingSection_shown s' = false
  /\ Script.timeHorizon s' = "0 months".
Proof.
  intros Hreply Hps. cbv zeta. unfold run.
  rewrite (Script_handleQuerySubmit_unfold net data s Hreply).
  unfold Script.displayResults. rewrite Hps. rewrite !exec_then.
  cbn. repeat split.
Qed.

Lemma Script_model_with_no_projections_witness :
  let data := Script.mkModel "m-4" (Present []) (Present []) (Present []) in
  let s := example_form_page "http://localhost" (Script.mkForm "q" "" "" "" "") in
  let s' := run (Script.handleQuerySubmit (always (Success (Ok data)))) s in
  Script.currentModelId s' = Some "m-4"
  /\ Script.resultsSection_shown s' = false
  /\ Script.timeHorizon s' = "0 months".
Proof.
  cbv zeta.
  destruct (Script_model_with_no_projections
              (always (Success (Ok (Script.mkModel "m-4" (Present []) (Present []) (Present [])))))
              (Script.mkModel "m-4" (Present []) (Present []) (Present []))
              (example_form_page "http://localhost" (Script.mkForm "q" "" "" "" ""))
              eq_refl eq_refl)
    as (H1 & _ & H3 & _ & H5).
  split; [exact H1|]. split; [exact H3 | exact H5].
Defined.

Lemma Script_formatValue_known_unit (v : field float) (u : field string) :
  Script_unit_known u = true -> exists t, Script.formatValue v u = Ok t.
Proof.
  intros H.
  destruct u as [| |[|[[] [] [] [] [] [] [] []] [|b u]]];
    try (cbn in H; discriminate H); eexists; reflexivity.
Qed.

Lemma Script_formatValue_number (x : float) (u : field string) :
  exists t, Script.formatValue (Present x) u = Ok t.
Proof.
  destruct u as [| |[|[[] [] [] [] [] [] [] []] [|b u]]]; eexists; reflexivity.
Qed.

Lemma Script_driver_ok_item (d : Script.Driver) :
  Script_driver_ok d = true -> exists item, Script.driver_item d = Ok item.
Proof.
  unfold Script_driver_ok, Script.driver_item.
  intros H. apply andb_true_iff in H as [Hn Hv].
  destruct (Script.d_name d) as [| |n]; try discriminate Hn.
  assert (Hfmt : exists t, Script.formatValue (Script.d_value d) (Script.d_unit d) = Ok t).
  { apply orb_true_iff in Hv as [Hu|Hx].
    - now apply Script_formatValue_known_unit.
    - destruct (Script.d_value d) as [| |x]; try discriminate Hx.
      apply Script_formatValue_number. }
  destruct Hfmt as [t ->]. eexists. reflexivity.
Qed.

Lemma Script_driver_items (ds : list Script.Driver) :
  forallb Script_driver_ok ds = true ->
  exists items, Forall2 (fun d item => Script.driver_item d = Ok item) ds items.
Proof.
  induction ds as [|d ds IH]; intros Hok; [exists []; constructor|].
  cbn [forallb] in Hok. apply andb_true_iff in Hok as [Hd Hok].
  destruct (Script_driver_ok_item d Hd) as [item Hitem].
  destruct (IH Hok) as [items Hitems].
  exists (item :: items). now constructor.
Qed.

Lemma Script_drivers_loop (ds : list Script.Driver) (items : list Html) :
  Forall2 (fun d item => Script.driver_item d = Ok item) ds items ->
  forall s,
    Script.forEachM
      (fun driver =>
         item <- lift (Script.driver_item driver) ;;
         exec (fun s => Script.set_revenueDriversList
                          (Script.revenueDriversList s ++ [item]) s)) ds s
    = (Ok tt, Script.set_revenueDriversList (Script.revenueDriversList s ++ items) s).
Proof.
  induction 1 as [|d item ds items Hitem _ IH]; intros s.
  - cbn [Script.forEachM]. unfold ret. rewrite app_nil_r. now destruct s.
  - cbn [Script.forEachM]. unfold bind at 1, bind at 1, lift, exec at 1.
    rewrite Hitem. rewrite IH.
    cbn [Script.revenueDriversList Script.set_revenueDriversList].
    rewrite <- app_assoc. reflexivity.
Qed.

Lemma Script_assumption_items (l : list (string * field float)) (keys : list string) :
  (forall k, In k keys -> forall v, exists item, Script.assumption_item k v = Ok item) ->
  exists items,
    Forall2 (fun k item => exists v, Script.lookup_key k l = Some v
                                     /\ Script.assumption_item k v = Ok item)
      (List.filter (fun k => match Script.lookup_key k l with
                             | Some _ => true
                             | None => false
                             end) keys)
      items.
Proof.
  induction keys as [|k keys IH]; intros Hfmt; [exists []; constructor|].
  destruct IH as [items Hitems]; [intros k' Hk'; apply Hfmt; now right|].
  cbn [List.filter]. destruct (Script.lookup_key k l) as [v|] eqn:Hlook.
  - destruct (Hfmt k (or_introl eq_refl) v) as [item Hitem].
    exists (item :: items). constructor; [exists v; now split | exact Hitems].
  - exists items. exact Hitems.
Qed.

Lemma Script_assumptions_loop_eq
    (l : list (string * field float)) (keys : list string) (items : list Html) :
  Forall2 (fun k item => exists v, Script.lookup_key k l = Some v
                                   /\ Script.assumption_item k v = Ok item)
    (List.filter (fun k => match Script.lookup_key k l with
                           | Some _ => true
                           | None => false
                           end) keys)
    items ->
  forall s,
    Script.forEachM
      (fun key =>
         match Script.lookup_key key l with
         | Some v =>
             item <- lift (Script.assumption_item key v) ;;
             exec (fun s => Script.set_assumptionsList (Script.assumptionsList s ++ [item]) s)
         | None => ret tt
         end) keys s
    = (Ok tt, Script.set_assumptionsList (Script.assumptionsList s ++ items) s).
Proof.
  revert items. induction keys as [|k keys IH]; intros items Hall s.
  - cbn [List.filter] in Hall. inversion Hall; subst.
    cbn [Script.forEachM]. unfold ret. rewrite app_nil_r. now destruct s.
  - cbn [List.filter] in Hall. cbn [Script.forEachM]. unfold bind at 1.
    destruct (Script.lookup_key k l) as [v|] eqn:Hlook.
    + inversion Hall as [|k0 item ks items' (v' & Hv' & Hitem) Hrest]; subst.
      rewrite Hlook in Hv'. injection Hv' as <-.
      unfold bind at 1, lift, exec at 1. rewrite Hitem. rewrite (IH items' Hrest).
      cbn [Script.assumptionsList Script.set_assumptionsList].
      rewrite <- app_assoc. reflexivity.
    + unfold ret at 1. exact (IH items Hall s).
Qed.

Lemma last_of_cons {A} (a : A) (l : list A) : exists b, last_of (a :: l) = Some b.
Proof.
  unfold last_of. apply lookup_lt_is_Some. cbn [length]. lia.
Qed.

Lemma utf16_prefix_ascii (s : string) :
  is_ascii s = true -> forall n, utf16_prefix n s = substring 0 n s.
Proof.
  unfold utf16_prefix, is_ascii.
  induction s as [|a r IH]; intros H n; [now destruct n|].
  cbn [string_forall] in H. apply andb_true_iff in H as [Ha Hr].
  destruct n as [|n]; [reflexivity|].
  cbn [utf16_prefix_from substring].
  assert (Hlead : (code a <? 192)%Z = true) by (apply Z.ltb_lt; apply Z.ltb_lt in Ha; lia).
  rewrite Hlead. f_equal. now apply IH.
Qed.

Lemma Script_driver_item_shape (d : Script.Driver) (item : Html) :
  Script.driver_item d = Ok item ->
  exists n v,
    Script.d_name d = Present n
    /\ Script.formatValue (Script.d_value d) (Script.d_unit d) = Ok v
    /\ item = El "div" "driver-item"
                [ El "h4" "" [Text (toUpperCase (underscores_to_spaces n))];
                  El "div" "value" [Text v] ].
Proof.
  unfold Script.driver_item. intros H.
  destruct (Script.d_name d) as [| |n]; try discriminate H.
  destruct (Script.formatValue (Script.d_value d) (Script.d_unit d)) as [v|e];
    [|discriminate H].
  injection H as <-. now exists n, v.
Qed.

(** In script.js a reply with a model it can display (at least one
    projection, drivers that have a name and a value or a unit with a format
    of its own, a mapping of assumptions) ends with the results section on
    show and loading hidden, without an alert.  The header gives the first
    eight UTF-16 code units of the id (its first eight characters when the
    id is ASCII) and ["..."], the number of months and the revenues of the
    first and the last month.  The table has one row for each projection.
    The drivers have one item each, in order, with the value as
    [formatValue] gives it, and, for a name of ASCII characters, the name in
    upper case with its underscores as spaces for a title.  The assumptions
    have one item for each known key the mapping has.  One request was made,
    and the id is kept for the export. *)
Theorem Script_complete_model_is_displayed
    (net : Network Script.Model) (data : Script.Model) (s : Script.State) :
  search net (Script.API_BASE s +:+ "/api/v1/search?" +:+ Script.search_params (Script.form s))
  = Success (Ok data) ->
  Script_displayable data = true ->
  let s' := run (Script.handleQuerySubmit net) s in
  let ps := or_default (Script.monthly_projections data) [] in
  (Script.resultsSection_shown s' = true /\ Script.loadingSection_shown s' = false
   /\ Script.alerts s' = Script.alerts s
   /\ Script.currentModelId s' = Some (Script.model_id data)
   /\ Script.requests s'
      = Script.requests s
          ++ [Script.API_BASE s +:+ "/api/v1/search?" +:+ Script.search_params (Script.form s)])
  /\ (Script.modelId s' = utf16_prefix 8 (Script.model_id data) +:+ "..."
      /\ (is_ascii (Script.model_id data) = true ->
          Script.modelId s' = substring 0 8 (Script.model_id data) +:+ "...")
      /\ Script.timeHorizon s' = digits_of (Z.of_nat (length ps)) +:+ " months"
      /\ Some (Script.month1Revenue s')
         = (fun p => Script.formatCurrency (Script.total_revenue p)) <$> ps !! 0
      /\ Some (Script.finalRevenue s')
         = (fun p => Script.formatCurrency (Script.total_revenue p)) <$> last_of ps)
  /\ Script.projectionsTableBody s' = List.map Script.projection_row ps
  /\ Forall2 (fun d item =>
                exists title v,
                  item = El "div" "driver-item"
                           [ El "h4" "" [Text title]; El "div" "value" [Text v] ]
                  /\ Script.formatValue (Script.d_value d) (Script.d_unit d) = Ok v
                  /\ forall n, Script.d_name d = Present n -> is_ascii n = true ->
                                title = toUpperCase (underscores_to_spaces n))
       (or_default (Script.revenue_drivers data) []) (Script.revenueDriversList s')
  /\ Forall2 (fun k item => exists v, Script.lookup_key k (or_default (Script.assumptions data) [])
                                      = Some v
                                      /\ Script.assumption_item k v = Ok item)
       (Script_shown_keys (or_default (Script.assumptions data) []))
       (Script.assumptionsList s').
Proof.
  intros Hreply Hok. cbv zeta. unfold run.
  rewrite (Script_handleQuerySubmit_unfold net data s Hreply).
  unfold Script_displayable in Hok.
  apply andb_true_iff in Hok as [Hok Ha]. apply andb_true_iff in Hok as [Hok Hds].
  apply andb_true_iff in Hok as [Hps Hd].
  unfold Script.displayResults.
  destruct (Script.monthly_projections data) as [| |[|p ps]] eqn:Eps; try discriminate Hps.
  destruct (Script.revenue_drivers data) as [| |ds] eqn:Eds; try discriminate Hd.
  destruct (Script.assumptions data) as [| |l] eqn:Eas; try discriminate Ha.
  cbn [or_default] in *.
  destruct (Script_driver_items ds Hds) as [ditems Hditems].
  destruct (Script_assumption_items l Script.keyAssumptions Script_key_formats)
    as [aitems Haitems].
  assert (Hshapes :
            Forall2 (fun d item =>
                       exists title v,
                         item = El "div" "driver-item"
                                  [ El "h4" "" [Text title]; El "div" "value" [Text v] ]
                         /\ Script.formatValue (Script.d_value d) (Script.d_unit d) = Ok v
                         /\ forall n, Script.d_name d = Present n -> is_ascii n = true ->
                                       title = toUpperCase (underscores_to_spaces n))
              ds ditems).
  { clear -Hditems. induction Hditems as [|d item ds ditems Hitem _ IH]; constructor; [|exact IH].
    destruct (Script_driver_item_shape d item Hitem) as (n & v & Hn & Hv & ->).
    exists (toUpperCase (underscores_to_spaces n)), v.
    split; [reflexivity|]. split; [exact Hv|].
    intros n' Hn' _. rewrite Hn in Hn'. now injection Hn' as <-. }
  destruct (last_of_cons p ps) as [q Hq]. rewrite Hq.
  cbn [lookup list_lookup].
  unfold Script.displayRevenueDrivers, Script.displayProjectionsTable,
    Script.displayAssumptions.
  cbv beta iota.
  rewrite !exec_then.
  rewrite (return_then _ _ _ tt)
    by (rewrite exec_then, (Script_drivers_loop ds ditems Hditems); reflexivity).
  rewrite exec_then, (Script_drivers_loop ds ditems Hditems). cbn [snd].
  rewrite (return_then _ _ _ tt) by (rewrite exec_then, Script_forEachM_rows; reflexivity).
  rewrite exec_then, Script_forEachM_rows. cbn [snd].
  rewrite (return_then _ _ _ tt)
    by (rewrite exec_then,
          (Script_assumptions_loop_eq l Script.keyAssumptions aitems Haitems); reflexivity).
  rewrite exec_then, (Script_assumptions_loop_eq l Script.keyAssumptions aitems Haitems).
  cbn [snd].
  unfold exec.
  cbn [fst snd Script.resultsSection_shown Script.loadingSection_shown Script.alerts
       Script.currentModelId Script.requests Script.modelId Script.timeHorizon
       Script.month1Revenue Script.finalRevenue Script.projectionsTableBody
       Script.revenueDriversList Script.assumptionsList
       Script.set_resultsSection_shown Script.set_assumptionsList
       Script.set_projectionsTableBody Script.set_revenueDriversList Script.set_finalRevenue
       Script.set_month1Revenue Script.set_timeHorizon Script.set_modelId Script.hideLoading
       Script.set_loadingSection_shown Script_received Script.set_currentModelId
       Script.set_requests Script.showLoading app fmap option_fmap option_map].
  split; [repeat split|]. split.
  - split; [reflexivity|]. split; [|repeat split].
    intros Hascii. now rewrite (utf16_prefix_ascii _ Hascii).
  - split; [reflexivity|]. split; [exact Hshapes | exact Haitems].
Qed.

Lemma Script_complete_model_witness :
  let data := Script.mkModel "0123456789"
                (Present [Script.mkProjection (Present 1%float) (Present 2%float) (Present 1%float)
                     (Present 1000000%float) (Present 4%float) (Present 250000%float)
                     (Present 300000%float) (Present 1250000%float)])
                (Present [Script.mkDriver (Present "sales_people") Absent (Present "#")])
                (Present [("conversion_rate", Present 0.25%float); ("other", Null)]) in
  let s' := run (Script.handleQuerySubmit (always (Success (Ok data))))
              (example_form_page "http://localhost" (Script.mkForm "q" "" "" "" "")) in
  Script_displayable data = true
  /\ Script.resultsSection_shown s' = true /\ Script.modelId s' = "01234567..."
  /\ Script.timeHorizon s' = "1 months"
  /\ length (Script.projectionsTableBody s') = 1.
Proof.
  cbv zeta.
  pose proof (Script_complete_model_is_displayed
                (always (Success (Ok (Script.mkModel "0123456789"
     (Present [Script.mkProjection (Present 1%float) (Present 2%float) (Present 1%float)
                 (Present 1000000%float) (Present 4%float) (Present 250000%float)
                 (Present 300000%float) (Present 1250000%float)])
     (Present [Script.mkDriver (Present "sales_people") Absent (Present "#")])
     (Present [("conversion_rate", Present 0.25%float); ("other", Null)])))))
                (Script.mkModel "0123456789"
     (Present [Script.mkProjection (Present 1%float) (Present 2%float) (Present 1%float)
                 (Present 1000000%float) (Present 4%float) (Present 250000%float)
                 (Present 300000%float) (Present 1250000%float)])
     (Present [Script.mkDriver (Present "sales_people") Absent (Present "#")])
     (Present [("conversion_rate", Present 0.25%float); ("other", Null)]))
                (example_form_page "http://localhost" (Script.mkForm "q" "" "" "" ""))
                eq_refl eq_refl)
    as ((H1 & _) & (H2 & _ & H3 & _) & H4 & _).
  cbv zeta in H3, H4.
  split; [reflexivity|]. split; [exact H1|]. split; [exact H2|]. split; [exact H3|].
  rewrite H4. reflexivity.
Defined.

(** ** script.js: New Model and Export *)

(** In script.js [handleNewModel] resets the form and hides the results,
    but keeps the id of the model: an export after it opens the file of the
    model that was shown before, in a new tab, with a notice and without an
    alert.  [handleExport] never fetches. *)
Theorem Script_new_model_keeps_the_export
    (initial : Script.Form) (id : string) (s : Script.State) :
  Script.currentModelId s = Some id -> id <> "" ->
  let s1 := ScriptReset.handleNewModel initial s in
  Script.form s1 = initial /\ Script.resultsSection_shown s1 = false
  /\ Script.currentModelId s1 = Some id
  /\ Script.opened (Script.handleExport s1)
     = Script.opened s
         ++ [Script.API_BASE s +:+ "/api/v1/export/excel/" +:+ id +:+ "?auto_open=true"]
  /\ Script.notices (Script.handleExport s1)
     = Script.notices s ++ ["Excel file generated and opened!"]
  /\ Script.alerts (Script.handleExport s1) = Script.alerts s
  /\ Script.requests (Script.handleExport s1) = Script.requests s.
Proof.
  intros Hid Hne. cbv zeta. apply String.eqb_neq in Hne.
  unfold ScriptReset.handleNewModel, Script.handleExport. cbv zeta.
  cbn [Script.currentModelId Script.set_resultsSection_shown ScriptReset.set_form].
  rewrite Hid, Hne. cbn. repeat split.
Qed.

Lemma Script_new_model_witness :
  let s := run (Script.handleQuerySubmit
                  (always (Success (Ok (Script.mkModel "m-5" Absent Absent Absent)))))
             (example_form_page "http://localhost" (Script.mkForm "q" "12" "" "" "")) in
  let s1 := ScriptReset.handleNewModel (Script.mkForm "" "" "" "" "") s in
  Script.currentModelId s = Some "m-5" /\ "m-5" <> ""
  /\ Script.opened (Script.handleExport s1)
     = ["http://localhost/api/v1/export/excel/m-5?auto_open=true"].
Proof.
  cbv zeta.
  assert (Hid : Script.currentModelId
                  (run (Script.handleQuerySubmit
                          (always (Success (Ok (Script.mkModel "m-5" Absent Absent Absent)))))
                     (example_form_page "http://localhost" (Script.mkForm "q" "12" "" "" "")))
                = Some "m-5") by reflexivity.
  assert (Hne : "m-5" <> "") by discriminate.
  split; [exact Hid|]. split; [exact Hne|].
  pose proof (Script_new_model_keeps_the_export (Script.mkForm "" "" "" "" "") "m-5" _ Hid Hne)
    as (_ & _ & _ & Hopen & _).
  cbv zeta in Hopen. rewrite Hopen. reflexivity.
Defined.

(** ** The charts and the model *)

Lemma draw_held (slot : Slot) (config : Chart) (s : State) :
  handles_wf s -> canvas config = slot ->
  existsb (Slot_eqb slot) (canvases s) = true -> window_Chart s = true ->
  handles_wf (App.draw slot config s)
  /\ held slot (App.draw slot config s) = Some config
  /\ (forall slot' c, slot' <> slot -> held slot' s = Some c ->
                      held slot' (App.draw slot config s) = Some c).
Proof.
  intros Hwf Hcanvas Hc Hw. unfold App.draw. rewrite Hc, Hw. cbn [andb].
  set (s1 := match App.handle slot s with
             | Some i => App.destroy i s
             | None => s
             end).
  assert (Hh1 : forall sl, App.handle sl s1 = App.handle sl s).
  { intros sl. unfold s1. destruct (App.handle slot s); [destruct sl|]; reflexivity. }
  assert (Hlen : length (instances s1) = length (instances s)).
  { unfold s1. destruct (App.handle slot s); [|reflexivity].
    cbn [App.destroy instances set_instances]. apply length_alter. }
  assert (Hwf1 : forall sl i, App.handle sl s = Some i ->
                              exists c, instances s1 !! i = Some c /\ canvas c = sl).
  { intros sl i Hi. destruct (Hwf sl i Hi) as (c & Hlook & Hcv).
    unfold s1. destruct (App.handle slot s) as [h|]; [|now exists c].
    cbn [App.destroy instances set_instances].
    destruct (Nat.eq_dec h i) as [->|Hne].
    - rewrite list_lookup_alter_eq, Hlook. cbn. eexists. split; [reflexivity | exact Hcv].
    - rewrite list_lookup_alter_ne by exact Hne. now exists c. }
  assert (Hkeep : forall sl i c, sl <> slot -> App.handle sl s = Some i ->
                                 instances s !! i = Some c -> instances s1 !! i = Some c).
  { intros sl i c Hsl Hi Hlook. unfold s1.
    destruct (App.handle slot s) as [h|] eqn:Hh; [|exact Hlook].
    cbn [App.destroy instances set_instances].
    destruct (Nat.eq_dec h i) as [->|Hne].
    - exfalso. destruct (Hwf slot i Hh) as (c1 & Hl1 & Hc1).
      destruct (Hwf sl i Hi) as (c2 & Hl2 & Hc2). congruence.
    - now rewrite list_lookup_alter_ne by exact Hne. }
  unfold App.new_Chart. cbv zeta beta iota.
  set (s2 := set_instances (instances s1 ++ [config]) s1).
  assert (Hfinal_h : forall sl, App.handle sl (App.set_handle slot (Some (length (instances s1))) s2)
                                = if Slot_eqb sl slot then Some (length (instances s1))
                                  else App.handle sl s).
  { intros sl. rewrite handle_set_handle.
    destruct (Slot_eqb sl slot); [reflexivity|]. rewrite <- Hh1. now destruct sl. }
  assert (Hfinal_i : instances (App.set_handle slot (Some (length (instances s1))) s2)
                     = instances s1 ++ [config]).
  { rewrite instances_set_handle. reflexivity. }
  split; [|split].
  - intros sl i Hi. rewrite Hfinal_h in Hi. rewrite Hfinal_i.
    destruct (Slot_eqb_spec sl slot) as [->|Hsl].
    + injection Hi as <-. exists config.
      rewrite lookup_app_r by lia. rewrite Nat.sub_diag. split; [reflexivity | exact Hcanvas].
    + destruct (Hwf1 sl i Hi) as (c & Hlook & Hcv). exists c.
      split; [|exact Hcv]. apply lookup_app_l_Some. exact Hlook.
  - unfold held. rewrite Hfinal_h, Hfinal_i.
    destruct (Slot_eqb_spec slot slot) as [_|Hne]; [|contradiction].
    rewrite lookup_app_r by lia. now rewrite Nat.sub_diag.
  - intros sl c Hsl Hheld. unfold held in *. rewrite Hfinal_h, Hfinal_i.
    destruct (Slot_eqb_spec sl slot) as [->|_]; [contradiction|].
    destruct (App.handle sl s) as [i|] eqn:Hi; [|discriminate Hheld].
    apply lookup_app_l_Some. exact (Hkeep sl i c Hsl Hi Hheld).
Qed.

Lemma renderCharts_held (ps : list Projection) (s : State) :
  ps <> [] -> handles_wf s ->
  (forall slot, existsb (Slot_eqb slot) (canvases s) = true) -> window_Chart s = true ->
  handles_wf (App.renderCharts ps s)
  /\ forall slot, exists c, held slot (App.renderCharts ps s) = Some c /\ plots ps slot c.
Proof.
  intros Hps Hwf Hcv Hw. unfold App.renderCharts.
  destruct ps as [|p0 ps']; [contradiction|]. cbn [length Nat.eqb]. cbv zeta.
  set (ps := p0 :: ps') in *.
  match goal with
  | |- context [App.draw RevenueMillion ?c3 (App.draw RevenueBreakdown ?c2 (App.draw RevenueLine ?c1 s))] =>
      set (k1 := c1); set (k2 := c2); set (k3 := c3);
      set (s1 := App.draw RevenueLine k1 s);
      set (s2 := App.draw RevenueBreakdown k2 s1)
  end.
  destruct (draw_env RevenueLine k1 s) as [Hc1 Hw1]. fold s1 in Hc1, Hw1.
  destruct (draw_env RevenueBreakdown k2 s1) as [Hc2 Hw2]. fold s2 in Hc2, Hw2.
  destruct (draw_held RevenueLine k1 s Hwf eq_refl (Hcv _) Hw) as (Hwf1 & Hl1 & _).
  fold s1 in Hwf1, Hl1.
  destruct (draw_held RevenueBreakdown k2 s1 Hwf1 eq_refl) as (Hwf2 & Hb2 & Hk2);
    [rewrite Hc1; apply Hcv | rewrite Hw1; exact Hw|].
  fold s2 in Hwf2, Hb2, Hk2.
  destruct (draw_held RevenueMillion k3 s2 Hwf2 eq_refl) as (Hwf3 & Hm3 & Hk3);
    [rewrite Hc2, Hc1; apply Hcv | rewrite Hw2, Hw1; exact Hw|].
  split; [exact Hwf3|].
  assert (Hlen : forall f : Projection -> float, length (List.map f ps) = length ps)
    by (intros f; apply length_map).
  intros [| |].
  - exists k1. split.
    + apply Hk3; [discriminate|]. apply Hk2; [discriminate | exact Hl1].
    + unfold plots, k1. cbn [canvas destroyed labels datasets].
      repeat split. apply List.Forall_cons; [apply Hlen | apply List.Forall_nil].
  - exists k2. split.
    + apply Hk3; [discriminate | exact Hb2].
    + unfold plots, k2. cbn [canvas destroyed labels datasets].
      repeat split.
      apply List.Forall_cons; [apply Hlen|].
      apply List.Forall_cons; [apply Hlen | apply List.Forall_nil].
  - exists k3. split; [exact Hm3|].
    unfold plots, k3. cbn [canvas destroyed labels datasets].
    repeat split. apply List.Forall_cons; [|apply List.Forall_nil].
    cbn [snd]. rewrite length_map. apply Hlen.
Qed.

Lemma handles_wf_same_charts (s s' : State) :
  same_charts s s' -> handles_wf s -> handles_wf s'.
Proof.
  intros (Hi & Hl & Hb & Hm & _) Hwf slot i Hh. rewrite Hi.
  apply Hwf. destruct slot; cbn [App.handle] in *; congruence.
Qed.

Lemma held_same_charts (slot : Slot) (s s' : State) :
  same_charts s s' -> held slot s' = held slot s.
Proof.
  intros (Hi & Hl & Hb & Hm & _). unfold held. rewrite Hi.
  destruct slot; cbn [App.handle]; now rewrite ?Hl, ?Hb, ?Hm.
Qed.

(** When the page has the three canvases and Chart.js, [displayResults] of
    app.js leaves in every slot a live chart of the model it displays, as
    long as the model has a projection: the three charts have the months of
    the projections as labels, [M1], [M2], ..., and every series has one
    value for each projection, whatever charts the slots held before.  The
    switch to the charts tab that ends [displayResults] does not draw them a
    second time. *)
Theorem App_charts_plot_the_model_displayed (data : Model) (s : State) :
  handles_wf s ->
  (forall slot, existsb (Slot_eqb slot) (canvases s) = true) -> window_Chart s = true ->
  or_default (monthly_projections data) [] <> [] ->
  handles_wf (App.displayResults data s)
  /\ (forall slot, exists c,
         held slot (App.displayResults data s) = Some c
         /\ plots (or_default (monthly_projections data) []) slot c)
  /\ length (instances (App.displayResults data s)) = length (instances s) + 3.
Proof.
  intros Hwf Hcv Hw Hps. unfold App.displayResults. cbv zeta.
  rewrite App_displayProjectionsTable_eq, App_displayRevenueDrivers_eq,
    App_displayAssumptions_eq.
  set (s4 := set_assumptionsContainer _ _).
  assert (H4 : same_charts s s4) by frame.
  set (ps := or_default (monthly_projections data) []) in *.
  destruct (renderCharts_held ps s4 Hps (handles_wf_same_charts s s4 H4 Hwf))
    as (Hwf5 & Hheld5); [exact Hcv | exact Hw|].
  set (s5 := App.renderCharts ps s4) in *.
  assert (H5 : same_charts s5 (App.switchTab "charts" s5)).
  { apply App_switchTab_keeps_charts. right. right. left.
    destruct (Hheld5 RevenueLine) as (c & Hc & _). unfold held in Hc.
    cbn [App.handle] in Hc. destruct (revenueLine s5); [discriminate | discriminate Hc]. }
  split; [exact (handles_wf_same_charts _ _ H5 Hwf5)|]. split.
  - intros slot. destruct (Hheld5 slot) as (c & Hc & Hplots).
    exists c. split; [|exact Hplots]. rewrite (held_same_charts slot _ _ H5). exact Hc.
  - destruct H5 as (-> & _).
    unfold s5, App.renderCharts.
    destruct ps as [|p0 ps'] eqn:Eps; [contradiction|]. cbn [length Nat.eqb]. cbv zeta.
    assert (Hdraw : forall slot config st,
               existsb (Slot_eqb slot) (canvases st) = true -> window_Chart st = true ->
               length (instances (App.draw slot config st)) = S (length (instances st))).
    { intros slot config st Hc' Hw'. unfold App.draw. rewrite Hc', Hw'. cbn [andb].
      unfold App.new_Chart. cbv zeta beta iota. rewrite instances_set_handle.
      cbn [instances set_instances]. rewrite length_app. cbn [length].
      destruct (App.handle slot st); cbn [App.destroy instances set_instances];
        rewrite ?length_alter; lia. }
    match goal with
    | |- context [App.draw RevenueMillion ?c3 (App.draw RevenueBreakdown ?c2 (App.draw RevenueLine ?c1 s4))] =>
        destruct (draw_env RevenueLine c1 s4) as [Hc1 Hw1];
        destruct (draw_env RevenueBreakdown c2 (App.draw RevenueLine c1 s4)) as [Hc2 Hw2];
        rewrite (Hdraw RevenueMillion c3) by (rewrite ?Hc2, ?Hw2, ?Hc1, ?Hw1; auto);
        rewrite (Hdraw RevenueBreakdown c2) by (rewrite ?Hc1, ?Hw1; auto);
        rewrite (Hdraw RevenueLine c1) by auto
    end.
    change (instances s4) with (instances s). lia.
Qed.

Lemma example_page_handles_wf (origin query : string) : handles_wf (example_page origin query).
Proof. intros [| |] i H; discriminate H. Qed.

Lemma App_charts_plot_witness :
  let s := example_page "http://localhost" "" in
  handles_wf (App.displayResults example_model (App.displayResults example_model s))
  /\ length (instances (App.displayResults example_model (App.displayResults example_model s)))
     = 6.
Proof.
  cbv zeta.
  assert (Hcv : forall st, canvases st = [RevenueLine; RevenueBreakdown; RevenueMillion] ->
                           forall slot, existsb (Slot_eqb slot) (canvases st) = true)
    by (intros st -> [| |]; reflexivity).
  destruct (App_charts_plot_the_model_displayed example_model
              (example_page "http://localhost" "")
              (example_page_handles_wf _ _)
              (Hcv (example_page "http://localhost" "") eq_refl) eq_refl)
    as (Hwf1 & _ & Hlen1); [discriminate|].
  destruct (App_charts_plot_the_model_displayed example_model
              (App.displayResults example_model (example_page "http://localhost" ""))
              Hwf1
              (Hcv (App.displayResults example_model (example_page "http://localhost" ""))
                 ltac:(vm_compute; reflexivity))
              ltac:(vm_compute; reflexivity))
    as (Hwf2 & _ & Hlen2); [discriminate|].
  split; [exact Hwf2|]. rewrite Hlen2, Hlen1. reflexivity.
Defined.

(** ** Labels *)

Lemma upper_idem (a : ascii) : upper (upper a) = upper a.
Proof. destruct a as [[] [] [] [] [] [] [] []]; reflexivity. Qed.

Lemma is_word_upper (a : ascii) : is_word (upper a) = is_word a.
Proof. destruct a as [[] [] [] [] [] [] [] []]; reflexivity. Qed.

Lemma upper_no_underscore (a : ascii) :
  (code a =? 95)%Z = false -> (code (upper a) =? 95)%Z = false.
Proof. destruct a as [[] [] [] [] [] [] [] []]; intros H; try reflexivity; exact H. Qed.

Lemma capitalize_from_idem (s : string) :
  forall b, capitalize_from b (capitalize_from b s) = capitalize_from b s.
Proof.
  induction s as [|a r IH]; intros b; [reflexivity|].
  cbn [capitalize_from].
  destruct (is_word a && negb b) eqn:E.
  - rewrite is_word_upper, E, upper_idem. f_equal. apply IH.
  - rewrite E. f_equal. apply IH.
Qed.

Lemma capitalize_from_no_underscore (s : string) :
  forall b, string_forall (fun a => negb (code a =? 95)%Z) s = true ->
            string_forall (fun a => negb (code a =? 95)%Z) (capitalize_from b s) = true.
Proof.
  induction s as [|a r IH]; intros b H; [reflexivity|].
  cbn [capitalize_from string_forall] in *.
  apply andb_true_iff in H as [Ha Hr]. apply andb_true_iff. split; [|now apply IH].
  destruct (is_word a && negb b); [|exact Ha].
  apply negb_true_iff. apply upper_no_underscore. now apply negb_true_iff.
Qed.

Lemma underscores_to_spaces_no_underscore (s : string) :
  string_forall (fun a => negb (code a =? 95)%Z) (underscores_to_spaces s) = true.
Proof.
  unfold underscores_to_spaces. induction s as [|a r IH]; [reflexivity|].
  cbn [string_map string_forall]. rewrite IH, andb_true_r.
  destruct (code a =? 95)%Z eqn:E; [reflexivity | now rewrite E].
Qed.

Lemma underscores_to_spaces_fixed (s : string) :
  string_forall (fun a => negb (code a =? 95)%Z) s = true -> underscores_to_spaces s = s.
Proof.
  unfold underscores_to_spaces. induction s as [|a r IH]; intros H; [reflexivity|].
  cbn [string_map string_forall] in *. apply andb_true_iff in H as [Ha Hr].
  apply negb_true_iff in Ha. rewrite Ha. f_equal. now apply IH.
Qed.

Lemma capitalize_from_length (s : string) :
  forall b, String.length (capitalize_from b s) = String.length s.
Proof. induction s as [|a r IH]; intros b; cbn; [reflexivity | now rewrite IH]. Qed.

Lemma string_map_length (f : ascii -> ascii) (s : string) :
  String.length (string_map f s) = String.length s.
Proof. induction s as [|a r IH]; cbn; [reflexivity | now rewrite IH]. Qed.

(** A label is formatted once and for all: [formatText] of app.js gives, for
    a key, a label of the length of the key and without an underscore, and
    formatting the label again gives the label; [formatText] of part_000
    and [formatLabel] of script.js, which give the same label, leave it as it
    is too. *)
Theorem formatText_is_idempotent (key : string) :
  let label := App.formatText (JString key) in
  App.formatText (JString label) = label
  /\ Legacy.formatText (JString label) = Ok label
  /\ Script.formatLabel (JString label) = Ok label
  /\ String.length label = String.length key
  /\ count_char "_" label = 0.
Proof.
  cbv zeta. rewrite !App_formatText_string.
  cbn [Legacy.formatText Script.formatLabel].
  set (label := capitalize_words (underscores_to_spaces key)).
  assert (Hclean : string_forall (fun a => negb (code a =? 95)%Z) label = true).
  { apply capitalize_from_no_underscore, underscores_to_spaces_no_underscore. }
  assert (Hidem : capitalize_words (underscores_to_spaces label) = label).
  { rewrite (underscores_to_spaces_fixed label Hclean).
    apply capitalize_from_idem. }
  rewrite Hidem. repeat split.
  - unfold label, capitalize_words, underscores_to_spaces.
    now rewrite capitalize_from_length, string_map_length.
  - clear Hidem. induction label as [|a r IH]; [reflexivity|].
    cbn [string_forall count_char] in *. apply andb_true_iff in Hclean as [Ha Hr].
    rewrite (IH Hr), Nat.add_0_r.
    destruct (Ascii.eqb_spec a "_") as [->|_]; [discriminate Ha | reflexivity].
Qed.

(** ** The URL of a search *)

Lemma string_forall_app (p : ascii -> bool) (a b : string) :
  string_forall p (a +:+ b) = string_forall p a && string_forall p b.
Proof.
  induction a as [|c a IH]; [reflexivity|].
  change (string_forall p (String c (a +:+ b)) = string_forall p (String c a) && string_forall p b).
  cbn [string_forall]. now rewrite IH, andb_assoc.
Qed.

Lemma count_char_app (c : ascii) (a b : string) :
  count_char c (a +:+ b) = count_char c a + count_char c b.
Proof.
  induction a as [|x a IH]; [reflexivity|].
  change (count_char c (String x (a +:+ b)) = count_char c (String x a) + count_char c b).
  cbn [count_char]. rewrite IH. lia.
Qed.

Lemma encodeURIComponent_chunk (a : ascii) :
  string_forall url_safe
    (if is_alnum a || mem_ascii a "-_.!~*'()" then String a EmptyString else percent a) = true.
Proof. destruct a as [[] [] [] [] [] [] [] []]; reflexivity. Qed.

Lemma encodeURIComponent_safe (s : string) :
  string_forall url_safe (encodeURIComponent s) = true.
Proof.
  unfold encodeURIComponent. induction s as [|a r IH]; [reflexivity|].
  cbn [escape_bytes andb]. rewrite string_forall_app, IH, andb_true_r.
  apply encodeURIComponent_chunk.
Qed.

Lemma form_urlencode_chunk (a : ascii) :
  let chunk := if is_alnum a || mem_ascii a "*-._" then String a EmptyString
               else if true && (code a =? 32)%Z then "+" else percent a in
  count_char "&" chunk = 0 /\ count_char "=" chunk = 0 /\ count_char "#" chunk = 0.
Proof. destruct a as [[] [] [] [] [] [] [] []]; repeat split. Qed.

Lemma form_urlencode_count (s : string) :
  count_char "&" (form_urlencode s) = 0 /\ count_char "=" (form_urlencode s) = 0
  /\ count_char "#" (form_urlencode s) = 0.
Proof.
  unfold form_urlencode. induction s as [|a r (IH1 & IH2 & IH3)]; [repeat split|].
  cbn [escape_bytes]. rewrite !count_char_app, IH1, IH2, IH3.
  destruct (form_urlencode_chunk a) as (H1 & H2 & H3). cbv zeta in H1, H2, H3.
  rewrite H1, H2, H3. repeat split.
Qed.

Lemma optional_param_count (name value : string) :
  count_char "&" name = 0 -> count_char "=" name = 0 -> count_char "#" name = 0 ->
  let n := if String.eqb value "" then 0 else 1 in
  count_char "&" (Script.optional_param name value) = n
  /\ count_char "=" (Script.optional_param name value) = n
  /\ count_char "#" (Script.optional_param name value) = 0.
Proof.
  intros H1 H2 H3. cbv zeta. unfold Script.optional_param.
  destruct (String.eqb value ""); [repeat split|].
  destruct (form_urlencode_count value) as (F1 & F2 & F3).
  rewrite !count_char_app, H1, H2, H3, F1, F2, F3. repeat split.
Qed.

(** What the user types cannot change the shape of the request.  In the
    class variants the query is the one parameter of the search URL: after
    [query=] come only letters, digits, the marks [-_.!~*'()] and escapes, so
    no [&], [=], [#], [?], [/] or space.  In script.js the parameters are the
    query and one more for each optional input that is filled in: the text
    of [params] has that many [&], one [=] for each parameter and no [#]. *)
Theorem the_query_cannot_add_parameters :
  (forall s : State,
      exists q, search_url s = API_BASE s +:+ "/api/v1/search?query=" +:+ q
                /\ string_forall url_safe q = true
                /\ count_char "&" q = 0 /\ count_char "=" q = 0 /\ count_char "#" q = 0)
  /\ (forall f : Script.Form,
         count_char "&" (Script.search_params f) = Script_filled f
         /\ count_char "=" (Script.search_params f) = 1 + Script_filled f
         /\ count_char "#" (Script.search_params f) = 0).
Proof.
  split.
  - intros s. exists (encodeURIComponent (trim (queryInput s))).
    split; [reflexivity|].
    pose proof (encodeURIComponent_safe (trim (queryInput s))) as Hsafe.
    split; [exact Hsafe|].
    assert (Hcount : forall q c, url_safe c = false -> string_forall url_safe q = true ->
                                 count_char c q = 0).
    { induction q as [|a r IH]; intros c Hc Hq; [reflexivity|].
      cbn [string_forall count_char] in *. apply andb_true_iff in Hq as [Ha Hr].
      rewrite (IH c Hc Hr). destruct (Ascii.eqb_spec a c) as [->|_]; [congruence | reflexivity]. }
    repeat split; apply Hcount; try exact Hsafe; reflexivity.
  - intros f. unfold Script.search_params, Script_filled.
    destruct (form_urlencode_count (Script.query f)) as (Q1 & Q2 & Q3).
    destruct (optional_param_count "months" (Script.months f) eq_refl eq_refl eq_refl)
      as (A1 & A2 & A3).
    destruct (optional_param_count "initial_sales_people" (Script.initialSalesPeople f)
                eq_refl eq_refl eq_refl) as (B1 & B2 & B3).
    destruct (optional_param_count "marketing_spend_monthly" (Script.marketingSpend f)
                eq_refl eq_refl eq_refl) as (C1 & C2 & C3).
    destruct (optional_param_count "large_customer_revenue_monthly"
                (Script.largeCustomerRevenue f) eq_refl eq_refl eq_refl) as (D1 & D2 & D3).
    cbv zeta in *.
    rewrite !count_char_app, Q1, Q2, Q3, A1, A2, A3, B1, B2, B3, C1, C2, C3, D1, D2, D3.
    cbn [List.filter].
    destruct (String.eqb (Script.months f) ""), (String.eqb (Script.initialSalesPeople f) ""),
      (String.eqb (Script.marketingSpend f) ""), (String.eqb (Script.largeCustomerRevenue f) "");
      repeat split.
Qed.

(** ** Blank queries *)











(** ** The cards of the two class variants *)

Lemma falsy_number_shown (x : float) :
  truthy_number x = false -> Number_toString x = "0" \/ Number_toString x = "NaN".
Proof.
  unfold truthy_number, PrimFloat.is_nan, Number_toString. rewrite !FloatAxioms.eqb_spec.
  change (Prim2SF PrimFloat.zero) with (S754_zero false).
  destruct (Prim2SF x) as [s|s| |s m e]; intros H.
  - now left.
  - destruct s; discriminate H.
  - now right.
  - exfalso. unfold SFeqb, SFcompare in H.
    rewrite Z.compare_refl, Pos.compare_cont_refl in H.
    destruct s; discriminate H.
Qed.

(** The two class variants build the same cards, but for the value of a
    driver: part_000 reads it with [||], app.js with [??].  For a driver
    with a name whose value is missing or truthy the cards are the same; a
    value that is there but falsy ([0], [NaN], the empty string) is shown by
    app.js and replaced by [N/A] in part_000, which shows the driver as
    app.js shows it without its value.  The cards of the assumptions are
    the same throughout. *)
Theorem cards_of_the_class_variants :
  (forall d : Driver,
      has_name d = true ->
      (falsy_value (d_value d) = false -> Legacy.driver_card d = Ok (App.driver_card d))
      /\ (falsy_value (d_value d) = true ->
          Legacy.driver_card d = Ok (App.driver_card (without_value d))
          /\ App.driver_card d <> App.driver_card (without_value d)))
  /\ (forall entry : string * scalar,
         Legacy.assumption_card entry = Ok (App.assumption_card entry)).
Proof.
  split.
  - intros d Hname. unfold has_name in Hname.
    unfold Legacy.driver_card, App.driver_card, without_value.
    destruct (d_name d) as [| |n]; try discriminate Hname.
    cbn [value_of_string Legacy.formatText d_name d_type d_value d_unit d_formula
         d_business_unit].
    rewrite App_formatText_string.
    set (value_text := fun h : Html =>
                         match h with
                         | El _ _ (_ :: _ :: El _ _ [_; Text t] :: _) => t
                         | _ => ""
                         end).
    split; intros Hv.
    + destruct (d_value d) as [| |[x|t]]; cbn [Legacy.value_or_NA show_scalar falsy_value] in *;
        try reflexivity.
      * apply negb_false_iff in Hv. now rewrite Hv.
      * now rewrite Hv.
    + destruct (d_value d) as [| |[x|t]]; cbn [falsy_value] in Hv; try discriminate Hv;
        cbn [Legacy.value_or_NA show_scalar].
      * apply negb_true_iff in Hv. rewrite Hv. split; [reflexivity|].
        intros Heq.
        apply (f_equal value_text) in Heq. cbn [value_text] in Heq.
        destruct (falsy_number_shown x Hv) as [E|E]; rewrite E in Heq;
          simpl in Heq; discriminate Heq.
      * rewrite Hv. split; [reflexivity|].
        apply String.eqb_eq in Hv. subst t. intros Heq.
        apply (f_equal value_text) in Heq. simpl in Heq. discriminate Heq.
  - intros entry. unfold Legacy.assumption_card, App.assumption_card.
    cbn [Legacy.formatText]. now rewrite App_formatText_string.
Qed.

Lemma cards_of_the_class_variants_witness :
  let d := mkDriver (Present "churn") Absent (Present (SNum 0%float)) (Present "%") Absent
             Absent in
  has_name d = true /\ falsy_value (d_value d) = true
  /\ Legacy.driver_card d = Ok (App.driver_card (without_value d))
  /\ App.driver_card d <> App.driver_card (without_value d).
Proof.
  cbv zeta. split; [reflexivity|]. split; [reflexivity|].
  exact (proj2 (proj1 cards_of_the_class_variants
                  (mkDriver (Present "churn") Absent (Present (SNum 0%float)) (Present "%")
                     Absent Absent) eq_refl) eq_refl).
Defined.

(** ** Charts that are left alone *)

Lemma draw_skipped (slot : Slot) (config : Chart) (s : State) :
  window_Chart s = false \/ canvases s = [] -> App.draw slot config s = s.
Proof.
  intros [H|H]; unfold App.draw; rewrite H; [now rewrite andb_false_r | reflexivity].
Qed.

Lemma renderCharts_skipped (ps : list Projection) (s : State) :
  ps = [] \/ window_Chart s = false \/ canvases s = [] -> App.renderCharts ps s = s.
Proof.
  intros [->|H]; [reflexivity|]. unfold App.renderCharts.
  destruct (Nat.eqb (length ps) 0); [reflexivity|]. cbv zeta.
  rewrite (draw_skipped RevenueLine _ s H), (draw_skipped RevenueBreakdown _ s H).
  exact (draw_skipped RevenueMillion _ s H).
Qed.

(** [displayResults] of app.js draws nothing when the model it displays,
    the one held, has no projection, and for any model when Chart.js is not
    loaded or the page has no canvas: the charts stay as they were, those of
    the model shown before included, while the rest of the view shows the new
    model. *)
Theorem App_charts_are_left_alone (data : Model) (s : State) :
  (currentModel s = Some data /\ or_default (monthly_projections data) [] = [])
  \/ window_Chart s = false \/ canvases s = [] ->
  same_charts s (App.displayResults data s)
  /\ forall slot, held slot (App.displayResults data s) = held slot s.
Proof.
  intros H.
  assert (Hsame : same_charts s (App.displayResults data s)).
  { unfold App.displayResults. cbv zeta.
    rewrite App_displayProjectionsTable_eq, App_displayRevenueDrivers_eq,
      App_displayAssumptions_eq.
    set (s4 := set_assumptionsContainer _ _).
    assert (H4 : same_charts s s4) by frame.
    rewrite (renderCharts_skipped _ s4) by (destruct H as [[_ H]|H]; [now left | now right]).
    etransitivity; [exact H4|].
    unfold App.switchTab. cbv zeta.
    set (s5 := set_tab_panes _ (set_tab_btns _ s4)).
    assert (H5 : same_charts s4 s5) by frame.
    cbn [String.eqb Ascii.eqb Bool.eqb].
    change (currentModel s5) with (currentModel s).
    destruct (currentModel s) as [model|] eqn:Hm; [|exact H5].
    destruct (monthly_projections model) as [| |ps] eqn:Hps; try exact H5.
    destruct (revenueLine s5), (revenueBreakdown s5), (revenueMillion s5); try exact H5.
    rewrite (renderCharts_skipped ps s5); [exact H5|].
    destruct H as [[Hd He]|H]; [left | right; exact H].
    injection Hd as <-. rewrite Hps in He. exact He. }
  split; [exact Hsame | intros slot; now apply held_same_charts].
Qed.

Lemma App_charts_are_left_alone_witness :
  let data := mkModel "m-6" (Present []) Absent Absent Absent in
  let s := set_currentModel (Some data)
             (App.displayResults example_model (example_page "http://localhost" "")) in
  (currentModel s = Some data /\ or_default (monthly_projections data) [] = [])
  /\ same_charts s (App.displayResults data s).
Proof.
  cbv zeta.
  assert (H : currentModel
                (set_currentModel (Some (mkModel "m-6" (Present []) Absent Absent Absent))
                   (App.displayResults example_model (example_page "http://localhost" "")))
              = Some (mkModel "m-6" (Present []) Absent Absent Absent)
              /\ or_default (monthly_projections (mkModel "m-6" (Present []) Absent Absent Absent))
                   [] = []) by (split; reflexivity).
  split; [exact H|].
  exact (proj1 (App_charts_are_left_alone _ _ (or_introl H))).
Defined.

(** ** script.js: results are shown only when complete *)

#[local] Instance Script_same_session_preorder : PreOrder Script_same_session.
Proof.
  split.
  - intros s. repeat split.
  - intros s1 s2 s3 (A1 & A2 & A3 & A4 & A5 & A6) (B1 & B2 & B3 & B4 & B5 & B6).
    unfold Script_same_session. rewrite B1, B2, B3, B4, B5, B6. now repeat split.
Qed.

Lemma Script_keeps_bind {A B} (c : M Script.State A) (k : A -> M Script.State B) :
  Script_keeps c -> (forall a, Script_keeps (k a)) -> Script_keeps (x <- c ;; k x).
Proof.
  intros Hc Hk s. unfold bind. specialize (Hc s).
  destruct (c s) as [[a|e] s1]; cbn [snd] in *; [|exact Hc].
  etransitivity; [exact Hc | apply Hk].
Qed.

Lemma Script_keeps_forEachM {A} (f : A -> M Script.State unit) (l : list A) :
  (forall a, Script_keeps (f a)) -> Script_keeps (Script.forEachM f l).
Proof.
  intros Hf. induction l as [|a l IH]; cbn [Script.forEachM].
  - intros s. reflexivity.
  - apply Script_keeps_bind; [apply Hf | intros _; exact IH].
Qed.

Lemma Script_keeps_lift {A} (o : Outcome A) : Script_keeps (lift o).
Proof. intros s. unfold lift. destruct o; reflexivity. Qed.

Lemma Script_keeps_throw {A} (e : JsError) : Script_keeps (@throw Script.State A e).
Proof. intros s. reflexivity. Qed.

Lemma Script_keeps_ret {A} (a : A) : Script_keeps (@ret Script.State A a).
Proof. intros s. reflexivity. Qed.

Lemma Script_keeps_exec (f : Script.State -> Script.State) :
  (forall s, Script_same_session s (f s)) -> Script_keeps (exec f).
Proof. intros Hf s. apply Hf. Qed.

Lemma Script_displayRevenueDrivers_keeps (f : field (list Script.Driver)) :
  Script_keeps (Script.displayRevenueDrivers f).
Proof.
  unfold Script.displayRevenueDrivers.
  apply Script_keeps_bind; [apply Script_keeps_exec; script_frame | intros _].
  destruct f as [| |l]; try apply Script_keeps_throw.
  apply Script_keeps_forEachM. intros d.
  apply Script_keeps_bind; [apply Script_keeps_lift | intros item].
  apply Script_keeps_exec. script_frame.
Qed.

Lemma Script_displayProjectionsTable_keeps (f : field (list Script.Projection)) :
  Script_keeps (Script.displayProjectionsTable f).
Proof.
  unfold Script.displayProjectionsTable.
  apply Script_keeps_bind; [apply Script_keeps_exec; script_frame | intros _].
  destruct f as [| |l]; try apply Script_keeps_throw.
  apply Script_keeps_forEachM. intros p. apply Script_keeps_exec. script_frame.
Qed.

Lemma Script_displayAssumptions_keeps (f : field (list (string * field float))) :
  Script_keeps (Script.displayAssumptions f).
Proof.
  unfold Script.displayAssumptions.
  apply Script_keeps_bind; [apply Script_keeps_exec; script_frame | intros _].
  apply Script_keeps_forEachM. intros key.
  destruct f as [| |l]; try apply Script_keeps_throw.
  destruct (Script.lookup_key key l); [|apply Script_keeps_ret].
  apply Script_keeps_bind; [apply Script_keeps_lift | intros item].
  apply Script_keeps_exec. script_frame.
Qed.

(** In script.js the results section is shown only for a model that was
    displayed to the end.  After a reply with a model the id is kept and
    loading is hidden, whatever happens next; when [displayResults] returns,
    the results are on show and no alert was raised; when it throws, at any
    point, the results stay hidden and the message of the error is raised as
    an alert. *)
Theorem Script_results_are_shown_only_when_complete
    (net : Network Script.Model) (data : Script.Model) (s : Script.State) :
  search net (Script.API_BASE s +:+ "/api/v1/search?" +:+ Script.search_params (Script.form s))
  = Success (Ok data) ->
  let s' := run (Script.handleQuerySubmit net) s in
  Script.currentModelId s' = Some (Script.model_id data)
  /\ Script.loadingSection_shown s' = false
  /\ match fst (Script.displayResults data (Script_received data s)) with
     | Ok _ => Script.resultsSection_shown s' = true /\ Script.alerts s' = Script.alerts s
     | Throw e =>
         Script.resultsSection_shown s' = false
         /\ Script.alerts s' = Script.alerts s ++ ["Error: " +:+ message e]
     end.
Proof.
  intros Hreply. cbv zeta. unfold run.
  rewrite (Script_handleQuerySubmit_unfold net data s Hreply).
  set (s0 := Script_received data s).
  assert (Hshape :
            exists (body : M Script.State unit) (last : bool),
              Script_keeps body
              /\ Script.displayResults data s0
                 = match body (Script.set_modelId
                                 (utf16_prefix 8 (Script.model_id data) +:+ "...")
                                 (Script.hideLoading s0)) with
                   | (Ok a, s1) => if last then (Ok a, Script.set_resultsSection_shown true s1)
                                   else (Ok a, s1)
                   | (Throw e, s1) => (Throw e, s1)
                   end
              /\ (last = false -> exists e, forall st, fst (body st) = Throw e)).
  { unfold Script.displayResults. rewrite !exec_then.
    destruct (Script.monthly_projections data) as [| |ps] eqn:Eps.
    - exists (throw (TypeError "Cannot read properties of undefined (reading 'length')")), false.
      split; [apply Script_keeps_throw|]. split; [reflexivity|]. intros _. eexists. reflexivity.
    - exists (throw (TypeError "Cannot read properties of null (reading 'length')")), false.
      split; [apply Script_keeps_throw|]. split; [reflexivity|]. intros _. eexists. reflexivity.
    - destruct (ps !! 0) as [firstMonth|] eqn:E0; [destruct (last_of ps) as [lastMonth|] eqn:El|].
      + exists (exec (Script.set_timeHorizon (digits_of (Z.of_nat (length ps)) +:+ " months")) ;;
                exec (Script.set_month1Revenue
                        (Script.formatCurrency (Script.total_revenue firstMonth))) ;;
                exec (Script.set_finalRevenue
                        (Script.formatCurrency (Script.total_revenue lastMonth))) ;;
                Script.displayRevenueDrivers (Script.revenue_drivers data) ;;
                Script.displayProjectionsTable (Present ps) ;;
                Script.displayAssumptions (Script.assumptions data)), true.
        split; [|split; [|discriminate]].
        * do 3 (apply Script_keeps_bind;
                  [apply Script_keeps_exec; script_frame | intros _]).
          apply Script_keeps_bind; [apply Script_displayRevenueDrivers_keeps | intros _].
          apply Script_keeps_bind; [apply Script_displayProjectionsTable_keeps | intros _].
          apply Script_displayAssumptions_keeps.
        * rewrite !exec_then. unfold bind, exec.
          repeat match goal with
                 | |- context [match ?c ?st with _ => _ end] =>
                     lazymatch c with
                     | Script.displayRevenueDrivers _ => destruct (c st) as [[[]|?] ?]
                     | Script.displayProjectionsTable _ => destruct (c st) as [[[]|?] ?]
                     | Script.displayAssumptions _ => destruct (c st) as [[[]|?] ?]
                     end
                 end; reflexivity.
      + exists (exec (Script.set_timeHorizon (digits_of (Z.of_nat (length ps)) +:+ " months")) ;;
                throw Script.no_total_revenue), false.
        split; [|split; [rewrite !exec_then; reflexivity|]].
        * apply Script_keeps_bind; [apply Script_keeps_exec; script_frame | intros _].
          apply Script_keeps_throw.
        * intros _. eexists. intros st. reflexivity.
      + exists (exec (Script.set_timeHorizon (digits_of (Z.of_nat (length ps)) +:+ " months")) ;;
                throw Script.no_total_revenue), false.
        split; [|split; [rewrite !exec_then; reflexivity|]].
        * apply Script_keeps_bind; [apply Script_keeps_exec; script_frame | intros _].
          apply Script_keeps_throw.
        * intros _. eexists. intros st. reflexivity. }
  destruct Hshape as (body & last & Hkeeps & Heq & Hlast).
  rewrite Heq. clear Heq.
  set (s1 := Script.set_modelId _ (Script.hideLoading s0)).
  destruct (Hkeeps s1) as (K1 & K2 & K3 & K4 & _).
  destruct (body s1) as [[[]|e] s2] eqn:Hbody; cbn [snd] in *.
  - destruct last.
    + cbn [fst]. split; [exact K1|]. split; [exact K2|]. split; [reflexivity | exact K4].
    + exfalso. destruct (Hlast eq_refl) as [e He]. specialize (He s1).
      rewrite Hbody in He. discriminate He.
  - cbn [fst]. unfold Script.showError, Script.hideLoading. cbv zeta.
    cbn [Script.currentModelId Script.loadingSection_shown Script.resultsSection_shown
         Script.alerts Script.set_alerts Script.set_loadingSection_shown].
    split; [exact K1|]. split; [reflexivity|]. split; [exact K3|]. now rewrite K4.
Qed.

Lemma Script_results_witness :
  let data := Script.mkModel "m-7"
                (Present [Script.mkProjection (Present 1%float) Absent Absent Absent Absent
                            Absent Absent (Present 10%float)])
                Absent (Present []) in
  let s' := run (Script.handleQuerySubmit (always (Success (Ok data))))
              (example_form_page "http://localhost" (Script.mkForm "q" "" "" "" "")) in
  Script.currentModelId s' = Some "m-7" /\ Script.loadingSection_shown s' = false
  /\ Script.resultsSection_shown s' = false.
Proof.
  cbv zeta.
  destruct (Script_results_are_shown_only_when_complete
              (always (Success (Ok (Script.mkModel "m-7"
                 (Present [Script.mkProjection (Present 1%float) Absent Absent Absent Absent
                             Absent Absent (Present 10%float)])
                 Absent (Present [])))))
              (Script.mkModel "m-7"
                 (Present [Script.mkProjection (Present 1%float) Absent Absent Absent Absent
                             Absent Absent (Present 10%float)])
                 Absent (Present []))
              (example_form_page "http://localhost" (Script.mkForm "q" "" "" "" ""))
              eq_refl)
    as (H1 & H2 & H3).
  split; [exact H1|]. split; [exact H2|].
  exact (proj1 H3).
Defined.

(** ** A search that succeeds: the model, the error and the tabs *)

Lemma first_unnamed (ds : list Driver) :
  forallb has_name ds = false ->
  exists ds1 d ds2, ds = ds1 ++ d :: ds2 /\ forallb has_name ds1 = true /\ has_name d = false.
Proof.
  induction ds as [|d ds IH]; intros H; [discriminate H|].
  cbn [forallb] in H. destruct (has_name d) eqn:Hd.
  - destruct (IH H) as (ds1 & d' & ds2 & -> & H1 & H2).
    exists (d :: ds1), d', ds2. split; [reflexivity|]. split; [|exact H2].
    cbn [forallb]. now rewrite Hd, H1.
  - exists [], d, ds. now repeat split.
Qed.

Lemma Legacy_displayResults_throws (data : Model) (s : State) :
  displayable data = false -> exists e, fst (Legacy.displayResults data s) = Throw e.
Proof.
  unfold displayable. intros H. unfold Legacy.displayResults. rewrite !exec_then.
  destruct (monthly_projections data) as [| |ps]; try (eexists; reflexivity).
  cbn [nullish negb andb] in H.
  destruct (revenue_drivers data) as [| |ds]; try discriminate H.
  cbn [or_default] in H.
  destruct (first_unnamed ds H) as (ds1 & d & ds2 & -> & Hnamed & Hd).
  rewrite !exec_then.
  set (s5 := Legacy.displayProjectionsTable ps _).
  destruct (Legacy_cards_until_unnamed ds1 ds2 d (set_driversContainer [] s5) Hnamed Hd)
    as (e & cards & He & _).
  assert (Hdrivers :
            Legacy.displayRevenueDrivers (Present (ds1 ++ d :: ds2)) s5
            = forEachM (fun driver =>
                          card <- lift (Legacy.driver_card driver) ;;
                          exec (fun s => set_driversContainer (driversContainer s ++ [card]) s))
                (ds1 ++ d :: ds2) (set_driversContainer [] s5)).
  { unfold Legacy.displayRevenueDrivers. rewrite exec_then. now destruct ds1. }
  rewrite <- Hdrivers in He.
  exists e. rewrite (throw_then _ _ _ _ He). reflexivity.
Qed.

(** C9, as amended.  A search that succeeds stores the new model in place
    of the old one, in both class variants and for every model.

    The tabs: in part_000 they stay as they were, for every model; in
    app.js [displayResults] ends on the charts tab, which becomes the
    active one whatever tab was active before.

    The error: it is hidden when the request is sent, and nothing that
    runs after the await hides it.  In app.js what runs after the await
    leaves the error element as it finds it, so that no error is on show at
    the end of a run during which no other handler ran, and an error shown
    while the search waited stays on show.  In part_000 the same holds for a
    model it can display (projections present, every driver named); for any
    other model [displayResults] throws and the error is on show at the
    end. *)
Theorem C9_a_new_model_replaces_the_old_one
    (net : Network Model) (s : State) (data : Model) :
  trim (queryInput s) <> "" ->
  search net (search_url s) = Success (Ok data) ->
  (currentModel (run (App.generateModel net) s) = Some data
   /\ error_cleared (run (App.generateModel net) s)
   /\ active (tab_btns (run (App.generateModel net) s))
      = (if has_key "charts" (tab_btns s) then ["charts"] else [])
   /\ active (tab_panes (run (App.generateModel net) s))
      = (if has_key "chartsTab" (tab_panes s) then ["chartsTab"] else []))
  /\
  (currentModel (run (Legacy.generateModel net) s) = Some data
   /\ tab_btns (run (Legacy.generateModel net) s) = tab_btns s
   /\ tab_panes (run (Legacy.generateModel net) s) = tab_panes s
   /\ (displayable data = true -> error_cleared (run (Legacy.generateModel net) s))
   /\ (displayable data = false ->
       exists msg, errorMessage (run (Legacy.generateModel net) s)
                   = Some (mkErrorElement false msg)))
  /\
  (run (App.generateModel net) s
   = App.showLoading false (App_settle (Success (Ok data)) (App_requested s))
   /\ run (Legacy.generateModel net) s
      = Legacy.showLoading false (Legacy_settle (Success (Ok data)) (App_requested s))
   /\ forall s1 : State,
        (currentModel (App.showLoading false (App_settle (Success (Ok data)) s1)) = Some data
         /\ errorMessage (App.showLoading false (App_settle (Success (Ok data)) s1))
            = errorMessage s1)
        /\ (currentModel (Legacy.showLoading false (Legacy_settle (Success (Ok data)) s1))
            = Some data
            /\ (displayable data = true ->
                errorMessage (Legacy.showLoading false (Legacy_settle (Success (Ok data)) s1))
                = errorMessage s1))).
Proof.
  intros Hq Hnet.
  destruct (App_requested_frame s) as (_ & Hclr & [Hb0 Hp0] & _).
  assert (Happ : forall s1,
             currentModel (App.showLoading false (App_settle (Success (Ok data)) s1)) = Some data
             /\ errorMessage (App.showLoading false (App_settle (Success (Ok data)) s1))
                = errorMessage s1
             /\ tab_btns (App.showLoading false (App_settle (Success (Ok data)) s1))
                = activate_first "charts" (deactivate_all (tab_btns s1))
             /\ tab_panes (App.showLoading false (App_settle (Success (Ok data)) s1))
                = activate_first "chartsTab" (deactivate_all (tab_panes s1))).
  { intros s1. cbn [App_settle].
    destruct (App_displayResults_spec data (set_currentModel (Some data) s1))
      as ((_ & Hm & _ & _ & He & _) & _ & _ & _ & Hb & Hp).
    split; [exact Hm|]. split; [exact He|]. split; [exact Hb | exact Hp]. }
  assert (Hlegacy : forall s1,
             currentModel (Legacy.showLoading false (Legacy_settle (Success (Ok data)) s1))
             = Some data
             /\ tab_btns (Legacy.showLoading false (Legacy_settle (Success (Ok data)) s1))
                = tab_btns s1
             /\ tab_panes (Legacy.showLoading false (Legacy_settle (Success (Ok data)) s1))
                = tab_panes s1
             /\ (displayable data = true ->
                 errorMessage (Legacy.showLoading false (Legacy_settle (Success (Ok data)) s1))
                 = errorMessage s1)
             /\ (displayable data = false ->
                 exists msg,
                   errorMessage (Legacy.showLoading false (Legacy_settle (Success (Ok data)) s1))
                   = Some (mkErrorElement false msg))).
  { intros s1. cbn [Legacy_settle].
    pose proof (Legacy_displayResults_keeps data (set_currentModel (Some data) s1))
      as ((_ & Hm & _ & _ & He & _) & (Hb & Hp) & _).
    pose proof (Legacy_displayResults_returns data (set_currentModel (Some data) s1)) as Hok.
    pose proof (Legacy_displayResults_throws data (set_currentModel (Some data) s1)) as Hthrow.
    destruct (Legacy.displayResults data (set_currentModel (Some data) s1)) as [[[]|e] s2];
      cbn [fst snd] in *.
    - split; [exact Hm|]. split; [exact Hb|]. split; [exact Hp|].
      split; [intros _; exact He|].
      intros Hd. destruct (Hthrow Hd) as [e He']. discriminate He'.
    - split; [exact Hm|]. split; [exact Hb|]. split; [exact Hp|].
      split; [intros Hd; specialize (Hok Hd); discriminate Hok|].
      intros _. now eexists. }
  unfold run. rewrite (App_generateModel_unfold net s Hq), (Legacy_generateModel_unfold net s Hq).
  rewrite Hnet. cbn [snd].
  destruct (Happ (App_requested s)) as (Am & Ae & Ab & Ap).
  destruct (Hlegacy (App_requested s)) as (Lm & Lb & Lp & Le & Lt).
  split; [|split].
  - split; [exact Am|]. split; [unfold error_cleared; rewrite Ae; exact Hclr|].
    split; [rewrite Ab, Hb0 | rewrite Ap, Hp0]; apply active_after_switch.
  - split; [exact Lm|]. split; [now rewrite Lb|]. split; [now rewrite Lp|].
    split; [|exact Lt].
    intros Hd. unfold error_cleared. rewrite (Le Hd). exact Hclr.
  - split; [reflexivity|]. split; [reflexivity|].
    intros s1. destruct (Happ s1) as (Am1 & Ae1 & _).
    destruct (Hlegacy s1) as (Lm1 & _ & _ & Le1 & _).
    split; [split; [exact Am1 | exact Ae1] | split; [exact Lm1 | exact Le1]].
Qed.

Lemma C9_a_new_model_witness :
  let net := always (Success (Ok example_model)) in
  let s := example_page "http://localhost" "forecast" in
  let blank := App.showError "Please describe your financial scenario" (App_requested s) in
  currentModel (run (App.generateModel net) s) = Some example_model
  /\ tab_btns (run (Legacy.generateModel net) s) = tab_btns s
  /\ errorMessage (App.showLoading false (App_settle (Success (Ok example_model)) blank))
     = Some (mkErrorElement false "Please describe your financial scenario").
Proof.
  cbv zeta.
  assert (Hq : trim (queryInput (example_page "http://localhost" "forecast")) <> "")
    by (vm_compute; discriminate).
  destruct (C9_a_new_model_replaces_the_old_one
              (always (Success (Ok example_model)))
              (example_page "http://localhost" "forecast") example_model Hq eq_refl)
    as ((Hm & _) & (_ & Hb & _) & (_ & _ & Hany)).
  split; [exact Hm|]. split; [exact Hb|].
  destruct (Hany (App.showError "Please describe your financial scenario"
                    (App_requested (example_page "http://localhost" "forecast"))))
    as ((_ & He) & _).
  rewrite He. reflexivity.
Defined.
